(** * bacpipe: cache resolution and metadata reconciliation

    A shallow embedding of [bacpipe/generate_embeddings.py] (classes
    [Loader] and [Embedder], and [save_embeddings_dict_with_timestamps])
    together with the properties its specification states about it.

    Python objects are modelled as follows.
    - A [pathlib.Path] is the list of its parts, a root ([/] or [//])
      being the first part of an absolute path.  The names the program
      builds itself are single parts; the override name, which the caller
      provides, is parsed as [pathlib] parses it.  No part is resolved:
      the properties about an override name are stated for names without
      a [..] part.
    - The file system is one finite map from paths to nodes; [iterdir],
      [glob], [rglob], [rmdir], [open] and [is_dir] are queries and updates
      of that map.
    - [self], the file system, standard output and the clock form the
      state; methods are functions in a state-and-exception monad whose
      failures keep the state reached when the exception was raised.
    - A Python float is an IEEE 754 binary64 number: a [spec_float] with
      the operations of the standard library at precision 53, which round
      to nearest, ties to even, as the hardware does. *)

From Stdlib Require Import Ascii ZArith Floats.
From stdpp Require Import gmap strings list sorting pretty.

Set Warnings "-inexact-float".

(** ** Strings *)

(** Python's [sub in s]. *)
Fixpoint contains (sub s : string) : bool :=
  String.prefix sub s ||
  match s with
  | EmptyString => false
  | String _ s' => contains sub s'
  end.

(** The match of the pattern [*suf], a suffix taken as literal text:
    [s] ends with [suf]. *)
Fixpoint ends_with (suf s : string) : bool :=
  String.eqb suf s ||
  match s with
  | EmptyString => false
  | String _ s' => ends_with suf s'
  end.

(** [s.rfind(c)], [None] standing for -1. *)
Fixpoint rfind (c : Ascii.ascii) (s : string) : option nat :=
  match s with
  | EmptyString => None
  | String a s' =>
      match rfind c s' with
      | Some i => Some (S i)
      | None => if Ascii.eqb a c then Some 0%nat else None
      end
  end.

(** [PurePath.stem] of a final component. *)
Definition stem_of (name : string) : string :=
  match rfind "."%char name with
  | Some i =>
      if (0 <? i)%nat && (i <? String.length name - 1)%nat
      then String.substring 0 i name
      else name
  | None => name
  end.

(** [s.replace(old, new)]: every occurrence, left to right, without
    overlap.  The fuel bounds the number of characters still to scan. *)
Fixpoint replace_go (fuel : nat) (old new s : string) : string :=
  match fuel with
  | O => s
  | S fuel' =>
      match s with
      | EmptyString => EmptyString
      | String c s' =>
          if String.prefix old s
          then new +:+ replace_go fuel' old new
                        (String.substring (String.length old)
                           (String.length s - String.length old) s)
          else String c (replace_go fuel' old new s')
      end
  end.

Definition replace (old new s : string) : string :=
  replace_go (String.length s) old new s.

(** ** Paths *)

Abbreviation path := (list string).

Definition path_name (p : path) : string := default "" (last p).
Definition path_stem (p : path) : string := stem_of (path_name p).
Definition path_parent (p : path) : path := take (length p - 1) p.
Definition joinpath (p : path) (name : string) : path := p ++ [name].

(** [s.split("/")]. *)
Fixpoint split_slash (s : string) : list string :=
  match s with
  | EmptyString => [EmptyString]
  | String c s' =>
      if Ascii.eqb c "/" then EmptyString :: split_slash s'
      else
        match split_slash s' with
        | x :: l => String c x :: l
        | [] => [String c EmptyString]
        end
  end.

Fixpoint leading_slashes (s : string) : nat :=
  match s with
  | String c s' => if Ascii.eqb c "/" then S (leading_slashes s') else 0%nat
  | EmptyString => 0%nat
  end.

(** The root of [PurePosixPath(s)]: none for a relative path, [//] for
    exactly two leading slashes, [/] otherwise. *)
Definition root_of (s : string) : option string :=
  match leading_slashes s with
  | 0%nat => None
  | 2%nat => Some "//"
  | _ => Some "/"
  end.

(** Its other parts: the pieces between slashes, the empty ones and the
    dots left out. *)
Definition components (s : string) : list string :=
  filter (λ x, x ≠ "" ∧ x ≠ ".") (split_slash s).

(** [p.joinpath(s)] for a string [s] that comes from outside, on a POSIX
    system: [s] is parsed, a rooted one replaces [p], and a root is the
    first part of the path it starts. *)
Definition joinpath_str (p : path) (s : string) : path :=
  match root_of s with
  | Some r => r :: components s
  | None => p ++ components s
  end.

(** [p.relative_to(base)]; [None] is the [ValueError]. *)
Definition relative_to (p base : path) : option path :=
  if bool_decide (base `prefix_of` p) then Some (drop (length base) p) else None.

(** The order of [Path] objects: component lists compared
    lexicographically, components compared as strings. *)
Fixpoint path_compare (p q : path) : comparison :=
  match p, q with
  | [], [] => Eq
  | [], _ :: _ => Lt
  | _ :: _, [] => Gt
  | a :: p', b :: q' =>
      match String.compare a b with
      | Eq => path_compare p' q'
      | c => c
      end
  end.

Definition path_le (p q : path) : Prop := path_compare p q ≠ Gt.

Global Instance path_le_dec : RelDecision path_le.
Proof. intros p q. unfold path_le. apply _. Defined.

(** [list.sort()] on paths. *)
Definition sort_paths (l : list path) : list path := merge_sort path_le l.

(** The duplicate removal of [np.unique], on a sorted list. *)
Fixpoint uniq (l : list path) : list path :=
  match l with
  | [] => []
  | p :: l' =>
      match l' with
      | q :: _ => if decide (p = q) then uniq l' else p :: uniq l'
      | [] => [p]
      end
  end.

Definition np_unique (l : list path) : list path := uniq (sort_paths l).

(** ** Python floats *)

Abbreviation pyfloat := spec_float.

(** The float nearest to an int, infinite beyond the largest float. *)
Definition float_of_int (z : Z) : pyfloat := binary_normalize prec emax z 0 false.

(** An int as an operand that has not been rounded. *)
Definition exact_int (z : Z) : spec_float :=
  match z with
  | Z0 => S754_zero false
  | Zpos p => S754_finite false p 0
  | Zneg p => S754_finite true p 0
  end.

(** The sign bit. *)
Definition signbit (x : pyfloat) : bool :=
  match x with
  | S754_zero s | S754_infinity s | S754_finite s _ _ => s
  | S754_nan => false
  end.

(** [x == 0.0]. *)
Definition is_zero (x : pyfloat) : bool :=
  match x with
  | S754_zero _ => true
  | _ => false
  end.

(** [math.ceil] of a finite float. *)
Definition ceil_float (x : pyfloat) : option Z :=
  match x with
  | S754_zero _ => Some 0%Z
  | S754_finite s m e =>
      let v := cond_Zopp s (Z.pos m) in
      Some (if (0 <=? e)%Z then v * 2 ^ e else - ((- v) / 2 ^ (- e)))%Z
  | _ => None
  end.

(** ** The metadata record and the artifacts *)

(** The dictionary under the key [files]; the last two sequences are
    added when a reduction run starts. *)
Record files_dict := {
  md_audio_files : list path;
  md_file_lengths : list pyfloat;
  md_nr_embeds_per_file : list nat;
  md_embedding_files : option (list path);
  md_embedding_dimensions : option (list (list nat))
}.

(** [metadata_dict], one field per key; an absent key is [None]. *)
Record metadata := {
  md_model_name : string;
  md_audio_dir : path;
  md_embed_dir : path;
  md_files : files_dict;
  md_segment_length : option Z;
  md_sample_rate : option Z;
  md_embedding_size : option nat;
  md_nr_embeds_total : option nat;
  md_total_dataset_length : option pyfloat
}.

(** A two-dimensional [ndarray]. *)
Record ndarray := {
  rows : list (list pyfloat);
  ncols : nat
}.

Definition column (i : nat) (a : ndarray) : list pyfloat :=
  map (λ r, nth i r (float_of_int 0)) (rows a).

(** The dictionary [d] serialised by [json.dump]. *)
Record json_doc := {
  js_x : option (list pyfloat);
  js_y : option (list pyfloat);
  js_timestamp : list pyfloat;
  js_metadata : metadata
}.

(** ** The file system *)

Inductive content :=
  | Yaml (m : metadata)
  | Json (d : json_doc)
  | Npy.

Inductive node :=
  | File (c : content)
  | Directory.

Abbreviation filesystem := (gmap path node).

Definition is_dir (fs : filesystem) (p : path) : bool :=
  match fs !! p with
  | Some Directory => true
  | _ => false
  end.

Definition is_child (d k : path) : bool :=
  bool_decide (k ≠ [] ∧ path_parent k = d).

Definition is_below (d k : path) : bool :=
  bool_decide (d `prefix_of` k ∧ k ≠ d).

(** The entries of directory [d]; nothing when [d] is not a directory. *)
Definition children (fs : filesystem) (d : path) : list path :=
  if is_dir fs d then filter (λ k, is_child d k) (elements (dom fs)) else [].

(** [d.glob("*" + suf)]. *)
Definition glob (fs : filesystem) (d : path) (suf : string) : list path :=
  filter (λ k, ends_with suf (path_name k)) (children fs d).

(** [d.rglob("*" + suf)]. *)
Definition rglob (fs : filesystem) (d : path) (suf : string) : list path :=
  if is_dir fs d
  then filter (λ k, is_below d k && ends_with suf (path_name k))
         (elements (dom fs))
  else [].

(** ** Exceptions, state and the monad of methods *)

Inductive exn :=
  | IndexError
  | AssertionError
  | ValueError
  | KeyError
  | AttributeError
  | ZeroDivisionError
  | OverflowError
  | YAMLError
  | OSError
  | FileNotFoundError
  | NotADirectoryError
  | IsADirectoryError.

Global Instance exn_eq_dec : EqDecision exn.
Proof. solve_decision. Defined.

(** [isinstance(e, OSError)]. *)
Definition is_OSError (e : exn) : bool :=
  match e with
  | OSError | FileNotFoundError | NotADirectoryError | IsADirectoryError => true
  | _ => false
  end.

(** What [print] writes. *)
Inductive message :=
  | MsgNotEmpty (d : path)
  | MsgAlreadyExist (d : path)
  | MsgNotVerified
  | MsgAudioMoved.

(** [check_if_combination_exists]: a boolean, or the name of the cache
    directory to use. *)
Inductive reuse_policy :=
  | Flag (b : bool)
  | Override (name : string).

Definition truthy (r : reuse_policy) : bool :=
  match r with
  | Flag b => b
  | Override name => negb (String.eqb name "")
  end.

(** The broken-down local time, and what the C library prints for the
    conversions other than [Y m d H M]. *)
Record struct_time := {
  tm_year : nat;
  tm_mon : nat;
  tm_mday : nat;
  tm_hour : nat;
  tm_min : nat;
  tm_other : Ascii.ascii → string
}.

(** The attributes of a [Loader]; [dim_reduction_model] is [None] for
    [False], and an attribute not assigned yet is [None]. *)
Record Loader := {
  model_name : string;
  audio_dir : path;
  dim_reduction_model : option string;
  check_if_combination_exists : reuse_policy;
  embed_suffix : string;
  embed_parent_dir : path;
  dim_reduc_parent_dir : path;
  audio_suffixes : list string;
  combination_already_exists : bool;
  dim_reduc_embed_dir : option path;
  embed_dir : option path;
  metadata_dict : option metadata;
  files : list path
}.

Record state := {
  self : Loader;
  fs : filesystem;
  stdout : list message;
  localtime : struct_time
}.

Inductive result (A : Type) :=
  | Ok (a : A) (s : state)
  | Raise (e : exn) (s : state).
Arguments Ok {A} a s.
Arguments Raise {A} e s.

Definition state_of {A} (r : result A) : state :=
  match r with
  | Ok _ s => s
  | Raise _ s => s
  end.

Definition M (A : Type) : Type := state → result A.

Global Instance M_ret : MRet M := λ A a s, Ok a s.
Global Instance M_bind : MBind M := λ A B f m s,
  match m s with
  | Ok a s' => f a s'
  | Raise e s' => Raise e s'
  end.

Definition raise {A} (e : exn) : M A := λ s, Raise e s.
Definition get : M state := λ s, Ok s s.
Definition modify_self (f : Loader → Loader) : M unit := λ s,
  Ok tt {| self := f (self s); fs := fs s; stdout := stdout s;
           localtime := localtime s |}.
Definition modify_fs (f : filesystem → filesystem) : M unit := λ s,
  Ok tt {| self := self s; fs := f (fs s); stdout := stdout s;
           localtime := localtime s |}.
Definition print (m : message) : M unit := λ s,
  Ok tt {| self := self s; fs := fs s; stdout := stdout s ++ [m];
           localtime := localtime s |}.

(** [try: body except <class>: handler], the class given by [catches]. *)
Definition try_except {A} (body : M A) (catches : exn → bool)
    (handler : M A) : M A := λ s,
  match body s with
  | Ok a s' => Ok a s'
  | Raise e s' => if catches e then handler s' else Raise e s'
  end.

(** *** File-system calls *)

Definition iterdir (d : path) : M (list path) :=
  s ← get;
  match fs s !! d with
  | Some Directory => mret (children (fs s) d)
  | Some (File _) => raise NotADirectoryError
  | None => raise FileNotFoundError
  end.

Definition rmdir (d : path) : M unit :=
  s ← get;
  match fs s !! d with
  | Some Directory =>
      match children (fs s) d with
      | [] => modify_fs (delete d)
      | _ :: _ => raise OSError
      end
  | Some (File _) => raise NotADirectoryError
  | None => raise FileNotFoundError
  end.

(** [open(p, "r")] followed by [yaml.load]. *)
Definition yaml_load (p : path) : M metadata :=
  s ← get;
  match fs s !! p with
  | Some (File (Yaml m)) => mret m
  | Some (File _) => raise YAMLError
  | Some Directory => raise IsADirectoryError
  | None => raise FileNotFoundError
  end.

(** [open(p, "w")] followed by a dump of [c]. *)
Definition write_file (p : path) (c : content) : M unit :=
  s ← get;
  if is_dir (fs s) p then raise IsADirectoryError
  else if is_dir (fs s) (path_parent p) then modify_fs (<[p := File c]>)
  else raise FileNotFoundError.

(** ** [time.strftime] *)

Definition pad2 (n : nat) : string :=
  if (n <? 10)%nat then "0" +:+ pretty n else pretty n.

Definition conversion (c : Ascii.ascii) (t : struct_time) : string :=
  if Ascii.eqb c "Y" then pretty (tm_year t)
  else if Ascii.eqb c "m" then pad2 (tm_mon t)
  else if Ascii.eqb c "d" then pad2 (tm_mday t)
  else if Ascii.eqb c "H" then pad2 (tm_hour t)
  else if Ascii.eqb c "M" then pad2 (tm_min t)
  else if Ascii.eqb c "%" then "%"
  else tm_other t c.

Fixpoint strftime (fmt : string) (t : struct_time) : string :=
  match fmt with
  | EmptyString => EmptyString
  | String c rest =>
      if Ascii.eqb c "%" then
        match rest with
        | String k rest' => conversion k t +:+ strftime rest' t
        | EmptyString => "%"
        end
      else String c (strftime rest t)
  end.

(** ** [class Loader] *)

(** The reducer name when [dim_reduction_model] is true as a condition. *)
Definition reducer (l : Loader) : option string :=
  match dim_reduction_model l with
  | Some r => if String.eqb r "" then None else Some r
  | None => None
  end.

Definition set_combination_already_exists (b : bool) (l : Loader) : Loader :=
  {| model_name := model_name l; audio_dir := audio_dir l;
     dim_reduction_model := dim_reduction_model l;
     check_if_combination_exists := check_if_combination_exists l;
     embed_suffix := embed_suffix l; embed_parent_dir := embed_parent_dir l;
     dim_reduc_parent_dir := dim_reduc_parent_dir l;
     audio_suffixes := audio_suffixes l;
     combination_already_exists := b;
     dim_reduc_embed_dir := dim_reduc_embed_dir l; embed_dir := embed_dir l;
     metadata_dict := metadata_dict l; files := files l |}.

Definition set_dim_reduc_embed_dir (d : option path) (l : Loader) : Loader :=
  {| model_name := model_name l; audio_dir := audio_dir l;
     dim_reduction_model := dim_reduction_model l;
     check_if_combination_exists := check_if_combination_exists l;
     embed_suffix := embed_suffix l; embed_parent_dir := embed_parent_dir l;
     dim_reduc_parent_dir := dim_reduc_parent_dir l;
     audio_suffixes := audio_suffixes l;
     combination_already_exists := combination_already_exists l;
     dim_reduc_embed_dir := d; embed_dir := embed_dir l;
     metadata_dict := metadata_dict l; files := files l |}.

Definition set_embed_dir (d : path) (l : Loader) : Loader :=
  {| model_name := model_name l; audio_dir := audio_dir l;
     dim_reduction_model := dim_reduction_model l;
     check_if_combination_exists := check_if_combination_exists l;
     embed_suffix := embed_suffix l; embed_parent_dir := embed_parent_dir l;
     dim_reduc_parent_dir := dim_reduc_parent_dir l;
     audio_suffixes := audio_suffixes l;
     combination_already_exists := combination_already_exists l;
     dim_reduc_embed_dir := dim_reduc_embed_dir l; embed_dir := Some d;
     metadata_dict := metadata_dict l; files := files l |}.

Definition set_audio_dir (d : path) (l : Loader) : Loader :=
  {| model_name := model_name l; audio_dir := d;
     dim_reduction_model := dim_reduction_model l;
     check_if_combination_exists := check_if_combination_exists l;
     embed_suffix := embed_suffix l; embed_parent_dir := embed_parent_dir l;
     dim_reduc_parent_dir := dim_reduc_parent_dir l;
     audio_suffixes := audio_suffixes l;
     combination_already_exists := combination_already_exists l;
     dim_reduc_embed_dir := dim_reduc_embed_dir l; embed_dir := embed_dir l;
     metadata_dict := metadata_dict l; files := files l |}.

Definition set_model_name (n : string) (l : Loader) : Loader :=
  {| model_name := n; audio_dir := audio_dir l;
     dim_reduction_model := dim_reduction_model l;
     check_if_combination_exists := check_if_combination_exists l;
     embed_suffix := embed_suffix l; embed_parent_dir := embed_parent_dir l;
     dim_reduc_parent_dir := dim_reduc_parent_dir l;
     audio_suffixes := audio_suffixes l;
     combination_already_exists := combination_already_exists l;
     dim_reduc_embed_dir := dim_reduc_embed_dir l; embed_dir := embed_dir l;
     metadata_dict := metadata_dict l; files := files l |}.

Definition set_metadata_dict (m : metadata) (l : Loader) : Loader :=
  {| model_name := model_name l; audio_dir := audio_dir l;
     dim_reduction_model := dim_reduction_model l;
     check_if_combination_exists := check_if_combination_exists l;
     embed_suffix := embed_suffix l; embed_parent_dir := embed_parent_dir l;
     dim_reduc_parent_dir := dim_reduc_parent_dir l;
     audio_suffixes := audio_suffixes l;
     combination_already_exists := combination_already_exists l;
     dim_reduc_embed_dir := dim_reduc_embed_dir l; embed_dir := embed_dir l;
     metadata_dict := Some m; files := files l |}.

Definition set_files (f : list path) (l : Loader) : Loader :=
  {| model_name := model_name l; audio_dir := audio_dir l;
     dim_reduction_model := dim_reduction_model l;
     check_if_combination_exists := check_if_combination_exists l;
     embed_suffix := embed_suffix l; embed_parent_dir := embed_parent_dir l;
     dim_reduc_parent_dir := dim_reduc_parent_dir l;
     audio_suffixes := audio_suffixes l;
     combination_already_exists := combination_already_exists l;
     dim_reduc_embed_dir := dim_reduc_embed_dir l; embed_dir := embed_dir l;
     metadata_dict := metadata_dict l; files := f |}.

(** [get_timestamp_dir]: the names are joined to the format before
    [time.strftime] expands it. *)
Definition get_timestamp_dir : M string :=
  s ← get;
  let model_name :=
    match reducer (self s) with
    | Some r => r
    | None => model_name (self s)
    end in
  mret (strftime ("%Y-%m-%d_%H-%M___" +:+ model_name +:+ "-"
                    +:+ path_stem (audio_dir (self s))) (localtime s)).

(** [_get_audio_files] *)
Definition _get_audio_files : M (list path) :=
  s ← get;
  let files_list :=
    concat (map (λ string, rglob (fs s) (audio_dir (self s)) string)
              (audio_suffixes (self s))) in
  let files_list := np_unique files_list in
  if (0 <? length files_list)%nat then mret files_list
  else raise AssertionError.

(** [_get_audio_paths] *)
Definition _get_audio_paths : M unit :=
  files ← _get_audio_files;
  modify_self (set_files (sort_paths files));;
  s ← get;
  name ← get_timestamp_dir;
  modify_self (set_embed_dir (joinpath (embed_parent_dir (self s)) name)).

(** [_init_metadata_dict]; reading [self.embed_dir] before it is assigned
    is an [AttributeError]. *)
Definition _init_metadata_dict : M unit :=
  s ← get;
  match embed_dir (self s) with
  | None => raise AttributeError
  | Some e =>
      modify_self (set_metadata_dict
        {| md_model_name := model_name (self s);
           md_audio_dir := audio_dir (self s);
           md_embed_dir := e;
           md_files := {| md_audio_files := []; md_file_lengths := [];
                          md_nr_embeds_per_file := [];
                          md_embedding_files := None;
                          md_embedding_dimensions := None |};
           md_segment_length := None; md_sample_rate := None;
           md_embedding_size := None; md_nr_embeds_total := None;
           md_total_dataset_length := None |})
  end.

(** [_get_metadata_dict]: the three string-valued keys become attributes
    of [self]; only [embed_dir] is remapped when it is no directory. *)
Definition _get_metadata_dict (folder : path) : M unit :=
  m ← yaml_load (joinpath folder "metadata.yml");
  modify_self (set_metadata_dict m);;
  s ← get;
  (if is_dir (fs s) (md_audio_dir m) then mret tt else print MsgAudioMoved);;
  modify_self (set_audio_dir (md_audio_dir m));;
  modify_self (set_embed_dir
    (if is_dir (fs s) (md_embed_dir m) then md_embed_dir m
     else joinpath (path_parent folder) (path_stem (md_embed_dir m))));;
  modify_self (set_model_name (md_model_name m));;
  match reducer (self s) with
  | Some _ => modify_self (set_dim_reduc_embed_dir (Some folder))
  | None => mret tt
  end.

(** What an iteration of a [for] loop ends with: the next iteration,
    [break], or [return d]. *)
Inductive flow :=
  | Next
  | Break
  | Return (d : path).

(** The body of the loop of [_find_existing_embed_dir]. *)
Definition examine (d : path) : M flow :=
  s ← get;
  if contains (model_name (self s)) (path_stem d)
     && contains (path_stem (audio_dir (self s))) (path_name d)
  then
    match glob (fs s) d "yml" with
    | [] =>
        try_except (rmdir d;; mret Next) is_OSError
          (print (MsgNotEmpty d);; mret Next)
    | _ :: _ =>
        mdata ← yaml_load (joinpath d "metadata.yml");
        if negb (String.eqb (model_name (self s)) (md_model_name mdata))
        then mret Next
        else
          match reducer (self s) with
          | Some r =>
              if contains r (path_stem d) then
                modify_self (set_combination_already_exists true);;
                print (MsgAlreadyExist d);;
                modify_self (set_embed_dir d);;
                mret Break
              else mret (Return d)
          | None =>
              counts ← try_except
                (let num_files :=
                   length (rglob (fs s) d (embed_suffix (self s))) in
                 audio ← _get_audio_files;
                 mret (Some (num_files, length audio)))
                (λ e, bool_decide (e = AssertionError))
                (_get_metadata_dict d;;
                 modify_self (set_combination_already_exists true);;
                 print MsgNotVerified;;
                 s' ← get;
                 print (MsgAlreadyExist
                          (from_option md_embed_dir [] (metadata_dict (self s'))));;
                 mret None);
              match counts with
              | None => mret Break
              | Some (num_files, num_audio_files) =>
                  if bool_decide (num_audio_files = num_files) then
                    modify_self (set_combination_already_exists true);;
                    _get_metadata_dict d;;
                    s' ← get;
                    print (MsgAlreadyExist
                             (from_option md_embed_dir [] (metadata_dict (self s'))));;
                    mret Break
                  else mret Next
              end
          end
    end
  else mret Next.

(** [for d in dirs: body], with [continue], [break] and [return]. *)
Fixpoint for_each (body : path → M flow) (dirs : list path) : M (option path) :=
  match dirs with
  | [] => mret None
  | d :: dirs' =>
      f ← body d;
      match f with
      | Next => for_each body dirs'
      | Break => mret None
      | Return r => mret (Some r)
      end
  end.

(** [_find_existing_embed_dir]: the candidates are visited from the last
    to the first. *)
Definition _find_existing_embed_dir (existing_embed_dirs : list path)
    : M (option path) :=
  for_each examine (reverse existing_embed_dirs).

(** [check_embeds_already_exist] *)
Definition check_embeds_already_exist : M unit :=
  modify_self (set_combination_already_exists false);;
  modify_self (set_dim_reduc_embed_dir None);;
  s ← get;
  if truthy (check_if_combination_exists (self s)) then
    existing_embed_dirs ←
      match reducer (self s) with
      | Some _ => iterdir (dim_reduc_parent_dir (self s))
      | None => iterdir (embed_parent_dir (self s))
      end;
    existing_embed_dirs ←
      match check_if_combination_exists (self s) with
      | Override name =>
          match existing_embed_dirs with
          | first :: _ => mret [joinpath_str (path_parent first) name]
          | [] => raise IndexError
          end
      | Flag _ => mret existing_embed_dirs
      end;
    _find_existing_embed_dir (sort_paths existing_embed_dirs);;
    mret tt
  else mret tt.

(** Python's [sum]: the elements are added to [0] from left to right,
    without rounding for ints and with a rounding at every addition for
    floats (the summation of Python 3.11 and before; later versions
    compensate the rounding errors of floats).  The sum of no float is
    the int [0], which is the float zero here. *)
Definition sum_nat (l : list nat) : nat := foldl Nat.add 0%nat l.
Definition sum_float (l : list pyfloat) : pyfloat :=
  foldl SF64add (float_of_int 0) l.

Definition with_files (f : files_dict) (m : metadata) : metadata :=
  {| md_model_name := md_model_name m; md_audio_dir := md_audio_dir m;
     md_embed_dir := md_embed_dir m; md_files := f;
     md_segment_length := md_segment_length m;
     md_sample_rate := md_sample_rate m;
     md_embedding_size := md_embedding_size m;
     md_nr_embeds_total := md_nr_embeds_total m;
     md_total_dataset_length := md_total_dataset_length m |}.

Definition with_segment_length (n : Z) (m : metadata) : metadata :=
  {| md_model_name := md_model_name m; md_audio_dir := md_audio_dir m;
     md_embed_dir := md_embed_dir m; md_files := md_files m;
     md_segment_length := Some n;
     md_sample_rate := md_sample_rate m;
     md_embedding_size := md_embedding_size m;
     md_nr_embeds_total := md_nr_embeds_total m;
     md_total_dataset_length := md_total_dataset_length m |}.

Definition with_sample_rate (n : Z) (m : metadata) : metadata :=
  {| md_model_name := md_model_name m; md_audio_dir := md_audio_dir m;
     md_embed_dir := md_embed_dir m; md_files := md_files m;
     md_segment_length := md_segment_length m;
     md_sample_rate := Some n;
     md_embedding_size := md_embedding_size m;
     md_nr_embeds_total := md_nr_embeds_total m;
     md_total_dataset_length := md_total_dataset_length m |}.

Definition with_embedding_size (n : nat) (m : metadata) : metadata :=
  {| md_model_name := md_model_name m; md_audio_dir := md_audio_dir m;
     md_embed_dir := md_embed_dir m; md_files := md_files m;
     md_segment_length := md_segment_length m;
     md_sample_rate := md_sample_rate m;
     md_embedding_size := Some n;
     md_nr_embeds_total := md_nr_embeds_total m;
     md_total_dataset_length := md_total_dataset_length m |}.

Definition with_nr_embeds_total (n : nat) (m : metadata) : metadata :=
  {| md_model_name := md_model_name m; md_audio_dir := md_audio_dir m;
     md_embed_dir := md_embed_dir m; md_files := md_files m;
     md_segment_length := md_segment_length m;
     md_sample_rate := md_sample_rate m;
     md_embedding_size := md_embedding_size m;
     md_nr_embeds_total := Some n;
     md_total_dataset_length := md_total_dataset_length m |}.

Definition with_total_dataset_length (t : pyfloat) (m : metadata) : metadata :=
  {| md_model_name := md_model_name m; md_audio_dir := md_audio_dir m;
     md_embed_dir := md_embed_dir m; md_files := md_files m;
     md_segment_length := md_segment_length m;
     md_sample_rate := md_sample_rate m;
     md_embedding_size := md_embedding_size m;
     md_nr_embeds_total := md_nr_embeds_total m;
     md_total_dataset_length := Some t |}.

Definition append_audio_file (rel : path) (f : files_dict) : files_dict :=
  {| md_audio_files := md_audio_files f ++ [rel];
     md_file_lengths := md_file_lengths f;
     md_nr_embeds_per_file := md_nr_embeds_per_file f;
     md_embedding_files := md_embedding_files f;
     md_embedding_dimensions := md_embedding_dimensions f |}.

Definition append_file_length (t : pyfloat) (f : files_dict) : files_dict :=
  {| md_audio_files := md_audio_files f;
     md_file_lengths := md_file_lengths f ++ [t];
     md_nr_embeds_per_file := md_nr_embeds_per_file f;
     md_embedding_files := md_embedding_files f;
     md_embedding_dimensions := md_embedding_dimensions f |}.

Definition append_nr_embeds (n : nat) (f : files_dict) : files_dict :=
  {| md_audio_files := md_audio_files f;
     md_file_lengths := md_file_lengths f;
     md_nr_embeds_per_file := md_nr_embeds_per_file f ++ [n];
     md_embedding_files := md_embedding_files f;
     md_embedding_dimensions := md_embedding_dimensions f |}.

(** An update of [self.metadata_dict] in place; the attribute must have
    been assigned. *)
Definition update_metadata (f : metadata → metadata) : M unit :=
  s ← get;
  match metadata_dict (self s) with
  | Some m => modify_self (set_metadata_dict (f m))
  | None => raise AttributeError
  end.

(** The attributes of an [Embedder] that the loader reads;
    [file_length] is assigned by [prepare_audio]. *)
Record Embedder := {
  emb_model_name : string;
  emb_dim_reduction_model : bool;
  model_segment_length : Z;
  model_sr : Z;
  file_length : option pyfloat
}.

(** [write_audio_file_to_metadata]; [shape] is [embeddings.shape]. *)
Definition write_audio_file_to_metadata (index : nat) (file : path)
    (embed : Embedder) (shape : list nat) : M unit :=
  (if (index =? 0)%nat then
     update_metadata (with_segment_length (model_segment_length embed));;
     update_metadata (with_sample_rate (model_sr embed));;
     match last shape with
     | Some size => update_metadata (with_embedding_size size)
     | None => raise IndexError
     end
   else mret tt);;
  s ← get;
  match relative_to file (audio_dir (self s)) with
  | None => raise ValueError
  | Some rel_file_path =>
      update_metadata
        (λ m, with_files (append_audio_file rel_file_path (md_files m)) m);;
      match file_length embed with
      | None => raise AttributeError
      | Some t =>
          update_metadata
            (λ m, with_files (append_file_length t (md_files m)) m);;
          match head shape with
          | None => raise IndexError
          | Some n =>
              update_metadata
                (λ m, with_files (append_nr_embeds n (md_files m)) m)
          end
      end
  end.

(** [write_metadata_file] *)
Definition write_metadata_file : M unit :=
  update_metadata
    (λ m, with_nr_embeds_total
            (sum_nat (md_nr_embeds_per_file (md_files m))) m);;
  update_metadata
    (λ m, with_total_dataset_length
            (sum_float (md_file_lengths (md_files m))) m);;
  s ← get;
  match embed_dir (self s), metadata_dict (self s) with
  | Some e, Some m => write_file (joinpath e "metadata.yml") (Yaml m)
  | _, _ => raise AttributeError
  end.

(** ** Saving the artifacts *)

(** [float(z)], as in the product of an int and a float: the nearest
    float, and [OverflowError] beyond the largest one. *)
Definition to_float (z : Z) : exn + pyfloat :=
  match float_of_int z with
  | S754_infinity _ => inl OverflowError
  | x => inr x
  end.

(** [a / b] for Python ints: the quotient of the integers, rounded once;
    [ZeroDivisionError] on a zero divisor and [OverflowError] beyond the
    largest float. *)
Definition int_true_divide (a b : Z) : exn + pyfloat :=
  if (b =? 0)%Z then inl ZeroDivisionError
  else
    match SF64div (exact_int a) (exact_int b) with
    | S754_infinity _ => inl OverflowError
    | q => inr q
    end.

(** The length that [np.arange] gives an array whose quotient
    [(stop - start) / step] is [value]: its ceiling, which must be a
    number and fit a signed 64-bit integer. *)
Definition arange_length (value : pyfloat) : exn + nat :=
  match ceil_float value with
  | Some n =>
      if ((- 2 ^ 63 <=? n) && (n <=? 2 ^ 63 - 1))%Z then inr (Z.to_nat n)
      else inl OverflowError
  | None =>
      match value with
      | S754_nan => inl ValueError
      | _ => inl OverflowError
      end
  end.

(** [np.arange(0, stop, step)] for Python floats [stop] and [step].  The
    quotient is a division of Python floats, which raises on a zero
    divisor; a zero quotient of a non-zero difference (an underflow, or an
    infinite step) gives one element, or none if its sign bit is set; the
    array holds [0.0], then [0 + step], then [start + i * delta] for the
    [delta] between the first two. *)
Definition np_arange (stop step : pyfloat) : exn + list pyfloat :=
  if is_zero step then inl ZeroDivisionError
  else
    let start := float_of_int 0 in
    let next := SF64sub stop start in
    let value := SF64div next step in
    match
      match arange_length value with
      | inl e => inl e
      | inr len =>
          if is_zero value && negb (is_zero next)
          then inr (if signbit value then 0%nat else 1%nat)
          else inr len
      end
    with
    | inl e => inl e
    | inr length =>
        let next := SF64add start step in
        let delta := SF64sub next start in
        inr (map (λ i : nat,
                    match i with
                    | 0%nat => start
                    | 1%nat => next
                    | _ => SF64add start
                             (SF64mul (float_of_int (Z.of_nat i)) delta)
                    end)
               (seq 0 length))
    end.

(** The loop that fills [t_stamps]: each entry of [embedding_dimensions]
    is unpacked as a pair, which raises [ValueError] on any other
    length. *)
Fixpoint t_stamps (dims : list (list nat)) (input_len : pyfloat)
    : exn + list pyfloat :=
  match dims with
  | [] => inr []
  | [num_segments; _] :: dims' =>
      match to_float (Z.of_nat num_segments) with
      | inl e => inl e
      | inr n =>
          match np_arange (SF64mul n input_len) input_len with
          | inl e => inl e
          | inr ts =>
              match t_stamps dims' input_len with
              | inl e => inl e
              | inr rest => inr (ts ++ rest)
              end
          end
      end
  | _ :: _ => inl ValueError
  end.

(** The destination of the second artifact:
    [file_dest.replace(".json", f"{n}.npy")], to which [np.save] appends
    [.npy] when the name does not end with it. *)
Definition npy_dest (file_dest : path) (n : nat) : path :=
  let p := map (replace ".json" (pretty n +:+ ".npy")) file_dest in
  let name := path_name p in
  joinpath (path_parent p) (if ends_with ".npy" name then name else name +:+ ".npy").

(** [save_embeddings_dict_with_timestamps] *)
Definition save_embeddings_dict_with_timestamps (file_dest : path)
    (embeds : ndarray) (input_len : pyfloat) (f_idx : nat) : M unit :=
  s ← get;
  match metadata_dict (self s) with
  | None => raise AttributeError
  | Some m =>
      match md_embedding_dimensions (md_files m) with
      | None => raise KeyError
      | Some dims =>
          match t_stamps dims input_len with
          | inl e => raise e
          | inr ts =>
              let d :=
                {| js_x := if (0 <? ncols embeds)%nat
                           then Some (column 0 embeds) else None;
                   js_y := if (1 <? ncols embeds)%nat
                           then Some (column 1 embeds) else None;
                   js_timestamp := ts;
                   js_metadata := m |} in
              write_file file_dest (Json d);;
              if (2 <? ncols embeds)%nat
              then write_file (npy_dest file_dest (ncols embeds)) Npy
              else mret tt
          end
      end
  end.

(** [mkdir(exist_ok=True, parents=True)]: every prefix of [p] becomes a
    directory unless a file is in the way. *)
Fixpoint mkdir_parents (prefixes : list path) : M unit :=
  match prefixes with
  | [] => mret tt
  | q :: rest =>
      s ← get;
      match fs s !! q with
      | Some (File _) => raise NotADirectoryError
      | Some Directory => mkdir_parents rest
      | None => modify_fs (<[q := Directory]>);; mkdir_parents rest
      end
  end.

Definition mkdir (p : path) : M unit :=
  mkdir_parents (map (λ n, take n p) (seq 1 (length p))).

(** [Embedder.save_embeddings], the loader being the one of the state. *)
Definition save_embeddings (embed : Embedder) (file_idx : nat) (file : path)
    (embeds : ndarray) : M unit :=
  s ← get;
  match embed_dir (self s) with
  | None => raise AttributeError
  | Some dir =>
      if emb_dim_reduction_model embed then
        let file_dest :=
          joinpath dir (path_stem (audio_dir (self s)) +:+ "_"
                          +:+ emb_model_name embed +:+ ".json") in
        match metadata_dict (self s) with
        | None => raise AttributeError
        | Some m =>
            match md_segment_length m, md_sample_rate m with
            | Some segment_length, Some sample_rate =>
                match int_true_divide segment_length sample_rate with
                | inl e => raise e
                | inr input_len =>
                    save_embeddings_dict_with_timestamps file_dest embeds
                      input_len file_idx
                end
            | _, _ => raise KeyError
            end
        end
      else
        match relative_to file (audio_dir (self s)) with
        | None => raise ValueError
        | Some rel =>
            let parent_path := (dir ++ path_parent rel) in
            mkdir parent_path;;
            write_file
              (joinpath parent_path
                 (path_stem file +:+ "_" +:+ emb_model_name embed +:+ ".npy"))
              Npy
        end
  end.

(** ** The reduction stage of [class Loader] *)

(** [PurePath.suffix] of a final component. *)
Definition suffix_of (name : string) : string :=
  match rfind "."%char name with
  | Some i =>
      if (0 <? i)%nat && (i <? String.length name - 1)%nat
      then String.substring i (String.length name - i) name
      else ""
  | None => ""
  end.

Definition path_suffix (p : path) : string := suffix_of (path_name p).

Definition set_embed_parent_dir (d : path) (l : Loader) : Loader :=
  {| model_name := model_name l; audio_dir := audio_dir l;
     dim_reduction_model := dim_reduction_model l;
     check_if_combination_exists := check_if_combination_exists l;
     embed_suffix := embed_suffix l; embed_parent_dir := d;
     dim_reduc_parent_dir := dim_reduc_parent_dir l;
     audio_suffixes := audio_suffixes l;
     combination_already_exists := combination_already_exists l;
     dim_reduc_embed_dir := dim_reduc_embed_dir l; embed_dir := embed_dir l;
     metadata_dict := metadata_dict l; files := files l |}.

Definition set_embed_suffix (suf : string) (l : Loader) : Loader :=
  {| model_name := model_name l; audio_dir := audio_dir l;
     dim_reduction_model := dim_reduction_model l;
     check_if_combination_exists := check_if_combination_exists l;
     embed_suffix := suf; embed_parent_dir := embed_parent_dir l;
     dim_reduc_parent_dir := dim_reduc_parent_dir l;
     audio_suffixes := audio_suffixes l;
     combination_already_exists := combination_already_exists l;
     dim_reduc_embed_dir := dim_reduc_embed_dir l; embed_dir := embed_dir l;
     metadata_dict := metadata_dict l; files := files l |}.

(** Reading [self.embed_dir]. *)
Definition read_embed_dir : M path :=
  s ← get;
  match embed_dir (self s) with
  | Some e => mret e
  | None => raise AttributeError
  end.

(** [get_embedding_dir]; the result is [None] when
    [_find_existing_embed_dir] returns nothing. *)
Definition get_embedding_dir : M (option path) :=
  s ← get;
  match reducer (self s) with
  | None => e ← read_embed_dir; mret (Some e)
  | Some _ =>
      if combination_already_exists (self s) then
        modify_self (set_embed_parent_dir (dim_reduc_parent_dir (self s)));;
        e ← read_embed_dir;
        mret (Some e)
      else
        modify_self (set_embed_suffix ".npy");;
        match dim_reduc_embed_dir (self s) with
        | Some d => mret (Some d)
        | None =>
            entries ← iterdir (embed_parent_dir (self s));
            let embed_dirs :=
              filter (λ d, contains (path_stem (audio_dir (self s))) (path_name d)
                           && contains (model_name (self s)) (path_stem d))
                entries in
            _find_existing_embed_dir (sort_paths embed_dirs)
        end
  end.

(** [files.update({"embedding_files": [], "embedding_dimensions": []})] *)
Definition reset_embedding_lists (f : files_dict) : files_dict :=
  {| md_audio_files := md_audio_files f;
     md_file_lengths := md_file_lengths f;
     md_nr_embeds_per_file := md_nr_embeds_per_file f;
     md_embedding_files := Some [];
     md_embedding_dimensions := Some [] |}.

(** [get_embeddings]; calling [rglob] on the [None] that
    [get_embedding_dir] may return is an [AttributeError]. *)
Definition get_embeddings : M unit :=
  r ← get_embedding_dir;
  match r with
  | None => raise AttributeError
  | Some embed_dir =>
      s ← get;
      modify_self
        (set_files (sort_paths (rglob (fs s) embed_dir (embed_suffix (self s)))));;
      if negb (combination_already_exists (self s)) then
        _get_metadata_dict embed_dir;;
        update_metadata
          (λ m, with_files (reset_embedding_lists (md_files m)) m);;
        name ← get_timestamp_dir;
        s' ← get;
        modify_self
          (set_embed_dir
             (joinpath (dim_reduc_parent_dir (self s'))
                (name +:+ "-" +:+ model_name (self s'))))
      else modify_self (set_embed_dir embed_dir)
  end.

(** [np.load(file)], for what it raises. *)
Definition np_load (file : path) : M unit :=
  s ← get;
  match fs s !! file with
  | Some (File Npy) => mret tt
  | Some (File _) => raise ValueError
  | Some Directory => raise IsADirectoryError
  | None => raise FileNotFoundError
  end.

Definition append_embedding_file (rel : path) (f : files_dict)
    : option files_dict :=
  l ← md_embedding_files f;
  Some {| md_audio_files := md_audio_files f;
          md_file_lengths := md_file_lengths f;
          md_nr_embeds_per_file := md_nr_embeds_per_file f;
          md_embedding_files := Some (l ++ [rel]);
          md_embedding_dimensions := md_embedding_dimensions f |}.

Definition append_embedding_dimensions (shape : list nat) (f : files_dict)
    : option files_dict :=
  l ← md_embedding_dimensions f;
  Some {| md_audio_files := md_audio_files f;
          md_file_lengths := md_file_lengths f;
          md_nr_embeds_per_file := md_nr_embeds_per_file f;
          md_embedding_files := md_embedding_files f;
          md_embedding_dimensions := Some (l ++ [shape]) |}.

(** An update of [self.metadata_dict["files"]] under a key that must be
    there. *)
Definition update_files_dict (f : files_dict → option files_dict) : M unit :=
  s ← get;
  match metadata_dict (self s) with
  | None => raise AttributeError
  | Some m =>
      match f (md_files m) with
      | Some f' => modify_self (set_metadata_dict (with_files f' m))
      | None => raise KeyError
      end
  end.

(** [embed_read]; [shape] is the shape of the array in [file], and the
    shape of the array returned is what is returned here. *)
Definition embed_read (index : nat) (file : path) (shape : list nat)
    : M (list nat) :=
  np_load file;;
  s ← get;
  match metadata_dict (self s) with
  | None => raise AttributeError
  | Some m =>
      rel_file_path ←
        match relative_to file (md_embed_dir m) with
        | Some rel => mret rel
        | None =>
            match relative_to file
                    (joinpath (embed_parent_dir (self s))
                       (path_stem (md_embed_dir m))) with
            | Some rel => mret rel
            | None => raise ValueError
            end
        end;
      update_files_dict (append_embedding_file rel_file_path);;
      let shape := if (length shape =? 1)%nat then 1%nat :: shape else shape in
      update_files_dict (append_embedding_dimensions shape);;
      mret shape
  end.

(** [update_files] *)
Definition update_files : M unit :=
  e ← read_embed_dir;
  s ← get;
  match reducer (self s) with
  | Some _ =>
      entries ← iterdir e;
      modify_self
        (set_files (filter (λ f, path_suffix f = ".json") entries))
  | None => modify_self (set_files (rglob (fs s) e ".npy"))
  end.

(** [open(file)] followed by [json.load]. *)
Definition json_load (file : path) : M json_doc :=
  s ← get;
  match fs s !! file with
  | Some (File (Json d)) => mret d
  | Some (File _) => raise ValueError
  | Some Directory => raise IsADirectoryError
  | None => raise FileNotFoundError
  end.

(** The loop of [embedding_dict] over the files still to load, [d] being
    the dictionary filled so far; a key is the path relative to
    [self.embed_dir], a value what the file holds. *)
Fixpoint embedding_dict_loop (files : list path) (d : gmap path content)
    : M (gmap path content) :=
  match files with
  | [] => mret d
  | file :: files' =>
      s ← get;
      embeds ←
        match reducer (self s) with
        | None => np_load file;; mret Npy
        | Some _ => doc ← json_load file; mret (Json doc)
        end;
      e ← read_embed_dir;
      match relative_to file e with
      | Some rel => embedding_dict_loop files' (<[rel := embeds]> d)
      | None => raise ValueError
      end
  end.

(** [embedding_dict] *)
Definition embedding_dict : M (gmap path content) :=
  s ← get;
  embedding_dict_loop (files (self s)) ∅.

(** * Vocabulary of the properties *)

(** The corpus as [_get_audio_files] enumerates it. *)
Definition enumerated (s : state) : list path :=
  np_unique
    (concat (map (λ string, rglob (fs s) (audio_dir (self s)) string)
               (audio_suffixes (self s)))).

(** The state [_get_metadata_dict] leaves when the file holds [m]. *)
Definition loaded (folder : path) (m : metadata) (s : state) : state :=
  let l := set_metadata_dict m (self s) in
  let l := set_audio_dir (md_audio_dir m) l in
  let l := set_embed_dir
             (if is_dir (fs s) (md_embed_dir m) then md_embed_dir m
              else joinpath (path_parent folder) (path_stem (md_embed_dir m))) l in
  let l := set_model_name (md_model_name m) l in
  let l := match reducer (self s) with
           | Some _ => set_dim_reduc_embed_dir (Some folder) l
           | None => l
           end in
  {| self := l; fs := fs s;
     stdout := if is_dir (fs s) (md_audio_dir m) then stdout s
               else stdout s ++ [MsgAudioMoved];
     localtime := localtime s |}.

(** The state after [d.rmdir()] succeeded, and after a [print]. *)
Definition pruned (d : path) (s : state) : state :=
  {| self := self s; fs := delete d (fs s); stdout := stdout s;
     localtime := localtime s |}.

Definition printed (msg : message) (s : state) : state :=
  {| self := self s; fs := fs s; stdout := stdout s ++ [msg];
     localtime := localtime s |}.

Definition marked_existing (s : state) : state :=
  {| self := set_combination_already_exists true (self s); fs := fs s;
     stdout := stdout s; localtime := localtime s |}.

(** The test of line 100: the model name occurs in the stem of the
    candidate and the stem of the corpus directory in its name. *)
Definition name_matches (l : Loader) (d : path) : bool :=
  contains (model_name l) (path_stem d)
  && contains (path_stem (audio_dir l)) (path_name d).

(** [selects dirs st d st']: the loop over [dirs], entered in state
    [st], leaves by [break] at the candidate [d], in state [st']. *)
Inductive selects : list path → state → path → state → Prop :=
  | selects_here d dirs st st' :
      examine d st = Ok Break st' → selects (d :: dirs) st d st'
  | selects_later d0 dirs st st0 d st' :
      examine d0 st = Ok Next st0 →
      selects dirs st0 d st' →
      selects (d0 :: dirs) st d st'.

(** The three sequences have one length. *)
Definition aligned (f : files_dict) : Prop :=
  length (md_audio_files f) = length (md_file_lengths f)
  ∧ length (md_file_lengths f) = length (md_nr_embeds_per_file f).

(** The run of 2024-01-05, 09:07, for the model [X] over [data/corpus],
    whose caches live under [results/corpus]. *)
Definition ex_time : struct_time :=
  {| tm_year := 2024; tm_mon := 1; tm_mday := 5; tm_hour := 9; tm_min := 7;
     tm_other := λ _, "" |}.

Definition ex_corpus : path := ["data"; "corpus"].
Definition ex_cache : path := ["results"; "corpus"; "embeddings"].
Definition ex_reduced : path := ["results"; "corpus"; "dim_reduced"].

(** The attributes [__init__] assigns before it resolves the cache. *)
Definition ex_loader (corpus : path) (policy : reuse_policy)
    (reducer : option string) : Loader :=
  {| model_name := "X"; audio_dir := corpus;
     dim_reduction_model := reducer;
     check_if_combination_exists := policy;
     embed_suffix := match reducer with Some _ => ".json" | None => ".npy" end;
     embed_parent_dir := ex_cache; dim_reduc_parent_dir := ex_reduced;
     audio_suffixes := [".wav"; ".mp3"];
     combination_already_exists := false; dim_reduc_embed_dir := None;
     embed_dir := None; metadata_dict := None; files := [] |}.

(** The record of [a.wav] (30 s, 3 frames) and [sub/b.wav] (20 s,
    2 frames). *)
Definition ex_metadata (model : string) (dir : path) : metadata :=
  {| md_model_name := model; md_audio_dir := ex_corpus; md_embed_dir := dir;
     md_files := {| md_audio_files := [["a.wav"]; ["sub"; "b.wav"]];
                    md_file_lengths := [float_of_int 30; float_of_int 20];
                    md_nr_embeds_per_file := [3; 2]%nat;
                    md_embedding_files := None;
                    md_embedding_dimensions := None |};
     md_segment_length := Some 16000%Z; md_sample_rate := Some 16000%Z;
     md_embedding_size := Some 8%nat; md_nr_embeds_total := Some 5%nat;
     md_total_dataset_length := Some (float_of_int 50) |}.

Definition ex_state (l : Loader) (entries : list (path * node)) : state :=
  {| self := l;
     fs := list_to_map
             ([(ex_corpus, Directory); (ex_cache, Directory);
               (ex_reduced, Directory)] ++ entries);
     stdout := []; localtime := ex_time |}.

(** A raw cache directory: its metadata file and one artifact per audio
    file. *)
Definition ex_cache_dir (d : path) (model : string) : list (path * node) :=
  [(d, Directory);
   (joinpath d "metadata.yml", File (Yaml (ex_metadata model d)));
   (joinpath d "a_X.npy", File Npy);
   (joinpath d "sub", Directory);
   (joinpath (joinpath d "sub") "b_X.npy", File Npy)].

(** A reduction cache directory, with the metadata of the raw cache it
    was computed from. *)
Definition ex_reduced_dir (d raw : path) : list (path * node) :=
  [(d, Directory);
   (joinpath d "metadata.yml", File (Yaml (ex_metadata "X" raw)))].

Definition ex_audio : list (path * node) :=
  [(joinpath ex_corpus "a.wav", File Npy);
   (joinpath ex_corpus "sub", Directory);
   (joinpath (joinpath ex_corpus "sub") "b.wav", File Npy)].

Definition ex_dir : path := joinpath ex_cache "2024-01-01_10-00___X-corpus".
Definition ex_dir_backup : path := joinpath ex_cache "2024-01-01_10-00___X-backup".
Definition ex_dir_other : path := joinpath ex_cache "2024-01-01_10-00___Y-corpus".
Definition ex_umap_1 : path := joinpath ex_reduced "2024-01-01_10-00___umap-corpus-X".
Definition ex_umap_2 : path := joinpath ex_reduced "2024-01-02_10-00___umap-corpus-X".
Definition ex_pca : path := joinpath ex_reduced "2024-02-01_10-00___pca-corpus-X".

(** The cache is complete and the corpus as it was. *)
Definition ex_unchanged : state :=
  ex_state (ex_loader ex_corpus (Flag true) None)
    (ex_cache_dir ex_dir "X" ++ ex_audio).

(** A third audio file was added after the cache was written. *)
Definition ex_drifted : state :=
  ex_state (ex_loader ex_corpus (Flag true) None)
    (ex_cache_dir ex_dir "X" ++ ex_audio
     ++ [(joinpath ex_corpus "c.mp3", File Npy)]).

(** The corpus directory holds no audio file any more. *)
Definition ex_emptied : state :=
  ex_state (ex_loader ex_corpus (Flag true) None)
    (ex_cache_dir ex_dir "X" ++ [(joinpath ex_corpus "notes.txt", File Npy)]).

(** The complete cache was renamed, and no longer names the corpus. *)
Definition ex_renamed : state :=
  ex_state (ex_loader ex_corpus (Flag true) None)
    (ex_cache_dir ex_dir_backup "X" ++ ex_audio).

(** The directory is named after [X] but its metadata records [Y]. *)
Definition ex_mismatch : state :=
  ex_state (ex_loader ex_corpus (Flag true) None)
    (ex_cache_dir ex_dir "Y" ++ ex_audio).

(** An interrupted run of [X] left an empty directory. *)
Definition ex_debris : state :=
  ex_state (ex_loader ex_corpus (Flag true) None)
    ([(ex_dir, Directory)] ++ ex_audio).

(** An interrupted run of [X] left one artifact and no metadata. *)
Definition ex_partial : state :=
  ex_state (ex_loader ex_corpus (Flag true) None)
    ([(ex_dir, Directory); (joinpath ex_dir "a_X.npy", File Npy)] ++ ex_audio).

(** An interrupted run of another model [Y] left an empty directory. *)
Definition ex_debris_other : state :=
  ex_state (ex_loader ex_corpus (Flag true) None)
    ([(ex_dir_other, Directory)] ++ ex_audio).

(** Two [umap] reductions, and a more recent [pca] reduction of the same
    model and corpus. *)
Definition ex_two_reducers : state :=
  ex_state (ex_loader ex_corpus (Flag true) (Some "umap"))
    (ex_reduced_dir ex_umap_1 ex_dir ++ ex_reduced_dir ex_umap_2 ex_dir
     ++ ex_reduced_dir ex_pca ex_dir).

(** An override name, and nothing under the cache parent yet. *)
Definition ex_override : state :=
  ex_state (ex_loader ex_corpus (Override "mine") None) ex_audio.

(** The corpus directory is called [rec%Y]. *)
Definition ex_percent : state :=
  ex_state (ex_loader ["data"; "rec%Y"] (Flag true) None) [].

(** Observations of a result, to compare runs without comparing states. *)
Definition breaks (r : result flow) : bool :=
  match r with
  | Ok Break _ => true
  | _ => false
  end.

Definition returned (r : result flow) : option path :=
  match r with
  | Ok (Return d) _ => Some d
  | _ => None
  end.

Definition succeeds {A} (r : result A) : bool :=
  match r with
  | Ok _ _ => true
  | Raise _ _ => false
  end.

(** The loader of a fresh run after [_init_metadata_dict], and the
    embedder after [prepare_audio] on a file of 30 s. *)
Definition ex_fresh : state :=
  state_of
    (_init_metadata_dict
       (ex_state
          {| model_name := "X"; audio_dir := ex_corpus;
             dim_reduction_model := None;
             check_if_combination_exists := Flag true;
             embed_suffix := ".npy";
             embed_parent_dir := ex_cache; dim_reduc_parent_dir := ex_reduced;
             audio_suffixes := [".wav"; ".mp3"];
             combination_already_exists := false; dim_reduc_embed_dir := None;
             embed_dir := Some ex_dir; metadata_dict := None;
             files := [joinpath ex_corpus "a.wav"] |}
          ([(ex_dir, Directory)] ++ ex_audio))).

Definition ex_embedder : Embedder :=
  {| emb_model_name := "X"; emb_dim_reduction_model := false;
     model_segment_length := 16000; model_sr := 16000;
     file_length := Some (float_of_int 30) |}.

(** The reduction run over the cache of [a.wav] (3 frames) and
    [sub/b.wav] (2 frames), segments of 16000 samples at 16000 Hz. *)
Definition ex_reduction : state :=
  {| self :=
       {| model_name := "X"; audio_dir := ex_corpus;
          dim_reduction_model := Some "umap";
          check_if_combination_exists := Flag true;
          embed_suffix := ".npy";
          embed_parent_dir := ex_cache; dim_reduc_parent_dir := ex_reduced;
          audio_suffixes := [".wav"; ".mp3"];
          combination_already_exists := false;
          dim_reduc_embed_dir := None;
          embed_dir := Some ex_umap_1;
          metadata_dict :=
            Some (with_files
                    {| md_audio_files := [["a.wav"]; ["sub"; "b.wav"]];
                       md_file_lengths := [float_of_int 30; float_of_int 20];
                       md_nr_embeds_per_file := [3; 2]%nat;
                       md_embedding_files :=
                         Some [["a_X.npy"]; ["sub"; "b_X.npy"]];
                       md_embedding_dimensions := Some [[3; 8]; [2; 8]]%nat |}
                    (ex_metadata "X" ex_dir));
          files := [] |};
     fs := list_to_map
             [(ex_corpus, Directory); (ex_cache, Directory);
              (ex_reduced, Directory); (ex_umap_1, Directory)];
     stdout := []; localtime := ex_time |}.

Definition ex_reducer : Embedder :=
  {| emb_model_name := "umap"; emb_dim_reduction_model := true;
     model_segment_length := 0; model_sr := 0; file_length := None |}.

Definition ex_reduced_embeds : ndarray :=
  {| rows := [[float_of_int 1; float_of_int 2]; [float_of_int 3; float_of_int 4]; [float_of_int 5; float_of_int 6];
              [float_of_int 7; float_of_int 8]; [float_of_int 9; float_of_int 10]];
     ncols := 2 |}.

(** The state in which [check_embeds_already_exist] starts scanning. *)
Definition reset (st : state) : state :=
  {| self := set_dim_reduc_embed_dir None
               (set_combination_already_exists false (self st));
     fs := fs st; stdout := stdout st; localtime := localtime st |}.

(** The directory whose entries are the candidates. *)
Definition cache_parent (l : Loader) : path :=
  match reducer l with
  | Some _ => dim_reduc_parent_dir l
  | None => embed_parent_dir l
  end.

(** What [check_embeds_already_exist] does once the candidates are
    known. *)
Definition scan_from_reset (dirs : list path) (st : state) : result unit :=
  match _find_existing_embed_dir (sort_paths dirs) (reset st) with
  | Ok _ s => Ok tt s
  | Raise e s => Raise e s
  end.

(** The candidates of resolution: the entries of the cache parent, or
    the one directory an override name stands for. *)
Definition candidate (l : Loader) (d : path) : Prop :=
  match check_if_combination_exists l with
  | Flag _ => path_parent d = cache_parent l
  | Override name => d = joinpath_str (cache_parent l) name
  end.

(** A policy whose override name, if it has one, names an entry by its
    parts: there is a part, and none is [..]. *)
Definition plain_policy (r : reuse_policy) : Prop :=
  match r with
  | Flag _ => True
  | Override name => components name ≠ [] ∧ ".." ∉ components name
  end.

(** The override [old.d/X-corpus], an empty directory two levels under
    the cache parent. *)
Definition ex_override_nested : state :=
  ex_state (ex_loader ex_corpus (Override "old.d/X-corpus") None)
    ([(joinpath ex_cache "old.d", Directory);
      (joinpath (joinpath ex_cache "old.d") "X-corpus", Directory)]
     ++ ex_audio).

(** The override [/srv/old/X-corpus], a complete cache outside the cache
    parent, which holds the debris of another model. *)
Definition ex_override_absolute : state :=
  ex_state (ex_loader ex_corpus (Override "/srv/old/X-corpus") None)
    (ex_cache_dir ["/"; "srv"; "old"; "X-corpus"] "X"
     ++ [(ex_dir_other, Directory)] ++ ex_audio).

(** Reuse switched off, over the complete cache. *)
Definition ex_switched_off : state :=
  ex_state (ex_loader ex_corpus (Flag false) None)
    (ex_cache_dir ex_dir "X" ++ ex_audio).


(** The corpus holds a file that ends with two of the suffixes. *)
Definition ex_two_suffixes : state :=
  {| self :=
       {| model_name := "X"; audio_dir := ex_corpus;
          dim_reduction_model := None;
          check_if_combination_exists := Flag true;
          embed_suffix := ".npy";
          embed_parent_dir := ex_cache; dim_reduc_parent_dir := ex_reduced;
          audio_suffixes := [".wav"; "av"; ".WAV"];
          combination_already_exists := false; dim_reduc_embed_dir := None;
          embed_dir := None; metadata_dict := None; files := [] |};
     fs := list_to_map
             ([(ex_corpus, Directory); (ex_cache, Directory)] ++ ex_audio);
     stdout := []; localtime := ex_time |}.

Definition raised {A} (r : result A) : option exn :=
  match r with
  | Ok _ _ => None
  | Raise e _ => Some e
  end.

Definition ex_embedder_unprepared : Embedder :=
  {| emb_model_name := "X"; emb_dim_reduction_model := false;
     model_segment_length := 16000; model_sr := 16000;
     file_length := None |}.

(** The state with another file system. *)
Definition with_fs (f : filesystem) (s : state) : state :=
  {| self := self s; fs := f; stdout := stdout s; localtime := localtime s |}.

(** Two file systems of which the second keeps every entry of the first
    as the kind of node it was. *)
Definition keeps_entries (f f' : filesystem) : Prop :=
  (∀ p, f !! p = Some Directory → f' !! p = Some Directory)
  ∧ (∀ p c, f !! p = Some (File c) → ∃ c', f' !! p = Some (File c')).

(** Two states that differ in the file system at most. *)
Definition same_loader (s s' : state) : Prop :=
  self s' = self s ∧ stdout s' = stdout s ∧ localtime s' = localtime s.

(** Where a raw artifact goes. *)
Definition raw_dest (dir rel : path) (stem model : string) : path :=
  joinpath (dir ++ path_parent rel) (stem +:+ "_" +:+ model +:+ ".npy").

(** The reduction run before any artifact was read: the record has no
    [embedding_dimensions] yet. *)
Definition ex_reduction_unread : state :=
  {| self := set_metadata_dict (ex_metadata "X" ex_dir) (self ex_reduction);
     fs := fs ex_reduction; stdout := []; localtime := ex_time |}.

(** The state with other attributes. *)
Definition with_self (l : Loader) (s : state) : state :=
  {| self := l; fs := fs s; stdout := stdout s; localtime := localtime s |}.

(** The test of line 245 on the entries of the raw cache parent. *)
Definition raw_candidates (s : state) : list path :=
  filter (λ d, contains (path_stem (audio_dir (self s))) (path_name d)
               && contains (model_name (self s)) (path_stem d))
    (children (fs s) (embed_parent_dir (self s))).

(** The state in which [get_embeddings] leaves a fresh reduction run
    that found the raw cache [raw], whose metadata file holds [m]. *)
Definition reduction_started (raw : path) (m : metadata) (s1 : state) : state :=
  let s2 :=
    loaded raw m
      (with_self
         (set_files (sort_paths (rglob (fs s1) raw (embed_suffix (self s1))))
            (self s1)) s1) in
  let s3 :=
    with_self
      (set_metadata_dict (with_files (reset_embedding_lists (md_files m)) m)
         (self s2)) s2 in
  with_self
    (set_embed_dir
       (joinpath (dim_reduc_parent_dir (self s3))
          (strftime ("%Y-%m-%d_%H-%M___"
                     +:+ match reducer (self s3) with
                         | Some r => r
                         | None => model_name (self s3)
                         end
                     +:+ "-" +:+ path_stem (audio_dir (self s3)))
             (localtime s3)
           +:+ "-" +:+ model_name (self s3)))
       (self s3)) s3.

(** A reduction with [umap] over the complete raw cache, and one with
    no raw cache to reduce. *)
Definition ex_reduce_raw : state :=
  ex_state (ex_loader ex_corpus (Flag true) (Some "umap"))
    (ex_cache_dir ex_dir "X" ++ ex_audio).


Definition returns_path (r : result (option path)) : option path :=
  match r with
  | Ok (Some d) _ => Some d
  | _ => None
  end.

(** Every recorded shape is a pair. *)
Definition pairs (dims : list (list nat)) : Prop :=
  Forall (λ d, length d = 2%nat) dims.

(** [np.arange] returns for the frame count of every recorded pair. *)
Definition frames_fit (dims : list (list nat)) (input_len : pyfloat) : Prop :=
  Forall (λ d, ∀ n c, d = [n; c] →
               ∃ x ts, to_float (Z.of_nat n) = inr x
                       ∧ np_arange (SF64mul x input_len) input_len = inr ts)
    dims.

Definition ex_reduce_started : state := state_of (get_embeddings ex_reduce_raw).

Definition returned_shape (r : result (list nat)) : option (list nat) :=
  match r with
  | Ok out _ => Some out
  | Raise _ _ => None
  end.

(** The loader that reuses the complete cache, after [get_embeddings]. *)
Definition ex_reusing : state :=
  state_of (get_embeddings (state_of (check_embeds_already_exist ex_unchanged))).

Definition value_of {A} (r : result A) : option A :=
  match r with
  | Ok a _ => Some a
  | Raise _ _ => None
  end.

(** An embedder after [prepare_audio] on a file of [t] seconds. *)
Definition ex_embedder_of (t : pyfloat) : Embedder :=
  {| emb_model_name := "X"; emb_dim_reduction_model := false;
     model_segment_length := 16000; model_sr := 16000;
     file_length := Some t |}.

(** The fresh run after [a.wav] (0.1 s, 1 frame), [sub/b.wav] (0.2 s,
    2 frames) and [c.mp3] (0.3 s, 3 frames). *)
Definition ex_three_files : state :=
  state_of
    (write_audio_file_to_metadata 2 (joinpath ex_corpus "c.mp3")
       (ex_embedder_of (Prim2SF 0.3)) [3; 8]%nat
       (state_of
          (write_audio_file_to_metadata 1
             (joinpath (joinpath ex_corpus "sub") "b.wav")
             (ex_embedder_of (Prim2SF 0.2)) [2; 8]%nat
             (state_of
                (write_audio_file_to_metadata 0 (joinpath ex_corpus "a.wav")
                   (ex_embedder_of (Prim2SF 0.1)) [1; 8]%nat ex_fresh))))).

(** The reduction run over a cache of the same two files whose frames
    are segments of 4800 samples at 48000 Hz. *)
Definition ex_reduction_tenth : state :=
  with_self
    (set_metadata_dict
       {| md_model_name := "X"; md_audio_dir := ex_corpus;
          md_embed_dir := ex_dir;
          md_files :=
            {| md_audio_files := [["a.wav"]; ["sub"; "b.wav"]];
               md_file_lengths := [Prim2SF 0.3; Prim2SF 0.2];
               md_nr_embeds_per_file := [3; 2]%nat;
               md_embedding_files := Some [["a_X.npy"]; ["sub"; "b_X.npy"]];
               md_embedding_dimensions := Some [[3; 8]; [2; 8]]%nat |};
          md_segment_length := Some 4800%Z; md_sample_rate := Some 48000%Z;
          md_embedding_size := Some 8%nat; md_nr_embeds_total := Some 5%nat;
          md_total_dataset_length := Some (Prim2SF 0.5) |}
       (self ex_reduction))
    ex_reduction.

(** The [timestamp] list of the JSON document at [p]. *)
Definition written_timestamps (s : state) (p : path) : option (list pyfloat) :=
  match fs s !! p with
  | Some (File (Json d)) => Some (js_timestamp d)
  | _ => None
  end.

(** The shapes recorded for the raw artifacts. *)
Definition recorded_dims (s : state) : option (list (list nat)) :=
  match metadata_dict (self s) with
  | Some m => md_embedding_dimensions (md_files m)
  | None => None
  end.

(** The number of frames the recorded shapes stand for. *)
Definition frame_total (dims : list (list nat)) : nat :=
  sum_list (omap head dims).

(** * Properties *)

(** ** The order of paths *)

Lemma string_compare_refl (a : string) : String.compare a a = Eq.
Proof.
  induction a as [|c a IH]; simpl; [done|].
  unfold Ascii.compare. by rewrite N.compare_refl.
Qed.

Lemma string_compare_lt_trans (a b c : string) :
  String.compare a b = Lt → String.compare b c = Lt → String.compare a c = Lt.
Proof.
  intros Hab Hbc.
  assert (String.le a c) as Hac.
  { transitivity b; unfold String.le, String.leb; [by rewrite Hab|by rewrite Hbc]. }
  unfold String.le, String.leb in Hac.
  destruct (String.compare a c) eqn:E; [|done|done].
  apply String.compare_eq_iff in E. subst c.
  rewrite String.compare_antisym, Hab in Hbc. discriminate.
Qed.

Lemma path_compare_antisym (p q : path) :
  path_compare p q = CompOpp (path_compare q p).
Proof.
  revert q. induction p as [|a p IH]; intros [|b q]; simpl; try done.
  rewrite (String.compare_antisym b a).
  destruct (String.compare a b); simpl; auto.
Qed.

Lemma path_compare_eq (p q : path) : path_compare p q = Eq → p = q.
Proof.
  revert q. induction p as [|a p IH]; intros [|b q]; simpl; try done.
  destruct (String.compare a b) eqn:E; try done.
  intros H. apply String.compare_eq_iff in E. f_equal; auto.
Qed.

Lemma path_compare_refl (p : path) : path_compare p p = Eq.
Proof. induction p as [|a p IH]; simpl; [done|]. by rewrite string_compare_refl. Qed.

Lemma path_compare_lt_trans (p q r : path) :
  path_compare p q = Lt → path_compare q r = Lt → path_compare p r = Lt.
Proof.
  revert q r. induction p as [|a p IH]; intros [|b q] [|c r]; simpl; try done.
  destruct (String.compare a b) eqn:Eab; try done.
  - apply String.compare_eq_iff in Eab. subst b.
    destruct (String.compare a c); try done. apply IH.
  - destruct (String.compare b c) eqn:Ebc; try done.
    + apply String.compare_eq_iff in Ebc. subst c. by rewrite Eab.
    + by rewrite (string_compare_lt_trans a b c).
Qed.

Global Instance path_le_refl : Reflexive path_le.
Proof. intros p. unfold path_le. by rewrite path_compare_refl. Qed.

Global Instance path_le_trans : Transitive path_le.
Proof.
  intros p q r. unfold path_le. intros Hpq Hqr.
  destruct (path_compare p q) eqn:E1; [| |done].
  { apply path_compare_eq in E1. by subst q. }
  destruct (path_compare q r) eqn:E2; [| |done].
  { apply path_compare_eq in E2. subst r. by rewrite E1. }
  by rewrite (path_compare_lt_trans p q r).
Qed.

Global Instance path_le_total : Total path_le.
Proof.
  intros p q. unfold path_le. rewrite (path_compare_antisym q p).
  destruct (path_compare p q); simpl; auto.
Qed.

Global Instance path_le_antisym : AntiSymm (=) path_le.
Proof.
  intros p q. unfold path_le. rewrite (path_compare_antisym q p).
  destruct (path_compare p q) eqn:E; simpl; try done.
  intros _ _. by apply path_compare_eq.
Qed.

Lemma sort_paths_sorted (l : list path) : StronglySorted path_le (sort_paths l).
Proof. apply StronglySorted_merge_sort; apply _. Qed.

Lemma sort_paths_elem_of (l : list path) (p : path) : p ∈ sort_paths l ↔ p ∈ l.
Proof. unfold sort_paths. by rewrite merge_sort_Permutation. Qed.

Lemma uniq_sublist (l : list path) : uniq l `sublist_of` l.
Proof.
  induction l as [|p [|q l] IH]; simpl; [done|done|].
  case_decide.
  - by apply sublist_cons.
  - by apply sublist_skip.
Qed.

Lemma uniq_elem_of (l : list path) (p : path) : p ∈ uniq l ↔ p ∈ l.
Proof.
  split; [intros H; eapply elem_of_sublist; [done|apply uniq_sublist]|].
  induction l as [|a [|b l] IH]; simpl; [done|done|].
  rewrite elem_of_cons. intros [->|Hin].
  - case_decide as E; [|by left]. subst b. apply IH. by left.
  - case_decide; [|right]; by apply IH.
Qed.

Lemma uniq_sorted (l : list path) :
  StronglySorted path_le l → StronglySorted path_le (uniq l).
Proof.
  induction 1 as [|p l Hl IH Hall]; simpl; [constructor|].
  destruct l as [|q l]; [by repeat constructor|].
  case_decide; [done|].
  constructor; [done|].
  apply Forall_forall. intros x Hx. apply (proj1 (uniq_elem_of _ _)) in Hx.
  rewrite Forall_forall in Hall. by apply Hall.
Qed.

Lemma np_unique_sorted (l : list path) : StronglySorted path_le (np_unique l).
Proof. apply uniq_sorted, sort_paths_sorted. Qed.

Lemma np_unique_elem_of (l : list path) (p : path) : p ∈ np_unique l ↔ p ∈ l.
Proof. unfold np_unique. by rewrite uniq_elem_of, sort_paths_elem_of. Qed.

Lemma np_unique_nil (l : list path) : np_unique l = [] ↔ l = [].
Proof.
  split; intros H.
  - destruct l as [|p l]; [done|].
    assert (p ∈ np_unique (p :: l)) as Hin by (apply np_unique_elem_of; by left).
    rewrite H in Hin. by apply elem_of_nil in Hin.
  - by subst l.
Qed.

(** ** Paths and the file system *)

Lemma path_parent_joinpath (d : path) (n : string) : path_parent (joinpath d n) = d.
Proof.
  unfold path_parent, joinpath. rewrite length_app. simpl.
  apply take_app_length'. lia.
Qed.

Lemma path_name_joinpath (d : path) (n : string) : path_name (joinpath d n) = n.
Proof. unfold path_name, joinpath. by rewrite last_snoc. Qed.

Lemma joinpath_neq (d : path) (n : string) : joinpath d n ≠ d.
Proof.
  unfold joinpath. intros H. apply (f_equal length) in H.
  rewrite length_app in H. simpl in H. lia.
Qed.

Lemma is_dir_lookup (fs : filesystem) (p : path) :
  is_dir fs p = true ↔ fs !! p = Some Directory.
Proof.
  unfold is_dir. destruct (fs !! p) as [[]|]; split; intros; simplify_eq; done.
Qed.

Lemma elem_of_children (fs : filesystem) (d k : path) :
  k ∈ children fs d ↔
  fs !! d = Some Directory ∧ is_Some (fs !! k) ∧ k ≠ [] ∧ path_parent k = d.
Proof.
  unfold children. destruct (is_dir fs d) eqn:Hd.
  - apply is_dir_lookup in Hd.
    rewrite list_elem_of_filter, elem_of_elements, elem_of_dom.
    unfold is_child. rewrite bool_decide_spec. tauto.
  - rewrite elem_of_nil. split; [done|]. intros [H _].
    apply is_dir_lookup in H. congruence.
Qed.

Lemma elem_of_glob (fs : filesystem) (d k : path) (suf : string) :
  k ∈ glob fs d suf ↔ k ∈ children fs d ∧ ends_with suf (path_name k) = true.
Proof.
  unfold glob. rewrite list_elem_of_filter, Is_true_true. tauto.
Qed.

(** A candidate directory that holds [metadata.yml] passes the test
    [list(d.glob("*yml")) == []] negatively. *)
Lemma glob_yml_metadata (fs : filesystem) (d : path) (n : node) :
  fs !! d = Some Directory →
  fs !! joinpath d "metadata.yml" = Some n →
  joinpath d "metadata.yml" ∈ glob fs d "yml".
Proof.
  intros Hd Hm. apply elem_of_glob. split.
  - apply elem_of_children. split; [done|]. split; [by eexists|]. split.
    + unfold joinpath. by destruct d.
    + apply path_parent_joinpath.
  - by rewrite path_name_joinpath.
Qed.

(** ** The methods, step by step *)

Ltac unfold_monad :=
  unfold mbind, M_bind, mret, M_ret, get, raise, modify_self, modify_fs,
    print, try_except in *.

Lemma _get_audio_files_eq (s : state) :
  _get_audio_files s =
  if (0 <? length (enumerated s))%nat then Ok (enumerated s) s
  else Raise AssertionError s.
Proof.
  unfold _get_audio_files, enumerated. unfold_monad.
  by destruct (0 <? _)%nat.
Qed.

Lemma enumerated_nil (s : state) :
  enumerated s = [] ↔
  ∀ suf, suf ∈ audio_suffixes (self s) →
         rglob (fs s) (audio_dir (self s)) suf = [].
Proof.
  unfold enumerated. rewrite np_unique_nil.
  induction (audio_suffixes (self s)) as [|a l IH]; simpl.
  - split; [|done]. intros _ suf Hin. by apply elem_of_nil in Hin.
  - split.
    + intros H suf Hin. apply app_eq_nil in H as [H1 H2].
      apply elem_of_cons in Hin as [->|Hin]; [done|]. by apply IH.
    + intros H. rewrite (H a) by (by left). simpl. apply IH.
      intros suf Hin. apply H. by right.
Qed.

Lemma _get_audio_files_empty (s : state) :
  (∀ suf, suf ∈ audio_suffixes (self s) →
          rglob (fs s) (audio_dir (self s)) suf = []) →
  _get_audio_files s = Raise AssertionError s.
Proof.
  intros H. rewrite _get_audio_files_eq.
  apply enumerated_nil in H. by rewrite H.
Qed.

Lemma _get_metadata_dict_eq (folder : path) (m : metadata) (s : state) :
  fs s !! joinpath folder "metadata.yml" = Some (File (Yaml m)) →
  _get_metadata_dict folder s = Ok tt (loaded folder m s).
Proof.
  intros H. unfold _get_metadata_dict, yaml_load, loaded. unfold_monad.
  unfold reducer. simpl. rewrite H. simpl.
  destruct (is_dir (fs s) (md_audio_dir m)); simpl;
    destruct (dim_reduction_model (self s)) as [r|]; try reflexivity;
    destruct (String.eqb r ""); reflexivity.
Qed.

Lemma loaded_fs (folder : path) (m : metadata) (s : state) :
  fs (loaded folder m s) = fs s.
Proof. reflexivity. Qed.

Lemma loaded_metadata_dict (folder : path) (m : metadata) (s : state) :
  metadata_dict (self (loaded folder m s)) = Some m.
Proof. unfold loaded. simpl. by destruct (reducer (self s)). Qed.

Lemma loaded_combination_already_exists (folder : path) (m : metadata) (s : state) :
  combination_already_exists (self (loaded folder m s))
  = combination_already_exists (self s).
Proof. unfold loaded. simpl. by destruct (reducer (self s)). Qed.

Lemma loaded_stdout (folder : path) (m : metadata) (s : state) (msg : message) :
  msg ∈ stdout s → msg ∈ stdout (loaded folder m s).
Proof.
  unfold loaded. simpl. destruct (is_dir _ _); [done|].
  intros H. apply elem_of_app. by left.
Qed.

Lemma glob_cons_is_dir (fs : filesystem) (d k : path) (l : list path)
    (suf : string) :
  glob fs d suf = k :: l → fs !! d = Some Directory.
Proof.
  intros H. assert (k ∈ glob fs d suf) as Hin by (rewrite H; by left).
  apply elem_of_glob in Hin as [Hin _].
  by apply elem_of_children in Hin as [? _].
Qed.

(** *** The outcomes of one iteration *)

Lemma examine_other_name (st : state) (d : path) :
  name_matches (self st) d = false → examine d st = Ok Next st.
Proof.
  unfold examine, name_matches. unfold_monad. by intros ->.
Qed.

Lemma examine_prune (st : state) (d : path) :
  name_matches (self st) d = true →
  glob (fs st) d "yml" = [] →
  fs st !! d = Some Directory →
  children (fs st) d = [] →
  examine d st = Ok Next (pruned d st).
Proof.
  unfold examine, name_matches, rmdir. unfold_monad.
  by intros -> -> -> ->.
Qed.

Lemma examine_keep (st : state) (d : path) :
  name_matches (self st) d = true →
  glob (fs st) d "yml" = [] →
  ¬ (fs st !! d = Some Directory ∧ children (fs st) d = []) →
  examine d st = Ok Next (printed (MsgNotEmpty d) st).
Proof.
  unfold examine, name_matches, rmdir. unfold_monad.
  intros -> -> Hne.
  destruct (fs st !! d) as [[c|]|]; try done.
  destruct (children (fs st) d); [|done]. by destruct Hne.
Qed.

Lemma examine_other_model (st : state) (d : path) (m : metadata) :
  fs st !! d = Some Directory →
  fs st !! joinpath d "metadata.yml" = Some (File (Yaml m)) →
  md_model_name m ≠ model_name (self st) →
  examine d st = Ok Next st.
Proof.
  intros Hd Hm Hne. unfold examine. unfold_monad.
  destruct (contains _ _ && contains _ _); [|done].
  pose proof (glob_yml_metadata _ _ _ Hd Hm) as Hin.
  destruct (glob (fs st) d "yml") as [|k l]; [by apply elem_of_nil in Hin|].
  unfold yaml_load. unfold_monad. rewrite Hm.
  destruct (String.eqb_spec (model_name (self st)) (md_model_name m)); [|done].
  congruence.
Qed.

Section matching_candidate.
  Variables (st : state) (d : path) (m : metadata).
  Hypothesis Hname : name_matches (self st) d = true.
  Hypothesis Hdir : fs st !! d = Some Directory.
  Hypothesis Hmeta : fs st !! joinpath d "metadata.yml" = Some (File (Yaml m)).
  Hypothesis Hmodel : md_model_name m = model_name (self st).

Lemma examine_matching :
    examine d st =
    match reducer (self st) with
    | Some r =>
        if contains r (path_stem d)
        then Ok Break
               {| self := set_embed_dir d
                            (set_combination_already_exists true (self st));
                  fs := fs st;
                  stdout := stdout st ++ [MsgAlreadyExist d];
                  localtime := localtime st |}
        else Ok (Return d) st
    | None =>
        if (0 <? length (enumerated st))%nat then
          if bool_decide (length (enumerated st)
                          = length (rglob (fs st) d (embed_suffix (self st))))
          then Ok Break
                 (printed (MsgAlreadyExist (md_embed_dir m))
                    (loaded d m (marked_existing st)))
          else Ok Next st
        else Ok Break
               (printed (MsgAlreadyExist (md_embed_dir m))
                  (printed MsgNotVerified
                     (marked_existing (loaded d m st))))
    end.
  Proof using Hname Hdir Hmeta Hmodel.
    unfold examine. unfold name_matches in Hname. unfold_monad.
    rewrite Hname.
    pose proof (glob_yml_metadata _ _ _ Hdir Hmeta) as Hin.
    destruct (glob (fs st) d "yml") as [|k l]; [by apply elem_of_nil in Hin|].
    unfold yaml_load. unfold_monad. rewrite Hmeta, Hmodel, String.eqb_refl.
    simpl. destruct (reducer (self st)) as [r|].
    - by destruct (contains r (path_stem d)).
    - rewrite _get_audio_files_eq.
      destruct (0 <? length (enumerated st))%nat; simpl.
      + case_bool_decide; [|done].
        rewrite (_get_metadata_dict_eq d m) by done.
        by rewrite loaded_metadata_dict.
      + rewrite (_get_metadata_dict_eq d m) by done.
        unfold printed, marked_existing, loaded. simpl.
        by destruct (reducer (self st)).
  Qed.
End matching_candidate.

(** An iteration that goes on to the next candidate leaves [self]
    alone and at most removes the candidate, then an empty directory. *)
Lemma examine_Next_inv (st st' : state) (d : path) :
  examine d st = Ok Next st' →
  self st' = self st ∧ localtime st' = localtime st ∧
  (fs st' = fs st ∨
   (fs st' = delete d (fs st) ∧ fs st !! d = Some Directory
    ∧ children (fs st) d = [])).
Proof.
  unfold examine. unfold_monad.
  destruct (contains _ _ && contains _ _); [|intros [= <-]; auto].
  destruct (glob (fs st) d "yml") as [|k l] eqn:Hg.
  { unfold rmdir. unfold_monad.
    destruct (fs st !! d) as [[c|]|] eqn:Hd; simpl;
      try (intros [= <-]; auto).
    destruct (children (fs st) d) eqn:Hc; simpl; intros [= <-]; simpl; auto 10. }
  unfold yaml_load. unfold_monad.
  destruct (fs st !! joinpath d "metadata.yml") as [[[m| |]|]|] eqn:Hm; try done.
  destruct (String.eqb_spec (model_name (self st)) (md_model_name m)) as [Heq|];
    simpl; [|intros [= <-]; auto].
  destruct (reducer (self st)) as [r|].
  - by destruct (contains r (path_stem d)).
  - rewrite _get_audio_files_eq.
    destruct (0 <? length (enumerated st))%nat; simpl.
    + case_bool_decide; simpl; [|intros [= <-]; auto].
      by rewrite (_get_metadata_dict_eq d m) by done.
    + by rewrite (_get_metadata_dict_eq d m) by done.
Qed.

(** [return d] happens without any effect. *)
Lemma examine_Return_inv (st st' : state) (d r : path) :
  examine d st = Ok (Return r) st' → st' = st ∧ r = d.
Proof.
  unfold examine. unfold_monad.
  destruct (contains _ _ && contains _ _); [|done].
  destruct (glob (fs st) d "yml") as [|k l] eqn:Hg.
  { unfold rmdir. unfold_monad.
    destruct (fs st !! d) as [[c|]|]; simpl; try done.
    by destruct (children (fs st) d). }
  unfold yaml_load. unfold_monad.
  destruct (fs st !! joinpath d "metadata.yml") as [[[m| |]|]|] eqn:Hm; try done.
  destruct (String.eqb_spec (model_name (self st)) (md_model_name m)) as [Heq|];
    simpl; [|done].
  destruct (reducer (self st)) as [r'|].
  - destruct (contains r' (path_stem d)); simpl; [done|]. by intros [= <- <-].
  - rewrite _get_audio_files_eq.
    destruct (0 <? length (enumerated st))%nat; simpl.
    + case_bool_decide; simpl; [|done].
      by rewrite (_get_metadata_dict_eq d m) by done.
    + by rewrite (_get_metadata_dict_eq d m) by done.
Qed.

(** A [break] is reached only through the metadata file of the
    candidate, and the file records the requested model. *)
Lemma examine_Break_inv (st st' : state) (d : path) :
  examine d st = Ok Break st' →
  name_matches (self st) d = true ∧ fs st !! d = Some Directory ∧
  fs st' = fs st ∧ combination_already_exists (self st') = true ∧
  ∃ m, fs st !! joinpath d "metadata.yml" = Some (File (Yaml m))
       ∧ md_model_name m = model_name (self st).
Proof.
  intros H.
  assert (name_matches (self st) d = true) as Hname.
  { destruct (name_matches (self st) d) eqn:E; [done|].
    by rewrite examine_other_name in H. }
  assert (∃ k l, glob (fs st) d "yml" = k :: l) as (k & l & Hg).
  { destruct (glob (fs st) d "yml") as [|k l] eqn:Hg; [|by eauto].
    assert (∃ s1, examine d st = Ok Next s1) as [s1 Hs1]; [|congruence].
    destruct (fs st !! d) as [[c|]|] eqn:Hd.
    - eexists. apply examine_keep; [done..|]. rewrite Hd. by intros [? ?].
    - destruct (children (fs st) d) as [|c cs] eqn:Hc.
      + eexists. by apply examine_prune.
      + eexists. apply examine_keep; [done..|]. rewrite Hc. by intros [? ?].
    - eexists. apply examine_keep; [done..|]. rewrite Hd. by intros [? ?]. }
  pose proof (glob_cons_is_dir _ _ _ _ _ Hg) as Hdir.
  assert (∃ m, fs st !! joinpath d "metadata.yml" = Some (File (Yaml m)))
    as [m Hm].
  { revert H. unfold examine, name_matches in *. unfold_monad.
    rewrite Hname, Hg. unfold yaml_load. unfold_monad.
    destruct (fs st !! joinpath d "metadata.yml") as [[[m| |]|]|]; try done.
    by eauto. }
  destruct (decide (md_model_name m = model_name (self st))) as [Hmodel|Hne];
    [|by rewrite (examine_other_model st d m) in H].
  rewrite (examine_matching st d m) in H by done.
  split; [done|]. split; [done|].
  assert (fs st' = fs st ∧ combination_already_exists (self st') = true)
    as [? ?]; [|by eauto].
  destruct (reducer (self st)) as [r|].
  - destruct (contains r (path_stem d)); simplify_eq. done.
  - destruct (0 <? length (enumerated st))%nat.
    + case_bool_decide; simplify_eq. split; [done|].
      unfold loaded. simpl. by destruct (reducer _).
    + simplify_eq. done.
Qed.

(** *** The scan *)

Lemma selects_for_each (dirs : list path) (st st' : state) (d : path) :
  selects dirs st d st' → for_each examine dirs st = Ok None st'.
Proof.
  induction 1 as [d dirs st st' H|d0 dirs st st0 d st' H _ IH]; simpl;
    unfold_monad; by rewrite H.
Qed.

Lemma for_each_selects (dirs : list path) (st st' : state) (r : option path) :
  for_each examine dirs st = Ok r st' →
  combination_already_exists (self st) = false →
  combination_already_exists (self st') = true →
  ∃ d, selects dirs st d st'.
Proof.
  revert st. induction dirs as [|d dirs IH]; intros st; simpl; unfold_monad.
  { intros [= <- <-]. congruence. }
  destruct (examine d st) as [[| |r'] s1|e s1] eqn:E; [| | |done].
  - intros Hrun Hf Ht. apply examine_Next_inv in E as Hinv.
    destruct Hinv as (Hself & _ & _).
    destruct (IH s1 Hrun) as [d' Hd']; [by rewrite Hself|done|].
    exists d'. by eapply selects_later.
  - intros [= <- <-] _ _. exists d. by apply selects_here.
  - intros [= <- <-]. apply examine_Return_inv in E as [-> _]. congruence.
Qed.

(** Whatever the scan selects holds, in the file system the scan
    started from, a metadata file that records the requested model. *)
Lemma selects_inv (dirs : list path) (st st' : state) (d : path) :
  selects dirs st d st' →
  d ∈ dirs ∧ name_matches (self st) d = true ∧ fs st !! d = Some Directory ∧
  combination_already_exists (self st') = true ∧
  ∃ m, fs st !! joinpath d "metadata.yml" = Some (File (Yaml m))
       ∧ md_model_name m = model_name (self st).
Proof.
  induction 1 as [d dirs st st' H|d0 dirs st st0 d st' H _ IH].
  - apply examine_Break_inv in H as (? & ? & ? & ? & ?).
    split; [by left|]. done.
  - destruct IH as (Hin & Hname & Hdir & Hc & m & Hm & Hmodel).
    apply examine_Next_inv in H as (Hself & _ & Hfs).
    rewrite Hself in *.
    split; [by right|]. split; [done|].
    destruct Hfs as [Hfs|(Hfs & _ & _)]; rewrite Hfs in *.
    + eauto 10.
    + apply lookup_delete_Some in Hdir as [_ Hdir].
      apply lookup_delete_Some in Hm as [_ Hm]. eauto 10.
Qed.

Lemma _find_existing_embed_dir_snoc (older : list path) (d : path) (st : state) :
  _find_existing_embed_dir (older ++ [d]) st
  = match examine d st with
    | Ok Next s1 => _find_existing_embed_dir older s1
    | Ok Break s1 => Ok None s1
    | Ok (Return r) s1 => Ok (Some r) s1
    | Raise e s1 => Raise e s1
    end.
Proof.
  unfold _find_existing_embed_dir. rewrite reverse_snoc. simpl. unfold_monad.
  by destruct (examine d st) as [[| |r] s1|e s1].
Qed.

(** The candidates are visited from the greatest path to the least. *)
Lemma scan_order (dirs : list path) :
  StronglySorted (flip path_le) (reverse (sort_paths dirs)).
Proof.
  pose proof (sort_paths_sorted dirs) as H.
  induction H as [|p l Hl IH Hall]; [constructor|].
  rewrite reverse_cons. apply StronglySorted_app_2; [|done|by repeat constructor].
  intros x y Hx Hy. apply list_elem_of_singleton in Hy as ->.
  apply (proj1 (elem_of_reverse _ _)) in Hx.
  rewrite Forall_forall in Hall. unfold flip. by apply Hall.
Qed.

(** * The claims *)

(** ** The resolver *)

(** C3. A candidate whose name contains the model identifier and the
    corpus identifier but whose metadata file records another model is
    skipped: scanning goes on with the older candidates in the unchanged
    state, and no scan over any list of candidates ever selects it. *)
Theorem model_mismatch_is_never_reused (st : state) (d : path) (m : metadata) :
  contains (model_name (self st)) (path_name d) = true →
  contains (path_stem (audio_dir (self st))) (path_name d) = true →
  fs st !! d = Some Directory →
  fs st !! joinpath d "metadata.yml" = Some (File (Yaml m)) →
  md_model_name m ≠ model_name (self st) →
  (∀ older, _find_existing_embed_dir (older ++ [d]) st
            = _find_existing_embed_dir older st)
  ∧ (∀ dirs st', ¬ selects dirs st d st').
Proof.
  intros _ _ Hdir Hmeta Hne. split.
  - intros older. rewrite _find_existing_embed_dir_snoc.
    by rewrite (examine_other_model st d m).
  - intros dirs st' Hsel.
    apply selects_inv in Hsel as (_ & _ & _ & _ & m' & Hm' & Hmodel).
    congruence.
Qed.

(** C4, as amended. A candidate whose name matches the request and that
    holds no entry ending in [yml] is never selected; when it is an empty
    directory it is removed, otherwise the file system is left as it is
    and the candidate is reported; either way scanning goes on with the
    older candidates. *)
Theorem stale_candidate_is_pruned_or_reported (st : state) (d : path) :
  name_matches (self st) d = true →
  glob (fs st) d "yml" = [] →
  (fs st !! d = Some Directory → children (fs st) d = [] →
   ∀ older, _find_existing_embed_dir (older ++ [d]) st
            = _find_existing_embed_dir older (pruned d st))
  ∧ (¬ (fs st !! d = Some Directory ∧ children (fs st) d = []) →
     ∀ older, _find_existing_embed_dir (older ++ [d]) st
              = _find_existing_embed_dir older (printed (MsgNotEmpty d) st))
  ∧ (∀ dirs st', ¬ selects dirs st d st').
Proof.
  intros Hname Hglob. repeat split.
  - intros Hdir Hempty older. rewrite _find_existing_embed_dir_snoc.
    by rewrite examine_prune.
  - intros Hne older. rewrite _find_existing_embed_dir_snoc.
    by rewrite examine_keep.
  - intros dirs st' Hsel.
    apply selects_inv in Hsel as (_ & _ & Hdir & _ & m & Hm & _).
    pose proof (glob_yml_metadata _ _ _ Hdir Hm) as Hin.
    rewrite Hglob in Hin. by apply elem_of_nil in Hin.
Qed.

(** C5. For a raw-embedding request, when no file under the corpus root
    matches a configured suffix, a candidate whose name and metadata match
    is taken as it is: the scan stops at it with the combination marked as
    existing, its metadata record loaded and the warning printed, and the
    file system untouched. *)
Theorem unverifiable_candidate_is_reused (st : state) (d : path) (m : metadata)
    (older : list path) :
  reducer (self st) = None →
  name_matches (self st) d = true →
  fs st !! d = Some Directory →
  fs st !! joinpath d "metadata.yml" = Some (File (Yaml m)) →
  md_model_name m = model_name (self st) →
  (∀ suf, suf ∈ audio_suffixes (self st) →
          rglob (fs st) (audio_dir (self st)) suf = []) →
  ∃ st', _find_existing_embed_dir (older ++ [d]) st = Ok None st'
         ∧ selects (reverse (older ++ [d])) st d st'
         ∧ combination_already_exists (self st') = true
         ∧ metadata_dict (self st') = Some m
         ∧ MsgNotVerified ∈ stdout st'
         ∧ fs st' = fs st.
Proof.
  intros Hraw Hname Hdir Hmeta Hmodel Hnone.
  pose proof (examine_matching st d m Hname Hdir Hmeta Hmodel) as Hex.
  rewrite Hraw in Hex. apply enumerated_nil in Hnone.
  rewrite Hnone in Hex. simpl in Hex.
  eexists. split; [|split].
  - rewrite _find_existing_embed_dir_snoc. by rewrite Hex.
  - rewrite reverse_snoc. by apply selects_here.
  - split; [done|]. split.
    + unfold loaded. simpl. by rewrite Hraw.
    + split; [|done]. simpl. apply elem_of_app. left. apply elem_of_app.
      right. by left.
Qed.

(** C1, as amended. For a raw-embedding request, a candidate whose name
    and metadata match and a corpus in which at least one audio file is
    found: the iteration on the candidate ends the scan by [break] exactly
    when the number of entries ending in [.npy] below the candidate is the
    number of audio files found; then the combination is marked as
    existing and the metadata record loaded, and otherwise scanning goes
    on with the older candidates in the unchanged state. *)
Theorem reuse_iff_counts_agree (st : state) (d : path) (m : metadata) :
  reducer (self st) = None →
  embed_suffix (self st) = ".npy" →
  name_matches (self st) d = true →
  fs st !! d = Some Directory →
  fs st !! joinpath d "metadata.yml" = Some (File (Yaml m)) →
  md_model_name m = model_name (self st) →
  enumerated st ≠ [] →
  ((∃ st', examine d st = Ok Break st')
   ↔ length (rglob (fs st) d ".npy") = length (enumerated st))
  ∧ (length (rglob (fs st) d ".npy") = length (enumerated st) →
     ∀ older, ∃ st',
       _find_existing_embed_dir (older ++ [d]) st = Ok None st'
       ∧ combination_already_exists (self st') = true
       ∧ metadata_dict (self st') = Some m)
  ∧ (length (rglob (fs st) d ".npy") ≠ length (enumerated st) →
     ∀ older, _find_existing_embed_dir (older ++ [d]) st
              = _find_existing_embed_dir older st).
Proof.
  intros Hraw Hsuf Hname Hdir Hmeta Hmodel Hsome.
  pose proof (examine_matching st d m Hname Hdir Hmeta Hmodel) as Hex.
  rewrite Hraw, Hsuf in Hex.
  assert ((0 <? length (enumerated st))%nat = true) as Hpos.
  { apply Nat.ltb_lt. destruct (enumerated st); [done|simpl; lia]. }
  rewrite Hpos in Hex.
  split; [|split].
  - split.
    + intros [st' Hbreak]. rewrite Hbreak in Hex.
      by case_bool_decide.
    + intros Heq. rewrite bool_decide_true in Hex by done. by eexists.
  - intros Heq older. rewrite bool_decide_true in Hex by done.
    eexists. split; [|split].
    + rewrite _find_existing_embed_dir_snoc. by rewrite Hex.
    + change (combination_already_exists
                (self (loaded d m (marked_existing st))) = true).
      by rewrite loaded_combination_already_exists.
    + change (metadata_dict (self (loaded d m (marked_existing st))) = Some m).
      by rewrite loaded_metadata_dict.
  - intros Hne older. rewrite bool_decide_false in Hex by congruence.
    rewrite _find_existing_embed_dir_snoc. by rewrite Hex.
Qed.

(** C10. With a non-empty override name and a cache parent directory
    that exists and has no entry, [check_embeds_already_exist] raises
    [IndexError]. *)
Theorem override_in_empty_parent_raises (st : state) (name : string) :
  check_if_combination_exists (self st) = Override name →
  name ≠ "" →
  let parent :=
    match reducer (self st) with
    | Some _ => dim_reduc_parent_dir (self st)
    | None => embed_parent_dir (self st)
    end in
  fs st !! parent = Some Directory →
  children (fs st) parent = [] →
  ∃ st', check_embeds_already_exist st = Raise IndexError st'.
Proof.
  intros Hflag Hname parent Hdir Hempty.
  unfold check_embeds_already_exist. unfold_monad. simpl.
  rewrite Hflag. simpl.
  destruct (String.eqb_spec name "") as [|_]; [done|]. simpl.
  subst parent. unfold reducer in *. simpl.
  destruct (dim_reduction_model (self st)) as [r|]; simpl.
  - destruct (String.eqb r ""); unfold iterdir; unfold_monad; simpl;
      rewrite Hdir, Hempty; by eexists.
  - unfold iterdir. unfold_monad. simpl. rewrite Hdir, Hempty. by eexists.
Qed.

(** ** Enumerating the corpus *)

Lemma elem_of_enumerated (s : state) (p : path) :
  p ∈ enumerated s ↔
  ∃ suf, suf ∈ audio_suffixes (self s)
         ∧ p ∈ rglob (fs s) (audio_dir (self s)) suf.
Proof.
  unfold enumerated. rewrite np_unique_elem_of.
  induction (audio_suffixes (self s)) as [|a l IH]; simpl.
  - rewrite elem_of_nil. split; [done|]. intros (suf & Hin & _).
    by apply elem_of_nil in Hin.
  - rewrite elem_of_app, IH. split.
    + intros [H|(suf & Hin & H)].
      * exists a. split; [by left|done].
      * exists suf. split; [by right|done].
    + intros (suf & Hin & H). apply elem_of_cons in Hin as [->|Hin].
      * by left.
      * right. by exists suf.
Qed.

Lemma _get_audio_paths_eq (st : state) :
  _get_audio_paths st =
  if (0 <? length (enumerated st))%nat then
    Ok tt
      {| self :=
           set_embed_dir
             (joinpath (embed_parent_dir (self st))
                (strftime ("%Y-%m-%d_%H-%M___"
                           +:+ match reducer (self st) with
                               | Some r => r
                               | None => model_name (self st)
                               end
                           +:+ "-" +:+ path_stem (audio_dir (self st)))
                   (localtime st)))
             (set_files (sort_paths (enumerated st)) (self st));
         fs := fs st; stdout := stdout st; localtime := localtime st |}
  else Raise AssertionError st.
Proof.
  unfold _get_audio_paths. unfold mbind at 1. unfold M_bind at 1.
  rewrite _get_audio_files_eq.
  destruct (0 <? length (enumerated st))%nat; [|done].
  unfold get_timestamp_dir. unfold_monad. simpl. unfold reducer. simpl. done.
Qed.

(** C8. [_get_audio_paths] raises the assertion error, in the unchanged
    state, when no entry under the corpus root ends with a configured
    suffix; when some entry does it returns, and [self.files] is then
    sorted by path and holds exactly the entries that end with a
    configured suffix. *)
Theorem audio_paths_nonempty_and_sorted (st : state) :
  ((∀ suf, suf ∈ audio_suffixes (self st) →
           rglob (fs st) (audio_dir (self st)) suf = []) →
   _get_audio_paths st = Raise AssertionError st)
  ∧ ((∃ suf p, suf ∈ audio_suffixes (self st)
               ∧ p ∈ rglob (fs st) (audio_dir (self st)) suf) →
     ∃ st', _get_audio_paths st = Ok tt st'
            ∧ StronglySorted path_le (files (self st'))
            ∧ ∀ p, p ∈ files (self st') ↔
                   ∃ suf, suf ∈ audio_suffixes (self st)
                          ∧ p ∈ rglob (fs st) (audio_dir (self st)) suf).
Proof.
  rewrite _get_audio_paths_eq. split.
  - intros H. apply enumerated_nil in H. by rewrite H.
  - intros (suf & p & Hsuf & Hp).
    assert (p ∈ enumerated st) as Hin by (apply elem_of_enumerated; eauto).
    destruct (enumerated st) as [|q l] eqn:E; [by apply elem_of_nil in Hin|].
    simpl. eexists. split; [done|]. simpl. split.
    + apply sort_paths_sorted.
    + intros p'. rewrite sort_paths_elem_of, <- E. apply elem_of_enumerated.
Qed.

(** ** The metadata record *)

Lemma write_audio_file_to_metadata_inv (st st' : state) (index : nat)
    (file : path) (embed : Embedder) (shape : list nat) :
  write_audio_file_to_metadata index file embed shape st = Ok tt st' →
  ∃ m m' rel t n,
    metadata_dict (self st) = Some m ∧ metadata_dict (self st') = Some m'
    ∧ relative_to file (audio_dir (self st)) = Some rel
    ∧ file_length embed = Some t ∧ head shape = Some n
    ∧ md_audio_files (md_files m') = md_audio_files (md_files m) ++ [rel]
    ∧ md_file_lengths (md_files m') = md_file_lengths (md_files m) ++ [t]
    ∧ md_nr_embeds_per_file (md_files m')
      = md_nr_embeds_per_file (md_files m) ++ [n].
Proof.
  unfold write_audio_file_to_metadata, update_metadata. unfold_monad.
  destruct (metadata_dict (self st)) as [m|] eqn:Hm.
  - destruct (index =? 0)%nat; simpl; rewrite ?Hm; simpl.
    + destruct (last shape); simpl; [|done].
      destruct (relative_to file (audio_dir (self st))); simpl; [|done].
      destruct (file_length embed); simpl; [|done].
      destruct (head shape); simpl; [|done].
      intros [= <-]. simpl. do 5 eexists. repeat split; reflexivity.
    + destruct (relative_to file (audio_dir (self st))); simpl;
        rewrite ?Hm; simpl; [|done].
      destruct (file_length embed); simpl; [|done].
      destruct (head shape); simpl; [|done].
      intros [= <-]. simpl. do 5 eexists. repeat split; reflexivity.
  - destruct (index =? 0)%nat; simpl; rewrite ?Hm; simpl; [done|].
    destruct (relative_to file (audio_dir (self st))); simpl;
      rewrite ?Hm; simpl; done.
Qed.

Lemma write_metadata_file_inv (st st' : state) :
  write_metadata_file st = Ok tt st' →
  ∃ e m m',
    embed_dir (self st) = Some e ∧ metadata_dict (self st) = Some m
    ∧ metadata_dict (self st') = Some m'
    ∧ fs st' = <[joinpath e "metadata.yml" := File (Yaml m')]> (fs st)
    ∧ md_files m' = md_files m
    ∧ md_nr_embeds_total m'
      = Some (sum_nat (md_nr_embeds_per_file (md_files m')))
    ∧ md_total_dataset_length m'
      = Some (sum_float (md_file_lengths (md_files m'))).
Proof.
  unfold write_metadata_file, update_metadata, write_file. unfold_monad.
  destruct (metadata_dict (self st)) as [m|] eqn:Hm; simpl; [|done].
  destruct (embed_dir (self st)) as [e|] eqn:He; simpl; [|done].
  destruct (is_dir (fs st) (joinpath e "metadata.yml")); simpl; [done|].
  destruct (is_dir (fs st) (path_parent (joinpath e "metadata.yml")));
    simpl; [|done].
  intros [= <-]. simpl. do 3 eexists. repeat split; reflexivity.
Qed.

Lemma foldl_fold_left {A B} (f : A → B → A) (l : list B) (a : A) :
  foldl f a l = fold_left f l a.
Proof. revert a. induction l as [|x l IH]; intros a; simpl; [done|apply IH]. Qed.

Lemma sum_nat_sum_list (l : list nat) : sum_nat l = sum_list l.
Proof.
  unfold sum_nat.
  assert (∀ a, foldl Nat.add a l = (a + sum_list l)%nat) as H.
  { induction l as [|x l IH]; intros a; simpl; [lia|]. rewrite IH. lia. }
  by rewrite H.
Qed.

Lemma sum_nat_snoc (l : list nat) (n : nat) :
  sum_nat (l ++ [n]) = (sum_nat l + n)%nat.
Proof. unfold sum_nat. by rewrite foldl_app. Qed.

Lemma sum_float_snoc (l : list pyfloat) (t : pyfloat) :
  sum_float (l ++ [t]) = SF64add (sum_float l) t.
Proof. unfold sum_float. by rewrite foldl_app. Qed.

(** C2. Every call of [write_audio_file_to_metadata] that returns has
    added one element at the end of each of the three sequences, so
    sequences of one length stay so.  What [write_metadata_file] stores
    in [metadata.yml] carries the same sequences, with [nr_embeds_total]
    the sum of the frame counts and [total_dataset_length (s)] the sum of
    the file lengths, added up from zero in list order as floats are,
    with a rounding at each addition.  The totals are recomputed at every
    flush: a flush, an append of a file of length [t] with [n] frames and
    another flush store the totals of the first flush plus [n] and plus
    [t]. *)
Theorem metadata_sequences_stay_aligned :
  (∀ st st' index file embed shape,
     write_audio_file_to_metadata index file embed shape st = Ok tt st' →
     ∃ m m' rel t n,
       metadata_dict (self st) = Some m ∧ metadata_dict (self st') = Some m'
       ∧ md_audio_files (md_files m') = md_audio_files (md_files m) ++ [rel]
       ∧ md_file_lengths (md_files m') = md_file_lengths (md_files m) ++ [t]
       ∧ md_nr_embeds_per_file (md_files m')
         = md_nr_embeds_per_file (md_files m) ++ [n]
       ∧ (aligned (md_files m) → aligned (md_files m')))
  ∧ (∀ st st',
       write_metadata_file st = Ok tt st' →
       ∃ e m m',
         embed_dir (self st) = Some e ∧ metadata_dict (self st) = Some m
         ∧ fs st' !! joinpath e "metadata.yml" = Some (File (Yaml m'))
         ∧ md_files m' = md_files m
         ∧ md_nr_embeds_total m'
           = Some (sum_list (md_nr_embeds_per_file (md_files m)))
         ∧ md_total_dataset_length m'
           = Some (fold_left SF64add (md_file_lengths (md_files m))
                     (float_of_int 0)))
  ∧ (∀ st st1 st2 st3 index file embed shape,
       write_metadata_file st = Ok tt st1 →
       write_audio_file_to_metadata index file embed shape st1 = Ok tt st2 →
       write_metadata_file st2 = Ok tt st3 →
       ∃ m1 m3 total length t n,
         metadata_dict (self st1) = Some m1
         ∧ metadata_dict (self st3) = Some m3
         ∧ md_nr_embeds_total m1 = Some total
         ∧ md_total_dataset_length m1 = Some length
         ∧ file_length embed = Some t
         ∧ head shape = Some n
         ∧ md_nr_embeds_total m3 = Some (total + n)%nat
         ∧ md_total_dataset_length m3 = Some (SF64add length t)).
Proof.
  split; [|split].
  - intros st st' index file embed shape H.
    apply write_audio_file_to_metadata_inv in H
      as (m & m' & rel & t & n & Hm & Hm' & _ & _ & _ & Ha & Hl & Hn).
    exists m, m', rel, t, n. repeat (split; [done|]).
    unfold aligned. rewrite Ha, Hl, Hn, !length_app. simpl. lia.
  - intros st st' H.
    apply write_metadata_file_inv in H
      as (e & m & m' & He & Hm & _ & Hfs & Hf & Hn & Ht).
    exists e, m, m'. repeat (split; [done|]).
    split; [rewrite Hfs; apply lookup_insert_eq|]. split; [done|].
    rewrite Hn, Ht, Hf, sum_nat_sum_list. unfold sum_float.
    by rewrite foldl_fold_left.
  - intros st st1 st2 st3 index file embed shape H1 H2 H3.
    apply write_metadata_file_inv in H1
      as (e1 & m0 & m1 & _ & _ & Hm1 & _ & _ & Hn1 & Ht1).
    apply write_audio_file_to_metadata_inv in H2
      as (m1' & m2 & rel & t & n & Hm1' & Hm2 & _ & Ht & Hn & _ & Hl & Hc).
    apply write_metadata_file_inv in H3
      as (e3 & m2' & m3 & _ & Hm2' & Hm3 & _ & Hf3 & Hn3 & Ht3).
    assert (m1' = m1) as -> by congruence.
    assert (m2' = m2) as -> by congruence.
    exists m1, m3, (sum_nat (md_nr_embeds_per_file (md_files m1))),
      (sum_float (md_file_lengths (md_files m1))), t, n.
    repeat (split; [done|]).
    rewrite Hn3, Ht3, Hf3, Hc, Hl. by rewrite sum_nat_snoc, sum_float_snoc.
Qed.

(** ** Timestamps of the reduction artifact *)

Lemma ends_with_append (suf x : string) : ends_with suf (x +:+ suf) = true.
Proof.
  induction x as [|c x IH]; simpl.
  - destruct suf; simpl; [done|].
    by rewrite Ascii.eqb_refl, String.eqb_refl.
  - unfold String.app in *. simpl. rewrite IH. apply orb_true_r.
Qed.

Lemma string_length_app (x y : string) :
  String.length (x +:+ y) = (String.length x + String.length y)%nat.
Proof.
  unfold String.app. induction x as [|c x IH]; simpl; [done|]. by rewrite IH.
Qed.

Lemma ends_with_cons (suf : string) (c : Ascii.ascii) (s : string) :
  ends_with suf (String c s) = String.eqb suf (String c s) || ends_with suf s.
Proof. reflexivity. Qed.

Lemma ends_with_app_false (suf x y : string) :
  ends_with suf y = false →
  (String.length suf ≤ String.length y)%nat →
  ends_with suf (x +:+ y) = false.
Proof.
  intros Hy Hlen. induction x as [|c x IH]; [done|].
  change (String c x +:+ y) with (String c (x +:+ y)).
  rewrite ends_with_cons, IH, orb_false_r.
  apply String.eqb_neq. intros E. apply (f_equal String.length) in E.
  simpl in E. rewrite string_length_app in E. lia.
Qed.

Lemma ends_with_npy_json (a b : string) :
  ends_with ".npy" (a +:+ "_" +:+ b +:+ ".json") = false.
Proof.
  apply ends_with_app_false.
  - apply ends_with_app_false; [|rewrite string_length_app; simpl; lia].
    apply ends_with_app_false; [reflexivity|simpl; lia].
  - rewrite !string_length_app. simpl. lia.
Qed.

Lemma npy_dest_neq (dir : path) (name : string) (n : nat) :
  ends_with ".npy" name = false →
  npy_dest (joinpath dir name) n ≠ joinpath dir name.
Proof.
  intros Hname H. apply (f_equal path_name) in H.
  unfold npy_dest in H. rewrite !path_name_joinpath in H.
  rewrite <- H in Hname.
  destruct (ends_with ".npy" (path_name _)) eqn:E; [congruence|].
  by rewrite ends_with_append in Hname.
Qed.

(** ** The claims on the example corpus *)

Ltac compute_hyp := vm_compute; first [reflexivity | discriminate | done].

Lemma breaks_eq (r : result flow) : breaks r = true → r = Ok Break (state_of r).
Proof. by destruct r as [[| |d] s|e s]. Qed.

Lemma returned_eq (r : result flow) (d : path) :
  returned r = Some d → r = Ok (Return d) (state_of r).
Proof. destruct r as [[| |d'] s|e s]; try done. by intros [= ->]. Qed.

Lemma succeeds_eq (r : result unit) : succeeds r = true → r = Ok tt (state_of r).
Proof. by destruct r as [[] s|e s]. Qed.

(** C1 as stated fails. With the corpus emptied, the candidate holds two
    artifacts, no audio file is found, and resolution marks the
    combination as existing; with the cache renamed, the counts agree and
    the metadata matches, and resolution does not. *)
Lemma reuse_does_not_follow_counts :
  (length (rglob (fs ex_emptied) ex_dir ".npy") = 2%nat
   ∧ length (enumerated ex_emptied) = 0%nat
   ∧ fs ex_emptied !! joinpath ex_dir "metadata.yml"
     = Some (File (Yaml (ex_metadata "X" ex_dir)))
   ∧ combination_already_exists
       (self (state_of (check_embeds_already_exist ex_emptied))) = true)
  ∧ (length (rglob (fs ex_renamed) ex_dir_backup ".npy") = 2%nat
     ∧ length (enumerated ex_renamed) = 2%nat
     ∧ fs ex_renamed !! joinpath ex_dir_backup "metadata.yml"
       = Some (File (Yaml (ex_metadata "X" ex_dir_backup)))
     ∧ combination_already_exists
         (self (state_of (check_embeds_already_exist ex_renamed))) = false).
Proof. repeat split; vm_compute; reflexivity. Qed.

Lemma reuse_iff_counts_agree_witness :
  ((∃ st', examine ex_dir ex_unchanged = Ok Break st')
   ↔ length (rglob (fs ex_unchanged) ex_dir ".npy")
     = length (enumerated ex_unchanged))
  ∧ length (rglob (fs ex_drifted) ex_dir ".npy")
    ≠ length (enumerated ex_drifted)
  ∧ _find_existing_embed_dir ([] ++ [ex_dir]) ex_drifted
    = _find_existing_embed_dir [] ex_drifted.
Proof.
  split; [|split].
  - refine (proj1 (reuse_iff_counts_agree ex_unchanged ex_dir
                     (ex_metadata "X" ex_dir) _ _ _ _ _ _ _)); compute_hyp.
  - compute_hyp.
  - refine (proj2 (proj2 (reuse_iff_counts_agree ex_drifted ex_dir
                            (ex_metadata "X" ex_dir) _ _ _ _ _ _ _)) _ []);
      compute_hyp.
Defined.

Lemma model_mismatch_is_never_reused_witness :
  (∀ older, _find_existing_embed_dir (older ++ [ex_dir]) ex_mismatch
            = _find_existing_embed_dir older ex_mismatch)
  ∧ (∀ dirs st', ¬ selects dirs ex_mismatch ex_dir st').
Proof.
  refine (model_mismatch_is_never_reused ex_mismatch ex_dir
            (ex_metadata "Y" ex_dir) _ _ _ _ _); compute_hyp.
Defined.

(** C4 as stated fails. The directory left by the other model is a
    candidate, is empty and holds no metadata file, and is still there
    after resolution. *)
Lemma empty_candidate_of_other_model_is_kept :
  children (fs ex_debris_other) ex_cache = [ex_dir_other]
  ∧ glob (fs ex_debris_other) ex_dir_other "yml" = []
  ∧ children (fs ex_debris_other) ex_dir_other = []
  ∧ fs (state_of (check_embeds_already_exist ex_debris_other)) !! ex_dir_other
    = Some Directory.
Proof. repeat split; vm_compute; reflexivity. Qed.

Lemma stale_candidate_is_pruned_or_reported_witness :
  (∀ older, _find_existing_embed_dir (older ++ [ex_dir]) ex_debris
            = _find_existing_embed_dir older (pruned ex_dir ex_debris))
  ∧ (∀ older, _find_existing_embed_dir (older ++ [ex_dir]) ex_partial
              = _find_existing_embed_dir older
                  (printed (MsgNotEmpty ex_dir) ex_partial))
  ∧ (∀ dirs st', ¬ selects dirs ex_debris ex_dir st').
Proof.
  split; [|split].
  - refine (proj1 (stale_candidate_is_pruned_or_reported ex_debris ex_dir
                     _ _) _ _); compute_hyp.
  - refine (proj1 (proj2 (stale_candidate_is_pruned_or_reported ex_partial
                            ex_dir _ _)) _); [compute_hyp..|].
    intros [_ H]. vm_compute in H. discriminate.
  - refine (proj2 (proj2 (stale_candidate_is_pruned_or_reported ex_debris
                            ex_dir _ _))); compute_hyp.
Defined.

Lemma unverifiable_candidate_is_reused_witness :
  ∃ st', _find_existing_embed_dir ([] ++ [ex_dir]) ex_emptied = Ok None st'
         ∧ selects (reverse ([] ++ [ex_dir])) ex_emptied ex_dir st'
         ∧ combination_already_exists (self st') = true
         ∧ metadata_dict (self st') = Some (ex_metadata "X" ex_dir)
         ∧ MsgNotVerified ∈ stdout st'
         ∧ fs st' = fs ex_emptied.
Proof.
  refine (unverifiable_candidate_is_reused ex_emptied ex_dir
            (ex_metadata "X" ex_dir) [] _ _ _ _ _ _); try compute_hyp.
  intros suf Hin. change (suf ∈ [".wav"; ".mp3"]) in Hin.
  apply elem_of_cons in Hin as [Hin|Hin]; [subst suf; compute_hyp|].
  apply list_elem_of_singleton in Hin. subst suf. compute_hyp.
Defined.

Lemma override_in_empty_parent_raises_witness :
  ∃ st', check_embeds_already_exist ex_override = Raise IndexError st'.
Proof.
  refine (override_in_empty_parent_raises ex_override "mine" _ _ _ _);
    compute_hyp.
Defined.

(** C7 fails on the code. Each of the two [umap] directories is accepted
    when it is examined, yet resolution of the [umap] request stops at the
    more recent [pca] directory, by the [return] of line 126, and marks
    nothing as existing. *)
Theorem newest_compatible_is_missed_behind_other_reducer :
  (∃ st', examine ex_umap_1 ex_two_reducers = Ok Break st')
  ∧ (∃ st', examine ex_umap_2 ex_two_reducers = Ok Break st')
  ∧ examine ex_pca ex_two_reducers = Ok (Return ex_pca) ex_two_reducers
  ∧ (∃ st', check_embeds_already_exist ex_two_reducers = Ok tt st'
            ∧ combination_already_exists (self st') = false
            ∧ embed_dir (self st') = None).
Proof.
  split; [|split; [|split]].
  - eexists. apply breaks_eq. vm_compute. reflexivity.
  - eexists. apply breaks_eq. vm_compute. reflexivity.
  - assert (returned (examine ex_pca ex_two_reducers) = Some ex_pca) as H
      by (vm_compute; reflexivity).
    apply returned_eq in H.
    destruct (examine_Return_inv _ _ _ _ H) as [Hst _].
    by rewrite Hst in H.
  - eexists. split; [apply succeeds_eq; vm_compute; reflexivity|].
    split; vm_compute; reflexivity.
Qed.

(** C6 fails on the code. The timestamps of a file of [n] frames are
    those of [np.arange(0, n * step, step)], as many as the ceiling of the
    float quotient [n * step / step], and that quotient can exceed [n].
    With segments of 16000 samples at 16000 Hz (the step is 1.0) the
    files of 3 and 2 frames get [0, 1, 2, 0, 1].  With segments of 4800
    samples at 48000 Hz the step is 0.1, [3 * 0.1 / 0.1] is
    [3.0000000000000004], and the file of 3 frames gets 4 timestamps: the
    save returns, and the artifact it writes for the 5 rows of the 5
    frames holds 6 timestamps, the second file starting at index 4.  With
    segments of 15360 samples at 16000 Hz (the step is 0.96) a file of 9
    frames gets 10 timestamps. *)
Theorem timestamps_outnumber_frames :
  written_timestamps
    (state_of (save_embeddings ex_reducer 0 [] ex_reduced_embeds ex_reduction))
    (joinpath ex_umap_1 "corpus_umap.json")
  = Some (map Prim2SF [0; 1; 2; 0; 1]%float)
  ∧ int_true_divide 4800 48000 = inr (Prim2SF 0.1)
  ∧ SF64div (SF64mul (float_of_int 3) (Prim2SF 0.1)) (Prim2SF 0.1)
    = Prim2SF 3.0000000000000004
  ∧ np_arange (SF64mul (float_of_int 3) (Prim2SF 0.1)) (Prim2SF 0.1)
    = inr (map Prim2SF [0; 0.1; 0.2; 0.30000000000000004]%float)
  ∧ recorded_dims ex_reduction_tenth = Some [[3; 8]; [2; 8]]%nat
  ∧ frame_total [[3; 8]; [2; 8]]%nat = 5%nat
  ∧ length (rows ex_reduced_embeds) = 5%nat
  ∧ succeeds (save_embeddings ex_reducer 0 [] ex_reduced_embeds
                ex_reduction_tenth) = true
  ∧ written_timestamps
      (state_of (save_embeddings ex_reducer 0 [] ex_reduced_embeds
                   ex_reduction_tenth))
      (joinpath ex_umap_1 "corpus_umap.json")
    = Some (map Prim2SF [0; 0.1; 0.2; 0.30000000000000004; 0; 0.1]%float)
  ∧ int_true_divide 15360 16000 = inr (Prim2SF 0.96)
  ∧ (∃ ts, t_stamps [[9; 128]]%nat (Prim2SF 0.96) = inr ts
           ∧ length ts = 10%nat).
Proof.
  repeat (split; [vm_compute; reflexivity|]).
  eexists. split; [vm_compute; reflexivity|reflexivity].
Qed.

Lemma audio_paths_nonempty_and_sorted_witness :
  _get_audio_paths ex_emptied = Raise AssertionError ex_emptied
  ∧ ∃ st', _get_audio_paths ex_unchanged = Ok tt st'
           ∧ StronglySorted path_le (files (self st'))
           ∧ ∀ p, p ∈ files (self st') ↔
                  ∃ suf, suf ∈ audio_suffixes (self ex_unchanged)
                         ∧ p ∈ rglob (fs ex_unchanged)
                                 (audio_dir (self ex_unchanged)) suf.
Proof.
  split.
  - refine (proj1 (audio_paths_nonempty_and_sorted ex_emptied) _).
    intros suf Hin. change (suf ∈ [".wav"; ".mp3"]) in Hin.
    apply elem_of_cons in Hin as [Hin|Hin]; [subst suf; compute_hyp|].
    apply list_elem_of_singleton in Hin. subst suf. compute_hyp.
  - refine (proj2 (audio_paths_nonempty_and_sorted ex_unchanged) _).
    exists ".wav", (joinpath ex_corpus "a.wav"). split.
    + by left.
    + vm_compute. repeat constructor.
Defined.

Lemma metadata_sequences_stay_aligned_witness :
  (∃ m m' rel t n,
     metadata_dict (self ex_fresh) = Some m
     ∧ metadata_dict
         (self (state_of (write_audio_file_to_metadata 0
                            (joinpath ex_corpus "a.wav") ex_embedder [3; 8]%nat
                            ex_fresh))) = Some m'
     ∧ md_audio_files (md_files m') = md_audio_files (md_files m) ++ [rel]
     ∧ md_file_lengths (md_files m') = md_file_lengths (md_files m) ++ [t]
     ∧ md_nr_embeds_per_file (md_files m')
       = md_nr_embeds_per_file (md_files m) ++ [n]
     ∧ (aligned (md_files m) → aligned (md_files m')))
  ∧ (∃ e m',
       embed_dir (self ex_three_files) = Some e
       ∧ fs (state_of (write_metadata_file ex_three_files))
           !! joinpath e "metadata.yml" = Some (File (Yaml m'))
       ∧ md_audio_files (md_files m')
         = [["a.wav"]; ["sub"; "b.wav"]; ["c.mp3"]]
       ∧ md_file_lengths (md_files m')
         = [Prim2SF 0.1; Prim2SF 0.2; Prim2SF 0.3]
       ∧ md_nr_embeds_per_file (md_files m') = [1; 2; 3]%nat
       ∧ md_nr_embeds_total m' = Some 6%nat
       ∧ md_total_dataset_length m' = Some (Prim2SF 0.6000000000000001)).
Proof.
  split.
  - refine (proj1 metadata_sequences_stay_aligned ex_fresh
              (state_of (write_audio_file_to_metadata 0
                           (joinpath ex_corpus "a.wav") ex_embedder
                           [3; 8]%nat ex_fresh))
              0%nat (joinpath ex_corpus "a.wav") ex_embedder [3; 8]%nat _).
    apply succeeds_eq. vm_compute. reflexivity.
  - destruct (proj1 (proj2 metadata_sequences_stay_aligned) ex_three_files
                (state_of (write_metadata_file ex_three_files)))
      as (e & m & m' & He & Hm & Hfs & Hf & Hn & Ht).
    { apply succeeds_eq. vm_compute. reflexivity. }
    exists e, m'. split; [exact He|]. split; [exact Hfs|].
    rewrite Hf, Hn, Ht. clear Hf Hn Ht Hfs He.
    vm_compute in Hm. injection Hm as <-.
    repeat split; vm_compute; reflexivity.
Defined.

(** ** Cache names *)

Lemma contains_percent_cons (c : Ascii.ascii) (s : string) :
  contains "%" (String c s) = Ascii.eqb c "%" || contains "%" s.
Proof.
  change (contains "%" (String c s))
    with (String.prefix "%" (String c s) || contains "%" s).
  f_equal. cbn [String.prefix].
  destruct (Ascii.eqb_spec c "%") as [->|Hc].
  - by destruct s.
  - destruct (Ascii.ascii_dec "%" c); [congruence|done].
Qed.

Lemma strftime_plain (s : string) (t : struct_time) :
  contains "%" s = false → strftime s t = s.
Proof.
  induction s as [|c s IH]; [done|].
  rewrite contains_percent_cons. intros H.
  apply orb_false_elim in H as [Hc Hs].
  simpl. rewrite Hc. by rewrite IH.
Qed.

Lemma contains_percent_app (x y : string) :
  contains "%" (x +:+ y) = contains "%" x || contains "%" y.
Proof.
  induction x as [|c x IH].
  - by destruct y.
  - change (String c x +:+ y) with (String c (x +:+ y)).
    rewrite !contains_percent_cons, IH. by rewrite orb_assoc.
Qed.

Lemma string_app_assoc (a b c : string) : (a +:+ b) +:+ c = a +:+ b +:+ c.
Proof.
  unfold String.app. induction a as [|x a IH]; simpl; [done|]. by rewrite IH.
Qed.

Lemma string_app_cons (x : Ascii.ascii) (a b : string) :
  String x a +:+ b = String x (a +:+ b).
Proof. reflexivity. Qed.

Lemma string_app_nil_l (b : string) : "" +:+ b = b.
Proof. reflexivity. Qed.

Lemma strftime_literal (c : Ascii.ascii) (s : string) (t : struct_time) :
  Ascii.eqb c "%" = false → strftime (String c s) t = String c (strftime s t).
Proof. intros H. simpl. by rewrite H. Qed.

Lemma strftime_conversion (k : Ascii.ascii) (s : string) (t : struct_time) :
  strftime (String "%" (String k s)) t = conversion k t +:+ strftime s t.
Proof. reflexivity. Qed.

(** The format of the time stamp is expanded on its own; what follows
    it goes through [strftime] as well. *)
Lemma strftime_prefix (rest : string) (t : struct_time) :
  strftime ("%Y-%m-%d_%H-%M___" +:+ rest) t
  = strftime "%Y-%m-%d_%H-%M" t +:+ "___" +:+ strftime rest t.
Proof.
  rewrite !string_app_cons, string_app_nil_l.
  repeat first [rewrite strftime_conversion
               |rewrite strftime_literal by reflexivity].
  change (strftime "" t) with "".
  repeat first [rewrite string_app_assoc | rewrite string_app_cons
               |rewrite string_app_nil_l].
  done.
Qed.

(** X1. When neither the stage identifier nor the stem of the corpus
    directory contains a percent sign, [get_timestamp_dir] returns the
    formatted time followed by the two names, in the unchanged state. *)
Lemma get_timestamp_dir_plain (st : state) :
  let stage :=
    match reducer (self st) with
    | Some r => r
    | None => model_name (self st)
    end in
  let corpus := path_stem (audio_dir (self st)) in
  contains "%" stage = false →
  contains "%" corpus = false →
  get_timestamp_dir st
  = Ok (strftime "%Y-%m-%d_%H-%M" (localtime st)
          +:+ "___" +:+ stage +:+ "-" +:+ corpus) st.
Proof.
  intros stage corpus Hs Hc. unfold get_timestamp_dir. unfold_monad.
  fold stage. fold corpus. f_equal.
  rewrite strftime_prefix, (strftime_plain (stage +:+ "-" +:+ corpus)); [done|].
  rewrite !contains_percent_app, Hs, Hc. done.
Qed.

(** C9 fails on the code. For the corpus directory [rec%Y], the name
    returned has the year in the place of [%Y], because line 257 joins the
    names to the format before [time.strftime] expands it; the claim names
    [2024-01-05_09-07___X-rec%Y]. *)
Theorem timestamp_dir_expands_percent_in_names :
  get_timestamp_dir ex_percent = Ok "2024-01-05_09-07___X-rec2024" ex_percent
  ∧ strftime "%Y-%m-%d_%H-%M" (localtime ex_percent)
      +:+ "___" +:+ model_name (self ex_percent) +:+ "-"
      +:+ path_stem (audio_dir (self ex_percent))
    = "2024-01-05_09-07___X-rec%Y".
Proof. split; vm_compute; reflexivity. Qed.

(** * Further properties of the resolver *)

Lemma examine_Raise_inv (st st' : state) (d : path) (e : exn) :
  examine d st = Raise e st' → fs st' = fs st.
Proof.
  unfold examine. unfold_monad.
  destruct (contains _ _ && contains _ _); [|done].
  destruct (glob (fs st) d "yml") as [|k l] eqn:Hg.
  { unfold rmdir. unfold_monad.
    destruct (fs st !! d) as [[c|]|]; simpl; try done.
    by destruct (children (fs st) d). }
  unfold yaml_load. unfold_monad.
  destruct (fs st !! joinpath d "metadata.yml") as [[[m| |]|]|] eqn:Hm;
    try (by intros [= _ <-]).
  destruct (String.eqb_spec (model_name (self st)) (md_model_name m)) as [Heq|];
    simpl; [|done].
  destruct (reducer (self st)) as [r|].
  - by destruct (contains r (path_stem d)).
  - rewrite _get_audio_files_eq.
    destruct (0 <? length (enumerated st))%nat; simpl.
    + case_bool_decide; simpl; [|done].
      by rewrite (_get_metadata_dict_eq d m) by done.
    + by rewrite (_get_metadata_dict_eq d m) by done.
Qed.

(** One iteration leaves the file system as it is or removes the
    candidate, then an empty directory. *)
Lemma examine_fs (st : state) (d : path) :
  fs (state_of (examine d st)) = fs st ∨
  (fs (state_of (examine d st)) = delete d (fs st)
   ∧ fs st !! d = Some Directory ∧ children (fs st) d = []).
Proof.
  destruct (examine d st) as [[| |r] s|e s] eqn:E; simpl.
  - by apply examine_Next_inv in E as (_ & _ & ?).
  - left. by apply examine_Break_inv in E as (_ & _ & ? & _).
  - left. by apply examine_Return_inv in E as [-> _].
  - left. by apply examine_Raise_inv in E.
Qed.

Lemma for_each_cons_state (d : path) (dirs : list path) (st : state) :
  state_of (for_each examine (d :: dirs) st)
  = match examine d st with
    | Ok Next s1 => state_of (for_each examine dirs s1)
    | r => state_of r
    end.
Proof.
  simpl. unfold_monad. by destruct (examine d st) as [[| |r] s|e s].
Qed.

(** Whatever happens during a scan, an entry either is what it was, or
    was a directory among the candidates and is gone together with all
    that was directly in it. *)
Lemma for_each_fs (dirs : list path) (st : state) (p : path) :
  fs (state_of (for_each examine dirs st)) !! p = fs st !! p ∨
  (fs (state_of (for_each examine dirs st)) !! p = None
   ∧ fs st !! p = Some Directory ∧ p ∈ dirs
   ∧ ∀ k, k ∈ children (fs st) p →
          fs (state_of (for_each examine dirs st)) !! k = None).
Proof.
  revert st p. induction dirs as [|d dirs IH]; intros st p; [by left|].
  rewrite for_each_cons_state.
  assert (∀ q, fs (state_of (examine d st)) !! q = fs st !! q ∨
               (fs (state_of (examine d st)) !! q = None
                ∧ fs st !! q = Some Directory ∧ q = d
                ∧ children (fs st) q = [])) as Hone.
  { intros q. destruct (examine_fs st d) as [->|(-> & Hd & Hc)]; [by left|].
    destruct (decide (q = d)) as [->|Hne].
    - right. by rewrite lookup_delete_eq.
    - left. by rewrite lookup_delete_ne. }
  destruct (examine d st) as [[| |r] s1|e s1] eqn:E; simpl in *.
  2,3,4: destruct (Hone p) as [?|(? & ? & -> & Hc)]; [by left|right];
         (repeat split; [done|done|by left|]);
         intros k Hk; rewrite Hc in Hk; by apply elem_of_nil in Hk.
  destruct (IH s1 p) as [Hp|(Hp & Hdir & Hin & Hch)].
  - rewrite Hp. destruct (Hone p) as [?|(? & ? & -> & Hc)]; [by left|right].
    repeat split; [congruence|done|by left|].
    intros k Hk. rewrite Hc in Hk. by apply elem_of_nil in Hk.
  - right. destruct (Hone p) as [Hsame|(Hnone & _)]; [|congruence].
    repeat split; [done|congruence|by right|].
    intros k Hk.
    destruct (Hone k) as [Hsk|(Hsk & _ & -> & _)].
    + apply Hch. apply elem_of_children.
      apply elem_of_children in Hk as (_ & Hk & ? & ?).
      rewrite Hsk. done.
    + destruct (IH s1 d) as [Hx|(Hx & _)]; [by rewrite Hx|done].
Qed.

Lemma check_embeds_already_exist_eq (st : state) :
  check_embeds_already_exist st =
  if truthy (check_if_combination_exists (self st)) then
    match fs st !! cache_parent (self st) with
    | Some Directory =>
        match check_if_combination_exists (self st) with
        | Flag _ =>
            scan_from_reset (children (fs st) (cache_parent (self st))) st
        | Override name =>
            match children (fs st) (cache_parent (self st)) with
            | [] => Raise IndexError (reset st)
            | _ :: _ =>
                scan_from_reset [joinpath_str (cache_parent (self st)) name] st
            end
        end
    | Some (File _) => Raise NotADirectoryError (reset st)
    | None => Raise FileNotFoundError (reset st)
    end
  else Ok tt (reset st).
Proof.
  unfold check_embeds_already_exist, scan_from_reset. unfold_monad. simpl.
  fold (reset st).
  destruct (truthy (check_if_combination_exists (self st))); [|done].
  assert (match reducer (self (reset st)) with
          | Some _ => iterdir (dim_reduc_parent_dir (self (reset st)))
          | None => iterdir (embed_parent_dir (self (reset st)))
          end = iterdir (cache_parent (self st))) as Hiter.
  { unfold cache_parent, reducer. simpl.
    destruct (dim_reduction_model (self st)) as [r|]; [|done].
    by destruct (String.eqb r ""). }
  simpl in Hiter. rewrite Hiter. clear Hiter.
  unfold iterdir. unfold_monad. simpl.
  destruct (fs st !! cache_parent (self st)) as [[c|]|]; try done.
  destruct (check_if_combination_exists (self st)) as [b|name]; [done|].
  destruct (children (fs st) (cache_parent (self st))) as [|first l] eqn:E;
    [done|].
  assert (path_parent first = cache_parent (self st)) as ->; [|done].
  assert (first ∈ children (fs st) (cache_parent (self st))) as Hin
    by (rewrite E; by left).
  by apply elem_of_children in Hin as (_ & _ & _ & ?).
Qed.

Lemma path_parent_neq (p : path) : p ≠ [] → path_parent p ≠ p.
Proof.
  intros Hp H. apply (f_equal length) in H. unfold path_parent in H.
  rewrite length_take in H. destruct p; [done|]. simpl in H. lia.
Qed.

Lemma state_of_scan_from_reset (dirs : list path) (st : state) :
  state_of (scan_from_reset dirs st)
  = state_of (for_each examine (reverse (sort_paths dirs)) (reset st)).
Proof.
  unfold scan_from_reset, _find_existing_embed_dir.
  by destruct (for_each examine _ _).
Qed.

(** The scan removes nothing but candidates that hold nothing. *)
Lemma scan_from_reset_fs (dirs : list path) (st : state) (p : path) :
  fs (state_of (scan_from_reset dirs st)) !! p = fs st !! p
  ∨ (fs (state_of (scan_from_reset dirs st)) !! p = None
     ∧ fs st !! p = Some Directory
     ∧ p ∈ dirs
     ∧ ∀ k, k ∈ children (fs st) p → k ∈ dirs).
Proof.
  rewrite state_of_scan_from_reset.
  destruct (for_each_fs (reverse (sort_paths dirs)) (reset st) p)
    as [?|(Hnone & Hdir & Hin & Hch)]; [by left|right].
  repeat split; [done|done|by apply sort_paths_elem_of, elem_of_reverse|].
  intros k Hk. pose proof (Hch k Hk) as Hgone.
  apply elem_of_children in Hk as (_ & [x Hx] & _).
  destruct (for_each_fs (reverse (sort_paths dirs)) (reset st) k)
    as [Hsame|(_ & _ & Hkin & _)].
  - simpl in *. congruence.
  - by apply sort_paths_elem_of, elem_of_reverse.
Qed.

(** X2. Resolution never creates, changes or removes a file and never
    removes a directory that holds anything: an entry of the file system
    is afterwards what it was before, unless it was an empty candidate
    directory, which may be gone.  The candidates are the entries of the
    cache parent or, with an override name, the one directory that name
    stands for once it is parsed as a path: below the cache parent at the
    depth of its parts if it is relative, in place of the cache parent if
    it is absolute.  An override name is taken to have a part and no [..]
    part, which the file system would resolve. *)
Theorem resolution_only_removes_empty_candidates (st : state) (p : path) :
  plain_policy (check_if_combination_exists (self st)) →
  fs (state_of (check_embeds_already_exist st)) !! p = fs st !! p
  ∨ (fs (state_of (check_embeds_already_exist st)) !! p = None
     ∧ fs st !! p = Some Directory
     ∧ candidate (self st) p
     ∧ children (fs st) p = []).
Proof.
  intros _. rewrite check_embeds_already_exist_eq. unfold candidate.
  destruct (truthy (check_if_combination_exists (self st))); [|by left].
  destruct (fs st !! cache_parent (self st)) as [[c|]|]; [by left| |by left].
  destruct (check_if_combination_exists (self st)) as [b|name].
  - destruct (scan_from_reset_fs (children (fs st) (cache_parent (self st)))
                st p) as [?|(Hnone & Hdir & Hin & Hch)]; [by left|right].
    apply elem_of_children in Hin as (_ & _ & Hp & Hparent).
    repeat split; [done..|].
    apply elem_of_nil_inv. intros k Hk.
    pose proof (Hch k Hk) as Hkin.
    apply elem_of_children in Hk as (_ & _ & _ & Hkp).
    apply elem_of_children in Hkin as (_ & _ & _ & Hkparent).
    apply (path_parent_neq p Hp). congruence.
  - destruct (children (fs st) (cache_parent (self st))) as [|first l];
      [by left|].
    destruct (scan_from_reset_fs [joinpath_str (cache_parent (self st)) name]
                st p) as [?|(Hnone & Hdir & Hin & Hch)]; [by left|right].
    apply list_elem_of_singleton in Hin as Hp.
    repeat split; [done..|].
    apply elem_of_nil_inv. intros k Hk.
    pose proof (Hch k Hk) as Hkin.
    apply list_elem_of_singleton in Hkin.
    apply elem_of_children in Hk as (_ & _ & Hne & Hkp).
    apply (path_parent_neq k Hne). congruence.
Qed.

Lemma resolution_only_removes_empty_candidates_witness :
  fs (state_of (check_embeds_already_exist ex_override_nested))
    !! ["results"; "corpus"; "embeddings"; "old.d"; "X-corpus"]
  = fs ex_override_nested
      !! ["results"; "corpus"; "embeddings"; "old.d"; "X-corpus"]
  ∨ (fs (state_of (check_embeds_already_exist ex_override_nested))
       !! ["results"; "corpus"; "embeddings"; "old.d"; "X-corpus"] = None
     ∧ fs ex_override_nested
         !! ["results"; "corpus"; "embeddings"; "old.d"; "X-corpus"]
       = Some Directory
     ∧ candidate (self ex_override_nested)
         ["results"; "corpus"; "embeddings"; "old.d"; "X-corpus"]
     ∧ children (fs ex_override_nested)
         ["results"; "corpus"; "embeddings"; "old.d"; "X-corpus"] = []).
Proof.
  refine (resolution_only_removes_empty_candidates ex_override_nested
            ["results"; "corpus"; "embeddings"; "old.d"; "X-corpus"] _).
  split; [done|]. apply (bool_decide_unpack _). vm_compute. exact I.
Defined.

Lemma scan_from_reset_reuse (dirs : list path) (st st' : state) :
  scan_from_reset dirs st = Ok tt st' →
  combination_already_exists (self st') = true →
  ∃ d m,
    d ∈ dirs
    ∧ name_matches (self st) d = true
    ∧ fs st !! d = Some Directory
    ∧ fs st !! joinpath d "metadata.yml" = Some (File (Yaml m))
    ∧ md_model_name m = model_name (self st).
Proof.
  unfold scan_from_reset, _find_existing_embed_dir. intros Hrun Hmark.
  destruct (for_each examine (reverse (sort_paths dirs)) (reset st))
    as [r s|e s] eqn:E; [|done].
  injection Hrun as ->.
  destruct (for_each_selects _ _ _ _ E) as [d Hsel]; [done|done|].
  apply selects_inv in Hsel as (Hin & Hname & Hdir & _ & m & Hm & Hmodel).
  exists d, m. split; [|done].
  by apply sort_paths_elem_of, elem_of_reverse.
Qed.

(** X3. When resolution marks the combination as existing, a
    candidate directory passes the test on names and holds a
    [metadata.yml] that records the requested model; with an override
    name the candidate is the directory that name stands for once it is
    parsed as a path, and the test reads its last part.  An override name
    is taken to have a part and no [..] part. *)
Theorem reuse_requires_matching_metadata (st st' : state) :
  plain_policy (check_if_combination_exists (self st)) →
  check_embeds_already_exist st = Ok tt st' →
  combination_already_exists (self st') = true →
  ∃ d m,
    candidate (self st) d
    ∧ name_matches (self st) d = true
    ∧ fs st !! d = Some Directory
    ∧ fs st !! joinpath d "metadata.yml" = Some (File (Yaml m))
    ∧ md_model_name m = model_name (self st).
Proof.
  intros _ Hrun Hmark. rewrite check_embeds_already_exist_eq in Hrun.
  unfold candidate.
  destruct (truthy (check_if_combination_exists (self st)));
    [|by injection Hrun as <-].
  destruct (fs st !! cache_parent (self st)) as [[c|]|] eqn:E; try done.
  destruct (check_if_combination_exists (self st)) as [b|name].
  - destruct (scan_from_reset_reuse _ _ _ Hrun Hmark) as (d & m & Hin & H).
    exists d, m. split; [|done].
    by apply elem_of_children in Hin as (_ & _ & _ & ?).
  - destruct (children (fs st) (cache_parent (self st))) as [|first l] eqn:Ec;
      [done|].
    destruct (scan_from_reset_reuse _ _ _ Hrun Hmark) as (d & m & Hin & H).
    exists d, m. split; [|done].
    by apply list_elem_of_singleton in Hin.
Qed.

Lemma reuse_requires_matching_metadata_witness :
  ∃ d m,
    candidate (self ex_override_absolute) d
    ∧ name_matches (self ex_override_absolute) d = true
    ∧ fs ex_override_absolute !! d = Some Directory
    ∧ fs ex_override_absolute !! joinpath d "metadata.yml"
      = Some (File (Yaml m))
    ∧ md_model_name m = model_name (self ex_override_absolute).
Proof.
  refine (reuse_requires_matching_metadata ex_override_absolute
            (state_of (check_embeds_already_exist ex_override_absolute))
            _ _ _).
  - split; [done|]. apply (bool_decide_unpack _). vm_compute. exact I.
  - apply succeeds_eq. compute_hyp.
  - compute_hyp.
Defined.

(** X4. With the policy off ([False] or the empty string),
    resolution returns after resetting the two flags: no directory is
    looked at, none is removed and nothing is printed. *)
Theorem resolution_switched_off (st : state) :
  truthy (check_if_combination_exists (self st)) = false →
  ∃ st', check_embeds_already_exist st = Ok tt st'
         ∧ combination_already_exists (self st') = false
         ∧ dim_reduc_embed_dir (self st') = None
         ∧ embed_dir (self st') = embed_dir (self st)
         ∧ fs st' = fs st ∧ stdout st' = stdout st.
Proof.
  intros H. rewrite check_embeds_already_exist_eq, H. by eexists.
Qed.


Lemma resolution_switched_off_witness :
  ∃ st', check_embeds_already_exist ex_switched_off = Ok tt st'
         ∧ combination_already_exists (self st') = false
         ∧ dim_reduc_embed_dir (self st') = None
         ∧ embed_dir (self st') = embed_dir (self ex_switched_off)
         ∧ fs st' = fs ex_switched_off ∧ stdout st' = stdout ex_switched_off.
Proof. refine (resolution_switched_off ex_switched_off _). reflexivity. Defined.


(** ** Enumeration and naming *)

Lemma uniq_NoDup (l : list path) : StronglySorted path_le l → NoDup (uniq l).
Proof.
  induction 1 as [|p l Hl IH Hall]; [constructor|].
  destruct l as [|q l']; [repeat constructor; by intros ?%elem_of_nil|].
  change (uniq (p :: q :: l'))
    with (if decide (p = q) then uniq (q :: l') else p :: uniq (q :: l')).
  destruct (decide (p = q)) as [->|Hne]; [done|].
  constructor; [|done].
  rewrite uniq_elem_of. intros Hin.
  apply Forall_cons in Hall as [Hpq Hall].
  apply elem_of_cons in Hin as [->|Hin]; [done|].
  apply StronglySorted_inv in Hl as [_ Hq].
  rewrite Forall_forall in Hq. specialize (Hq p Hin).
  apply Hne. by apply (anti_symm path_le).
Qed.

(** X6. [_get_audio_files] reads and changes nothing, and a
    file that ends with several of the configured suffixes is listed
    once. *)
Theorem audio_files_are_listed_once (st st' : state) (l : list path) :
  _get_audio_files st = Ok l st' →
  st' = st ∧ NoDup l ∧ l ≠ [].
Proof.
  rewrite _get_audio_files_eq.
  destruct (0 <? length (enumerated st))%nat eqn:E; [|done].
  intros [= <- <-]. split; [done|]. split.
  - apply uniq_NoDup, sort_paths_sorted.
  - apply Nat.ltb_lt in E. destruct (enumerated st); [simpl in E; lia|done].
Qed.

Lemma audio_files_are_listed_once_witness :
  state_of (_get_audio_files ex_two_suffixes) = ex_two_suffixes
  ∧ NoDup [joinpath ex_corpus "a.wav";
           joinpath (joinpath ex_corpus "sub") "b.wav"].
Proof.
  destruct (audio_files_are_listed_once ex_two_suffixes
              (state_of (_get_audio_files ex_two_suffixes))
              [joinpath ex_corpus "a.wav";
               joinpath (joinpath ex_corpus "sub") "b.wav"])
    as (H1 & H2 & _); [vm_compute; reflexivity|].
  split; [exact H1|exact H2].
Defined.

Lemma get_timestamp_dir_plain_witness :
  get_timestamp_dir ex_unchanged = Ok "2024-01-05_09-07___X-corpus" ex_unchanged.
Proof.
  refine (get_timestamp_dir_plain ex_unchanged _ _); reflexivity.
Defined.









(** ** Loading and writing the metadata record *)

Lemma _get_metadata_dict_inv (folder : path) (st : state) (r : result unit) :
  _get_metadata_dict folder st = r →
  (∃ m, fs st !! joinpath folder "metadata.yml" = Some (File (Yaml m))
        ∧ r = Ok tt (loaded folder m st))
  ∨ (∃ e, r = Raise e st ∧ (is_OSError e = true ∨ e = YAMLError)).
Proof.
  intros <-.
  destruct (fs st !! joinpath folder "metadata.yml") as [[[m| |]|]|] eqn:E.
  1: left; exists m; split; [done|by apply _get_metadata_dict_eq].
  all: right; unfold _get_metadata_dict, yaml_load; unfold_monad;
       rewrite E; eexists; split; [reflexivity|]; by (left + right).
Qed.

Lemma loaded_reducer (folder : path) (m : metadata) (s : state) :
  reducer (self (loaded folder m s)) = reducer (self s).
Proof.
  unfold loaded, reducer.
  destruct (dim_reduction_model (self s)) as [r|] eqn:E;
    [destruct (String.eqb r "") eqn:E2|]; simpl; rewrite ?E, ?E2; reflexivity.
Qed.

Lemma loaded_self_idemp (folder : path) (m : metadata) (s : state) :
  self (loaded folder m (loaded folder m s)) = self (loaded folder m s).
Proof.
  unfold loaded at 1. rewrite loaded_reducer, loaded_fs.
  unfold loaded. simpl. by destruct (reducer (self s)).
Qed.

(** X8. [_get_metadata_dict] fails early and loads the same
    thing twice.  A metadata file holding a complete record or no YAML at
    all, a call that raises does so on opening or parsing the file (an
    [OSError] or a [YAMLError]) and leaves the state as it was; and after
    a call that returns, a second call on the same folder returns as well
    with [self] and the file system as the first left them. *)
Theorem metadata_load_is_atomic_and_idempotent (folder : path) (st : state) :
  (∀ e st', _get_metadata_dict folder st = Raise e st' →
            st' = st ∧ (is_OSError e = true ∨ e = YAMLError))
  ∧ (∀ st1, _get_metadata_dict folder st = Ok tt st1 →
            ∃ st2, _get_metadata_dict folder st1 = Ok tt st2
                   ∧ self st2 = self st1 ∧ fs st2 = fs st1).
Proof.
  split.
  - intros e st' H.
    apply _get_metadata_dict_inv in H as [(m & _ & H)|(e' & H & He)]; [done|].
    by injection H as -> ->.
  - intros st1 H.
    apply _get_metadata_dict_inv in H as [(m & Hm & H)|(e' & H & _)]; [|done].
    injection H as ->.
    exists (loaded folder m (loaded folder m st)). split; [|split].
    + by apply _get_metadata_dict_eq.
    + apply loaded_self_idemp.
    + done.
Qed.

Lemma raised_eq {A} (r : result A) (e : exn) :
  raised r = Some e → r = Raise e (state_of r).
Proof. destruct r; [done|]. by intros [= ->]. Qed.

Lemma metadata_load_is_atomic_and_idempotent_witness :
  state_of (_get_metadata_dict ex_dir_backup ex_unchanged) = ex_unchanged
  ∧ ∃ st2, _get_metadata_dict ex_dir
             (state_of (_get_metadata_dict ex_dir ex_unchanged)) = Ok tt st2
           ∧ self st2 = self (state_of (_get_metadata_dict ex_dir ex_unchanged))
           ∧ fs st2 = fs (state_of (_get_metadata_dict ex_dir ex_unchanged)).
Proof.
  split.
  - refine (proj1 (proj1 (metadata_load_is_atomic_and_idempotent ex_dir_backup
                            ex_unchanged) FileNotFoundError _ _)).
    apply raised_eq. vm_compute. reflexivity.
  - refine (proj2 (metadata_load_is_atomic_and_idempotent ex_dir
                     ex_unchanged) _ _).
    apply succeeds_eq. vm_compute. reflexivity.
Defined.

Lemma update_metadata_eq (f : metadata → metadata) (st : state) :
  update_metadata f st
  = match metadata_dict (self st) with
    | Some m =>
        Ok tt {| self := set_metadata_dict (f m) (self st); fs := fs st;
                 stdout := stdout st; localtime := localtime st |}
    | None => Raise AttributeError st
    end.
Proof. unfold update_metadata. unfold_monad. by destruct (metadata_dict _). Qed.

Local Ltac finish_raise :=
  intros [= <- <-]; simpl; eexists; split; [first [reflexivity|eassumption]|];
  split; [reflexivity|];
  split;
  [intros ?; done
  |intros ? ?; first
     [done
     |intros [? ?]; simpl in *;
      repeat match goal with
             | H : context [length (_ ++ _)] |- _ => rewrite length_app in H
             end; simpl in *; lia]].

(** X9. [write_audio_file_to_metadata] is not all or nothing.
    On a record whose three sequences have one length, a call that raises
    [ValueError] (the file is not under the corpus directory) leaves the
    sequences as they were, but a call that raises [AttributeError]
    because the embedder has no file length yet has already added the
    file name, so the sequences no longer have one length.  The file
    system is not touched. *)
Theorem failed_append_may_leave_sequences_uneven (st st' : state) (e : exn)
    (index : nat) (file : path) (embed : Embedder) (shape : list nat)
    (m : metadata) :
  metadata_dict (self st) = Some m →
  aligned (md_files m) →
  write_audio_file_to_metadata index file embed shape st = Raise e st' →
  ∃ m', metadata_dict (self st') = Some m'
        ∧ fs st' = fs st
        ∧ (e = ValueError → md_files m' = md_files m)
        ∧ (file_length embed = None → e = AttributeError →
           ¬ aligned (md_files m')).
Proof.
  intros Hm [Ha Hb].
  unfold write_audio_file_to_metadata, update_metadata. unfold_monad.
  destruct (index =? 0)%nat; simpl; rewrite ?Hm; simpl.
  - destruct (last shape); simpl; [|finish_raise].
    destruct (relative_to file (audio_dir (self st))); simpl; [|finish_raise].
    destruct (file_length embed); simpl; [|finish_raise].
    destruct (head shape); simpl; [done|finish_raise].
  - destruct (relative_to file (audio_dir (self st))); simpl;
      rewrite ?Hm; simpl; [|finish_raise].
    destruct (file_length embed); simpl; [|finish_raise].
    destruct (head shape); simpl; [done|finish_raise].
Qed.

Lemma failed_append_may_leave_sequences_uneven_witness :
  ∃ m', metadata_dict
          (self (state_of
                   (write_audio_file_to_metadata 0 (joinpath ex_corpus "a.wav")
                      ex_embedder_unprepared [3; 8]%nat ex_fresh))) = Some m'
        ∧ ¬ aligned (md_files m').
Proof.
  destruct (failed_append_may_leave_sequences_uneven ex_fresh
              (state_of
                 (write_audio_file_to_metadata 0 (joinpath ex_corpus "a.wav")
                    ex_embedder_unprepared [3; 8]%nat ex_fresh))
              AttributeError 0 (joinpath ex_corpus "a.wav")
              ex_embedder_unprepared [3; 8]%nat
              (default (ex_metadata "X" ex_dir) (metadata_dict (self ex_fresh))))
    as (m' & Hm' & _ & _ & Hun).
  - reflexivity.
  - split; reflexivity.
  - apply raised_eq. vm_compute. reflexivity.
  - exists m'. split; [exact Hm'|]. exact (Hun eq_refl eq_refl).
Defined.

(** ** Saving artifacts *)

Lemma with_fs_id (s : state) : with_fs (fs s) s = s.
Proof. by destruct s. Qed.

Lemma keeps_entries_refl (f : filesystem) : keeps_entries f f.
Proof. split; eauto. Qed.

Lemma keeps_entries_trans (f g h : filesystem) :
  keeps_entries f g → keeps_entries g h → keeps_entries f h.
Proof.
  intros [Hd Hf] [Hd' Hf']. split; [by eauto|].
  intros p c Hp. destruct (Hf p c Hp) as [c' Hc']. eauto.
Qed.

Lemma keeps_entries_insert_dir (f : filesystem) (q : path) :
  f !! q = None → keeps_entries f (<[q := Directory]> f).
Proof.
  intros Hq. split.
  - intros p Hp. rewrite lookup_insert_ne; [done|congruence].
  - intros p c Hp. exists c. rewrite lookup_insert_ne; [done|congruence].
Qed.

Lemma keeps_entries_insert_file (f : filesystem) (q : path) (c : content) :
  is_dir f q = false → keeps_entries f (<[q := File c]> f).
Proof.
  unfold is_dir. intros Hq. split.
  - intros p Hp. rewrite lookup_insert_ne; [done|]. intros ->.
    by rewrite Hp in Hq.
  - intros p c0 Hp. destruct (decide (q = p)) as [->|Hne].
    + exists c. apply lookup_insert_eq.
    + exists c0. by rewrite lookup_insert_ne.
Qed.

Lemma same_loader_refl (s : state) : same_loader s s.
Proof. done. Qed.

Lemma same_loader_trans (s1 s2 s3 : state) :
  same_loader s1 s2 → same_loader s2 s3 → same_loader s1 s3.
Proof. unfold same_loader. intros (? & ? & ?) (? & ? & ?). by repeat split; congruence. Qed.

Lemma write_file_eq (p : path) (c : content) (st : state) :
  write_file p c st
  = if is_dir (fs st) p then Raise IsADirectoryError st
    else if is_dir (fs st) (path_parent p)
         then Ok tt (with_fs (<[p := File c]> (fs st)) st)
         else Raise FileNotFoundError st.
Proof.
  unfold write_file. unfold_monad.
  destruct (is_dir (fs st) p); [done|]. by destruct (is_dir (fs st) _).
Qed.

Lemma write_file_keeps (p : path) (c : content) (st : state) :
  same_loader st (state_of (write_file p c st))
  ∧ keeps_entries (fs st) (fs (state_of (write_file p c st))).
Proof.
  rewrite write_file_eq. destruct (is_dir (fs st) p) eqn:E.
  { split; [done|apply keeps_entries_refl]. }
  destruct (is_dir (fs st) (path_parent p)).
  - split; [done|]. by apply keeps_entries_insert_file.
  - split; [done|apply keeps_entries_refl].
Qed.

Lemma mkdir_parents_cons (q : path) (rest : list path) (st : state) :
  mkdir_parents (q :: rest) st
  = match fs st !! q with
    | Some (File _) => Raise NotADirectoryError st
    | Some Directory => mkdir_parents rest st
    | None => mkdir_parents rest (with_fs (<[q := Directory]> (fs st)) st)
    end.
Proof.
  simpl. unfold_monad. by destruct (fs st !! q) as [[c|]|].
Qed.

Lemma mkdir_parents_keeps (prefixes : list path) (st : state) :
  same_loader st (state_of (mkdir_parents prefixes st))
  ∧ keeps_entries (fs st) (fs (state_of (mkdir_parents prefixes st))).
Proof.
  revert st. induction prefixes as [|q rest IH]; intros st.
  { split; [done|apply keeps_entries_refl]. }
  rewrite mkdir_parents_cons.
  destruct (fs st !! q) as [[c|]|] eqn:E.
  - split; [done|apply keeps_entries_refl].
  - apply IH.
  - destruct (IH (with_fs (<[q := Directory]> (fs st)) st)) as [Hs Hk].
    split; [done|].
    eapply keeps_entries_trans; [by apply keeps_entries_insert_dir|done].
Qed.

Lemma mkdir_parents_Ok (prefixes : list path) (st st' : state) :
  mkdir_parents prefixes st = Ok tt st' →
  ∀ q, q ∈ prefixes → fs st' !! q = Some Directory.
Proof.
  revert st. induction prefixes as [|q0 rest IH]; intros st H q Hq.
  { by apply elem_of_nil in Hq. }
  rewrite mkdir_parents_cons in H.
  pose proof (mkdir_parents_keeps rest) as Hkeep.
  apply elem_of_cons in Hq as [->|Hq].
  - destruct (fs st !! q0) as [[c|]|] eqn:E; [done| |].
    + specialize (Hkeep st) as [_ [Hd _]]. rewrite H in Hd. by apply Hd.
    + specialize (Hkeep (with_fs (<[q0 := Directory]> (fs st)) st))
        as [_ [Hd _]].
      rewrite H in Hd. apply Hd. apply lookup_insert_eq.
  - destruct (fs st !! q0) as [[c|]|] eqn:E; [done|by eauto..].
Qed.

Lemma mkdir_parents_exist (prefixes : list path) (st : state) :
  (∀ q, q ∈ prefixes → fs st !! q = Some Directory) →
  mkdir_parents prefixes st = Ok tt st.
Proof.
  induction prefixes as [|q rest IH]; intros H; [done|].
  rewrite mkdir_parents_cons, (H q) by (by left).
  apply IH. intros q' Hq'. apply H. by right.
Qed.

Lemma elem_of_mkdir_prefixes (p q : path) :
  q ∈ map (λ n, take n p) (seq 1 (length p)) →
  q `prefix_of` p ∧ q ≠ [].
Proof.
  intros H. apply list_elem_of_fmap in H as (n & -> & Hn).
  apply elem_of_seq in Hn. split.
  - apply prefix_take.
  - intros E. apply (f_equal length) in E. rewrite length_take in E.
    simpl in E. lia.
Qed.

Lemma save_embeddings_raw_eq (embed : Embedder) (file_idx : nat) (file : path)
    (embeds : ndarray) (st : state) (dir rel : path) :
  emb_dim_reduction_model embed = false →
  embed_dir (self st) = Some dir →
  relative_to file (audio_dir (self st)) = Some rel →
  save_embeddings embed file_idx file embeds st
  = match mkdir (dir ++ path_parent rel) st with
    | Ok _ s1 =>
        write_file (raw_dest dir rel (path_stem file) (emb_model_name embed))
          Npy s1
    | Raise e s1 => Raise e s1
    end.
Proof.
  intros Hraw Hdir Hrel. unfold save_embeddings. unfold_monad.
  by rewrite Hdir, Hraw, Hrel.
Qed.

(** X11. [save_embeddings] adds and overwrites but never takes
    away: whether it returns or raises, every directory is still a
    directory and every file still a file afterwards, and the loader and
    what was printed are as before. *)
Theorem save_embeddings_keeps_entries (embed : Embedder) (file_idx : nat)
    (file : path) (embeds : ndarray) (st : state) :
  same_loader st (state_of (save_embeddings embed file_idx file embeds st))
  ∧ keeps_entries (fs st)
      (fs (state_of (save_embeddings embed file_idx file embeds st))).
Proof.
  pose proof (keeps_entries_refl (fs st)) as Hrefl.
  unfold save_embeddings. unfold_monad.
  destruct (embed_dir (self st)) as [dir|]; [|done].
  destruct (emb_dim_reduction_model embed).
  - destruct (metadata_dict (self st)) as [m|] eqn:Hm; [|done].
    destruct (md_segment_length m) as [sl|]; [|done].
    destruct (md_sample_rate m) as [sr|]; [|done].
    destruct (int_true_divide sl sr) as [e|input_len]; [done|].
    unfold save_embeddings_dict_with_timestamps. unfold_monad. rewrite Hm.
    destruct (md_embedding_dimensions (md_files m)) as [dims|]; [|done].
    destruct (t_stamps dims _) as [e|ts]; [done|].
    match goal with
    | |- context [write_file ?p ?c st] =>
        pose proof (write_file_keeps p c st) as [Hs1 Hk1];
        destruct (write_file p c st) as [[] s1|e s1]; [|done]
    end.
    destruct (2 <? ncols embeds)%nat; [|done].
    match goal with
    | |- context [write_file ?p ?c s1] =>
        pose proof (write_file_keeps p c s1) as [Hs2 Hk2]
    end.
    split; [by eapply same_loader_trans|by eapply keeps_entries_trans].
  - destruct (relative_to file (audio_dir (self st))) as [rel|]; [|done].
    unfold mkdir.
    match goal with
    | |- context [mkdir_parents ?l st] =>
        pose proof (mkdir_parents_keeps l st) as [Hs1 Hk1];
        destruct (mkdir_parents l st) as [[] s1|e s1]; [|done]
    end.
    match goal with
    | |- context [write_file ?p ?c s1] =>
        pose proof (write_file_keeps p c s1) as [Hs2 Hk2]
    end.
    split; [by eapply same_loader_trans|by eapply keeps_entries_trans].
Qed.

Lemma relative_to_app (base rel : path) :
  relative_to (base ++ rel) base = Some rel.
Proof.
  unfold relative_to. rewrite bool_decide_true by (by apply prefix_app_r).
  by rewrite drop_app_length.
Qed.

Lemma path_stem_app (p : path) (n : string) : path_stem (p ++ [n]) = stem_of n.
Proof.
  unfold path_stem. change (p ++ [n]) with (joinpath p n).
  by rewrite path_name_joinpath.
Qed.

Lemma path_parent_app (p : path) (n : string) : path_parent (p ++ [n]) = p.
Proof. apply path_parent_joinpath. Qed.

Lemma mkdir_keeps (p : path) (st : state) :
  same_loader st (state_of (mkdir p st))
  ∧ keeps_entries (fs st) (fs (state_of (mkdir p st))).
Proof. apply mkdir_parents_keeps. Qed.

Lemma raw_dest_neq_prefix (dir rel q : path) (stem model : string) :
  q `prefix_of` dir ++ path_parent rel → q ≠ raw_dest dir rel stem model.
Proof.
  intros Hq ->. apply prefix_length in Hq. unfold raw_dest, joinpath in Hq.
  rewrite !length_app in Hq. simpl in Hq. lia.
Qed.

(** X12. Two audio files of one folder whose names have the same
    stem share one destination: after a raw save for [a.wav] has
    returned, the save for [a.mp3] of the same folder returns too, writes
    over the artifact of the first and adds no entry (a file of the model
    has no content, so the state is then as it was). *)
Theorem raw_saves_of_one_stem_share_the_artifact (embed : Embedder)
    (i j : nat) (sub : path) (n1 n2 : string) (e1 e2 : ndarray)
    (st st' : state) :
  emb_dim_reduction_model embed = false →
  stem_of n1 = stem_of n2 →
  save_embeddings embed i (audio_dir (self st) ++ sub ++ [n1]) e1 st
  = Ok tt st' →
  save_embeddings embed j (audio_dir (self st') ++ sub ++ [n2]) e2 st'
  = Ok tt st'.
Proof.
  intros Hraw Hstem Hsave.
  destruct (embed_dir (self st)) as [dir|] eqn:Hdir.
  2:{ unfold save_embeddings in Hsave. unfold_monad. by rewrite Hdir in Hsave. }
  rewrite (save_embeddings_raw_eq _ _ _ _ _ dir (sub ++ [n1]))
    in Hsave by (done || apply relative_to_app).
  unfold raw_dest in Hsave.
  rewrite !path_parent_app, app_assoc, path_stem_app in Hsave.
  destruct (mkdir (dir ++ sub) st) as [[] s1|e s1] eqn:Hmk; [|done].
  pose proof (mkdir_keeps (dir ++ sub) st) as [(Hself & _) _].
  rewrite Hmk in Hself. simpl in Hself.
  rewrite write_file_eq in Hsave.
  destruct (is_dir (fs s1) _) eqn:Hfree; [done|].
  unfold joinpath in Hsave. rewrite path_parent_app in Hsave.
  destruct (is_dir (fs s1) (dir ++ sub)) eqn:Hparent; [|done].
  injection Hsave as <-.
  set (dest := joinpath (dir ++ sub)
                 (stem_of n1 +:+ "_" +:+ emb_model_name embed +:+ ".npy")) in *.
  assert (∀ q, q `prefix_of` dir ++ sub →
               <[dest := File Npy]> (fs s1) !! q = fs s1 !! q) as Hother.
  { intros q Hq. apply lookup_insert_ne. intros <-.
    apply prefix_length in Hq. unfold dest, joinpath in Hq.
    rewrite !length_app in Hq. simpl in Hq. lia. }
  rewrite (save_embeddings_raw_eq _ _ _ _ _ dir (sub ++ [n2]));
    [|done|simpl; congruence|simpl; rewrite Hself; apply relative_to_app].
  unfold raw_dest.
  rewrite !path_parent_app, app_assoc, path_stem_app, <- Hstem. fold dest.
  unfold mkdir. rewrite mkdir_parents_exist.
  2:{ intros q Hq. simpl.
      pose proof (elem_of_mkdir_prefixes _ _ Hq) as [Hpre _].
      rewrite Hother by done. by eapply mkdir_parents_Ok. }
  rewrite write_file_eq. unfold is_dir at 1. simpl.
  rewrite lookup_insert_eq.
  unfold dest at 1, joinpath. rewrite path_parent_app.
  unfold is_dir. rewrite Hother by done. fold (is_dir (fs s1) (dir ++ sub)).
  rewrite Hparent. f_equal. unfold with_fs. simpl. f_equal.
  apply insert_insert_eq.
Qed.

Lemma path_name_app (p : path) (n : string) : path_name (p ++ [n]) = n.
Proof. apply path_name_joinpath. Qed.

Lemma is_dir_insert_ne (f : filesystem) (d k : path) (v : node) :
  k ≠ d → is_dir (<[k := v]> f) d = is_dir f d.
Proof. intros H. unfold is_dir. by rewrite lookup_insert_ne. Qed.

Lemma rglob_insert_new (f : filesystem) (d k : path) (suf : string) (v : node) :
  f !! k = None →
  is_dir f d = true →
  length (rglob (<[k := v]> f) d suf)
  = ((if is_below d k && ends_with suf (path_name k) then 1 else 0)
     + length (rglob f d suf))%nat.
Proof.
  intros Hk Hd. unfold rglob.
  rewrite is_dir_insert_ne, Hd.
  2:{ intros ->. unfold is_dir in Hd. by rewrite Hk in Hd. }
  rewrite dom_insert_L.
  rewrite (filter_Permutation _ _ (k :: elements (dom f))).
  2:{ apply elements_union_singleton. by apply not_elem_of_dom. }
  rewrite filter_cons. cbn beta.
  destruct (is_below d k && ends_with suf (path_name k)); by case_decide.
Qed.

Lemma prefix_is_no_artifact (dir sub q : path) (suf : string) :
  q `prefix_of` dir ++ sub →
  (∀ c, c ∈ sub → ends_with suf c = false) →
  is_below dir q && ends_with suf (path_name q) = false.
Proof.
  intros Hq Hsub. destruct (is_below dir q) eqn:E; [simpl|done].
  apply bool_decide_eq_true in E as [[t ->] Hne].
  apply prefix_app_inv in Hq.
  destruct t as [|x t _] using rev_ind.
  { by rewrite app_nil_r in Hne. }
  rewrite app_assoc, path_name_app. apply Hsub.
  destruct Hq as [k ->]. set_solver.
Qed.

Lemma mkdir_parents_rglob (prefixes : list path) (st : state) (d : path)
    (suf : string) :
  is_dir (fs st) d = true →
  (∀ q, q ∈ prefixes → is_below d q && ends_with suf (path_name q) = false) →
  length (rglob (fs (state_of (mkdir_parents prefixes st))) d suf)
  = length (rglob (fs st) d suf).
Proof.
  revert st. induction prefixes as [|q rest IH]; intros st Hd Hq; [done|].
  rewrite mkdir_parents_cons.
  assert (∀ q', q' ∈ rest →
                is_below d q' && ends_with suf (path_name q') = false) as Hrest.
  { intros q' Hq'. apply Hq. by right. }
  destruct (fs st !! q) as [[c|]|] eqn:E; [done|by apply IH|].
  rewrite IH; [|simpl|done].
  - simpl. rewrite rglob_insert_new by done. by rewrite Hq by (by left).
  - rewrite is_dir_insert_ne; [done|]. intros ->. unfold is_dir in Hd.
    by rewrite E in Hd.
Qed.

Lemma mkdir_parents_other (prefixes : list path) (st : state) (p : path) :
  p ∉ prefixes →
  fs (state_of (mkdir_parents prefixes st)) !! p = fs st !! p.
Proof.
  revert st. induction prefixes as [|q rest IH]; intros st Hp; [done|].
  rewrite mkdir_parents_cons. apply not_elem_of_cons in Hp as [Hne Hp].
  destruct (fs st !! q) as [[c|]|] eqn:E; [done|by apply IH|].
  rewrite IH by done. simpl. by rewrite lookup_insert_ne.
Qed.

Lemma ends_with_artifact_name (stem model : string) :
  ends_with ".npy" (stem +:+ "_" +:+ model +:+ ".npy") = true.
Proof. rewrite <- !string_app_assoc. apply ends_with_append. Qed.

(** X13. A raw save that returns adds exactly one entry ending
    in [.npy] below the directory of the run, when that directory exists,
    the destination is free and no folder of the corpus on the way to the
    audio file has a name ending in [.npy]: the count that a later
    resolution compares with the number of audio files goes up by one per
    file saved. *)
Theorem raw_save_adds_one_artifact (embed : Embedder) (file_idx : nat)
    (file : path) (embeds : ndarray) (st st' : state) (dir rel : path) :
  emb_dim_reduction_model embed = false →
  embed_dir (self st) = Some dir →
  is_dir (fs st) dir = true →
  relative_to file (audio_dir (self st)) = Some rel →
  (∀ c, c ∈ path_parent rel → ends_with ".npy" c = false) →
  fs st !! raw_dest dir rel (path_stem file) (emb_model_name embed) = None →
  save_embeddings embed file_idx file embeds st = Ok tt st' →
  fs st' !! raw_dest dir rel (path_stem file) (emb_model_name embed)
  = Some (File Npy)
  ∧ length (rglob (fs st') dir ".npy") = S (length (rglob (fs st) dir ".npy")).
Proof.
  intros Hraw Hdir Hisdir Hrel Hsub Hfree Hsave.
  rewrite (save_embeddings_raw_eq _ _ _ _ _ dir rel) in Hsave by done.
  set (dest := raw_dest dir rel (path_stem file) (emb_model_name embed)) in *.
  pose proof (mkdir_parents_rglob
                (map (λ n, take n (dir ++ path_parent rel))
                   (seq 1 (length (dir ++ path_parent rel))))
                st dir ".npy" Hisdir) as Hcount.
  pose proof (mkdir_parents_other
                (map (λ n, take n (dir ++ path_parent rel))
                   (seq 1 (length (dir ++ path_parent rel))))
                st dest) as Hdest.
  pose proof (mkdir_keeps (dir ++ path_parent rel) st) as [_ [Hkeep _]].
  fold (mkdir (dir ++ path_parent rel)) in Hcount, Hdest.
  destruct (mkdir (dir ++ path_parent rel) st) as [[] s1|e s1]; [|done].
  simpl in *. rewrite write_file_eq in Hsave.
  destruct (is_dir (fs s1) dest); [done|].
  destruct (is_dir (fs s1) (path_parent dest)); [|done].
  injection Hsave as <-. simpl. split; [apply lookup_insert_eq|].
  rewrite rglob_insert_new.
  - rewrite Hcount.
    + replace (ends_with ".npy" (path_name dest)) with true.
      2:{ symmetry. unfold dest, raw_dest. rewrite path_name_joinpath.
          apply ends_with_artifact_name. }
      replace (is_below dir dest) with true; [done|].
      symmetry. apply bool_decide_eq_true. split.
      * unfold dest, raw_dest, joinpath. rewrite <- app_assoc.
        by apply prefix_app_r.
      * intros E. apply (f_equal length) in E.
        unfold dest, raw_dest, joinpath in E. rewrite !length_app in E.
        simpl in E. lia.
    + intros q Hq. apply elem_of_mkdir_prefixes in Hq as [Hq _].
      by eapply prefix_is_no_artifact.
  - rewrite Hdest; [done|]. intros Hin.
    apply elem_of_mkdir_prefixes in Hin as [Hin _].
    by apply (raw_dest_neq_prefix _ _ _ (path_stem file)
                (emb_model_name embed)) in Hin.
  - unfold is_dir in *. destruct (fs st !! dir) as [[c|]|] eqn:E; try done.
    by rewrite (Hkeep dir E).
Qed.

(** X14. A reduction-stage save that raises [AttributeError],
    [KeyError], [ZeroDivisionError], [ValueError] or [OverflowError] (an
    attribute or a key is missing, the sample rate or the segment length
    is zero, a shape is no pair, a number is too large for a float or for
    the length of an array) has written nothing: the state is as it
    was. *)
Theorem reduction_save_fails_before_writing (embed : Embedder)
    (file_idx : nat) (file : path) (embeds : ndarray) (st st' : state)
    (e : exn) :
  emb_dim_reduction_model embed = true →
  save_embeddings embed file_idx file embeds st = Raise e st' →
  e ∈ [AttributeError; KeyError; ZeroDivisionError; ValueError;
       OverflowError] →
  st' = st.
Proof.
  intros Hred Hsave He.
  assert (is_OSError e = false) as Hos.
  { repeat (apply elem_of_cons in He as [->|He]; [reflexivity|]).
    by apply elem_of_nil in He. }
  clear He. revert Hsave Hos.
  unfold save_embeddings. unfold_monad. rewrite Hred.
  destruct (embed_dir (self st)) as [dir|]; [|by intros [= _ <-]].
  destruct (metadata_dict (self st)) as [m|] eqn:Hm; [|by intros [= _ <-]].
  destruct (md_segment_length m) as [sl|]; [|by intros [= _ <-]].
  destruct (md_sample_rate m) as [sr|]; [|by intros [= _ <-]].
  destruct (int_true_divide sl sr) as [e0|input_len]; [by intros [= _ <-]|].
  unfold save_embeddings_dict_with_timestamps. unfold_monad. rewrite Hm.
  destruct (md_embedding_dimensions (md_files m)) as [dims|];
    [|by intros [= _ <-]].
  destruct (t_stamps dims _) as [e0|ts]; [by intros [= _ <-]|].
  rewrite write_file_eq.
  destruct (is_dir (fs st) _); [by intros [= _ <-]|].
  destruct (is_dir (fs st) _); [|by intros [= _ <-]].
  destruct (2 <? ncols embeds)%nat; [|done].
  rewrite write_file_eq.
  destruct (is_dir _ _); [by intros [= <- _]|].
  destruct (is_dir _ _); [done|by intros [= <- _]].
Qed.

Lemma raw_saves_of_one_stem_share_the_artifact_witness :
  save_embeddings ex_embedder 1
    (audio_dir
       (self (state_of
                (save_embeddings ex_embedder 0
                   (audio_dir (self ex_fresh) ++ [] ++ ["a.wav"])
                   ex_reduced_embeds ex_fresh)))
     ++ [] ++ ["a.mp3"])
    ex_reduced_embeds
    (state_of
       (save_embeddings ex_embedder 0
          (audio_dir (self ex_fresh) ++ [] ++ ["a.wav"])
          ex_reduced_embeds ex_fresh))
  = Ok tt
      (state_of
         (save_embeddings ex_embedder 0
            (audio_dir (self ex_fresh) ++ [] ++ ["a.wav"])
            ex_reduced_embeds ex_fresh)).
Proof.
  refine (raw_saves_of_one_stem_share_the_artifact ex_embedder 0 1 []
            "a.wav" "a.mp3" ex_reduced_embeds ex_reduced_embeds ex_fresh
            _ _ _ _).
  - reflexivity.
  - reflexivity.
  - apply succeeds_eq. vm_compute. reflexivity.
Defined.

Lemma raw_save_adds_one_artifact_witness :
  fs (state_of
        (save_embeddings ex_embedder 1
           (joinpath (joinpath ex_corpus "sub") "b.wav")
           ex_reduced_embeds ex_fresh))
    !! raw_dest ex_dir ["sub"; "b.wav"] "b" "X"
  = Some (File Npy)
  ∧ length (rglob
              (fs (state_of
                     (save_embeddings ex_embedder 1
                        (joinpath (joinpath ex_corpus "sub") "b.wav")
                        ex_reduced_embeds ex_fresh)))
              ex_dir ".npy")
    = S (length (rglob (fs ex_fresh) ex_dir ".npy")).
Proof.
  refine (raw_save_adds_one_artifact ex_embedder 1
            (joinpath (joinpath ex_corpus "sub") "b.wav")
            ex_reduced_embeds ex_fresh _ ex_dir ["sub"; "b.wav"]
            _ _ _ _ _ _ _).
  - reflexivity.
  - reflexivity.
  - reflexivity.
  - reflexivity.
  - intros c Hc. apply list_elem_of_singleton in Hc. subst c. reflexivity.
  - reflexivity.
  - apply succeeds_eq. vm_compute. reflexivity.
Defined.

Lemma reduction_save_fails_before_writing_witness :
  state_of (save_embeddings ex_reducer 0 [] ex_reduced_embeds
              ex_reduction_unread)
  = ex_reduction_unread.
Proof.
  refine (reduction_save_fails_before_writing ex_reducer 0 []
            ex_reduced_embeds ex_reduction_unread _ KeyError _ _ _).
  - reflexivity.
  - apply raised_eq. vm_compute. reflexivity.
  - repeat constructor.
Defined.

(** ** The reduction stage *)

Lemma examine_Return_full (st st' : state) (d r : path) :
  examine d st = Ok (Return r) st' →
  st' = st ∧ r = d ∧ name_matches (self st) d = true
  ∧ fs st !! d = Some Directory
  ∧ ∃ m rn, fs st !! joinpath d "metadata.yml" = Some (File (Yaml m))
            ∧ md_model_name m = model_name (self st)
            ∧ reducer (self st) = Some rn
            ∧ contains rn (path_stem d) = false.
Proof.
  intros H. pose proof (examine_Return_inv _ _ _ _ H) as [-> ->].
  revert H. unfold examine. unfold_monad. fold (name_matches (self st) d).
  destruct (name_matches (self st) d); [|done].
  destruct (glob (fs st) d "yml") as [|k l] eqn:Hg.
  { unfold rmdir. unfold_monad.
    destruct (fs st !! d) as [[c|]|]; simpl; try done.
    by destruct (children (fs st) d). }
  pose proof (glob_cons_is_dir _ _ _ _ _ Hg) as Hd.
  unfold yaml_load. unfold_monad.
  destruct (fs st !! joinpath d "metadata.yml") as [[[m| |]|]|] eqn:Hm;
    try done.
  destruct (String.eqb_spec (model_name (self st)) (md_model_name m)) as [Heq|];
    simpl; [|done].
  destruct (reducer (self st)) as [rn|].
  - destruct (contains rn (path_stem d)) eqn:Hc; [done|].
    intros _. repeat split; [done|]. by exists m, rn.
  - rewrite _get_audio_files_eq.
    destruct (0 <? length (enumerated st))%nat; simpl.
    + case_bool_decide; simpl; [|done].
      by rewrite (_get_metadata_dict_eq d m) by done.
    + by rewrite (_get_metadata_dict_eq d m) by done.
Qed.

Lemma for_each_Return_inv (dirs : list path) (st st' : state) (d : path) :
  for_each examine dirs st = Ok (Some d) st' →
  d ∈ dirs ∧ self st' = self st ∧ examine d st' = Ok (Return d) st'.
Proof.
  revert st. induction dirs as [|d0 dirs IH]; intros st; simpl; unfold_monad.
  { done. }
  destruct (examine d0 st) as [[| |r] s1|e s1] eqn:E; [| | |done].
  - intros H. destruct (IH _ H) as (Hin & Hself & Hex).
    apply examine_Next_inv in E as (Hs & _).
    split; [by right|]. split; [congruence|done].
  - done.
  - intros [= <- <-]. pose proof (examine_Return_inv _ _ _ _ E) as [-> ->].
    split; [by left|]. done.
Qed.

Lemma name_matches_self (l l' : Loader) (d : path) :
  model_name l' = model_name l → audio_dir l' = audio_dir l →
  name_matches l' d = name_matches l d.
Proof. unfold name_matches. by intros -> ->. Qed.

Lemma get_embedding_dir_fresh_eq (st : state) (r : string) :
  reducer (self st) = Some r →
  combination_already_exists (self st) = false →
  dim_reduc_embed_dir (self st) = None →
  get_embedding_dir st
  = match fs st !! embed_parent_dir (self st) with
    | Some Directory =>
        _find_existing_embed_dir (sort_paths (raw_candidates st))
          (with_self (set_embed_suffix ".npy" (self st)) st)
    | Some (File _) =>
        Raise NotADirectoryError
          (with_self (set_embed_suffix ".npy" (self st)) st)
    | None =>
        Raise FileNotFoundError
          (with_self (set_embed_suffix ".npy" (self st)) st)
    end.
Proof.
  intros Hr Hflag Hd. unfold get_embedding_dir, iterdir. unfold_monad.
  rewrite Hr, Hflag, Hd. simpl. unfold with_self, raw_candidates.
  by destruct (fs st !! embed_parent_dir (self st)) as [[c|]|].
Qed.

Lemma elem_of_raw_candidates (st : state) (d : path) :
  d ∈ raw_candidates st ↔
  d ∈ children (fs st) (embed_parent_dir (self st))
  ∧ name_matches (self st) d = true.
Proof.
  unfold raw_candidates, name_matches. rewrite list_elem_of_filter.
  rewrite andb_comm. split; intros [H1 H2]; split; try done.
  - by apply Is_true_true.
  - by apply Is_true_true.
Qed.

(** X15. In a reduction run that starts afresh, what
    [get_embedding_dir] returns as the raw cache to reduce is an entry of
    the raw cache parent that passes the test on names, holds a
    [metadata.yml] recording the requested model, and does not have the
    name of the reducer in its stem; the combination is still not marked
    as existing and the suffix looked for is [.npy]. *)
Theorem reduction_source_is_a_matching_raw_cache (st st' : state)
    (r : string) (raw : path) :
  reducer (self st) = Some r →
  combination_already_exists (self st) = false →
  dim_reduc_embed_dir (self st) = None →
  get_embedding_dir st = Ok (Some raw) st' →
  path_parent raw = embed_parent_dir (self st)
  ∧ name_matches (self st) raw = true
  ∧ contains r (path_stem raw) = false
  ∧ (∃ m, fs st' !! joinpath raw "metadata.yml" = Some (File (Yaml m))
          ∧ md_model_name m = model_name (self st))
  ∧ combination_already_exists (self st') = false
  ∧ embed_suffix (self st') = ".npy".
Proof.
  intros Hr Hflag Hd. rewrite (get_embedding_dir_fresh_eq st r) by done.
  destruct (fs st !! embed_parent_dir (self st)) as [[c|]|]; try done.
  unfold _find_existing_embed_dir. intros H.
  apply for_each_Return_inv in H as (Hin & Hself & Hex).
  apply examine_Return_full in Hex
    as (_ & _ & Hname & _ & m & rn & Hm & Hmodel & Hrn & Hc).
  rewrite Hself in *. simpl in *.
  apply elem_of_reverse, sort_paths_elem_of, elem_of_raw_candidates in Hin
    as [Hin _].
  apply elem_of_children in Hin as (_ & _ & _ & Hparent).
  assert (rn = r) as -> by (unfold reducer in *; simpl in *; congruence).
  repeat split; try done. by exists m.
Qed.

Lemma returns_path_eq (r : result (option path)) (d : path) :
  returns_path r = Some d → r = Ok (Some d) (state_of r).
Proof. destruct r as [[d'|] s|e s]; try done. by intros [= ->]. Qed.

Lemma reduction_source_is_a_matching_raw_cache_witness :
  path_parent ex_dir = embed_parent_dir (self ex_reduce_raw)
  ∧ name_matches (self ex_reduce_raw) ex_dir = true
  ∧ contains "umap" (path_stem ex_dir) = false
  ∧ (∃ m, fs (state_of (get_embedding_dir ex_reduce_raw))
            !! joinpath ex_dir "metadata.yml" = Some (File (Yaml m))
          ∧ md_model_name m = model_name (self ex_reduce_raw))
  ∧ combination_already_exists
      (self (state_of (get_embedding_dir ex_reduce_raw))) = false
  ∧ embed_suffix (self (state_of (get_embedding_dir ex_reduce_raw))) = ".npy".
Proof.
  refine (reduction_source_is_a_matching_raw_cache ex_reduce_raw
            (state_of (get_embedding_dir ex_reduce_raw)) "umap" ex_dir
            _ _ _ _).
  - reflexivity.
  - reflexivity.
  - reflexivity.
  - apply returns_path_eq. vm_compute. reflexivity.
Defined.

Lemma get_embeddings_eq (st : state) :
  get_embeddings st
  = match get_embedding_dir st with
    | Ok (Some raw) s1 =>
        if combination_already_exists (self s1)
        then Ok tt
               (with_self
                  (set_embed_dir raw
                     (set_files
                        (sort_paths (rglob (fs s1) raw (embed_suffix (self s1))))
                        (self s1))) s1)
        else
          match fs s1 !! joinpath raw "metadata.yml" with
          | Some (File (Yaml m)) => Ok tt (reduction_started raw m s1)
          | Some (File _) =>
              Raise YAMLError
                (with_self
                   (set_files
                      (sort_paths (rglob (fs s1) raw (embed_suffix (self s1))))
                      (self s1)) s1)
          | Some Directory =>
              Raise IsADirectoryError
                (with_self
                   (set_files
                      (sort_paths (rglob (fs s1) raw (embed_suffix (self s1))))
                      (self s1)) s1)
          | None =>
              Raise FileNotFoundError
                (with_self
                   (set_files
                      (sort_paths (rglob (fs s1) raw (embed_suffix (self s1))))
                      (self s1)) s1)
          end
    | Ok None s1 => Raise AttributeError s1
    | Raise e s1 => Raise e s1
    end.
Proof.
  unfold get_embeddings. unfold mbind at 1. unfold M_bind at 1.
  destruct (get_embedding_dir st) as [[raw|] s1|e s1]; [|done..].
  unfold mbind at 1. unfold M_bind at 1. unfold get at 1.
  unfold mbind at 1. unfold M_bind at 1. unfold modify_self at 1.
  fold (with_self
          (set_files (sort_paths (rglob (fs s1) raw (embed_suffix (self s1))))
             (self s1)) s1).
  destruct (combination_already_exists (self s1)); [done|]. simpl.
  unfold mbind at 1. unfold M_bind at 1.
  destruct (fs s1 !! joinpath raw "metadata.yml") as [[[m| |]|]|] eqn:E.
  2,3,4,5: unfold _get_metadata_dict, yaml_load; unfold_monad; simpl;
           by rewrite E.
  rewrite (_get_metadata_dict_eq raw m) by done.
  unfold update_metadata, get_timestamp_dir. unfold_monad.
  rewrite loaded_metadata_dict. reflexivity.
Qed.











(** ** Reading the raw artifacts back *)

Lemma relative_to_Some (p base rel : path) :
  relative_to p base = Some rel → p = base ++ rel.
Proof.
  unfold relative_to. case_bool_decide as H; [|done].
  intros [= <-]. destruct H as [k ->]. by rewrite drop_app_length.
Qed.

Lemma update_files_dict_eq (f : files_dict → option files_dict) (st : state) :
  update_files_dict f st
  = match metadata_dict (self st) with
    | None => Raise AttributeError st
    | Some m =>
        match f (md_files m) with
        | Some f' =>
            Ok tt {| self := set_metadata_dict (with_files f' m) (self st);
                     fs := fs st; stdout := stdout st;
                     localtime := localtime st |}
        | None => Raise KeyError st
        end
    end.
Proof.
  unfold update_files_dict. unfold_monad.
  destruct (metadata_dict (self st)) as [m|]; [|done].
  by destruct (f (md_files m)).
Qed.

(** X18. An [embed_read] that returns has added the name of the
    artifact, relative to the recorded cache directory or to the place
    the cache was moved to, and the shape of the array returned, each at
    the end of its list, and has left the file system alone; the shape of
    a one-dimensional array is recorded as one row, so that arrays of one
    or two dimensions keep every recorded shape a pair. *)
Theorem embed_read_records_name_and_shape (index : nat) (file : path)
    (shape out : list nat) (st st' : state) :
  embed_read index file shape st = Ok out st' →
  ∃ m m' names dims rel,
    metadata_dict (self st) = Some m
    ∧ metadata_dict (self st') = Some m'
    ∧ md_embedding_files (md_files m) = Some names
    ∧ md_embedding_dimensions (md_files m) = Some dims
    ∧ md_embedding_files (md_files m') = Some (names ++ [rel])
    ∧ md_embedding_dimensions (md_files m') = Some (dims ++ [out])
    ∧ (file = md_embed_dir m ++ rel
       ∨ file = joinpath (embed_parent_dir (self st))
                  (path_stem (md_embed_dir m)) ++ rel)
    ∧ out = (if (length shape =? 1)%nat then 1%nat :: shape else shape)
    ∧ fs st' = fs st
    ∧ ((length shape = 1 ∨ length shape = 2)%nat → pairs dims →
       pairs (dims ++ [out])).
Proof.
  unfold embed_read, np_load. unfold_monad.
  destruct (fs st !! file) as [[[| |]|]|]; try done.
  destruct (metadata_dict (self st)) as [m|] eqn:Hm; [|done].
  set (base2 := joinpath (embed_parent_dir (self st))
                  (path_stem (md_embed_dir m))).
  assert (∀ rel, (file = md_embed_dir m ++ rel ∨ file = base2 ++ rel) →
    match update_files_dict (append_embedding_file rel) st with
    | Ok _ s' =>
        match update_files_dict
                (append_embedding_dimensions
                   (if (length shape =? 1)%nat then 1%nat :: shape else shape))
                s' with
        | Ok _ s'0 =>
            Ok (if (length shape =? 1)%nat then 1%nat :: shape else shape) s'0
        | Raise e s'0 => Raise e s'0
        end
    | Raise e s' => Raise e s'
    end = Ok out st' →
    ∃ m' names dims rel,
      Some m = Some m
      ∧ metadata_dict (self st') = Some m'
      ∧ md_embedding_files (md_files m) = Some names
      ∧ md_embedding_dimensions (md_files m) = Some dims
      ∧ md_embedding_files (md_files m') = Some (names ++ [rel])
      ∧ md_embedding_dimensions (md_files m') = Some (dims ++ [out])
      ∧ (file = md_embed_dir m ++ rel ∨ file = base2 ++ rel)
      ∧ out = (if (length shape =? 1)%nat then 1%nat :: shape else shape)
      ∧ fs st' = fs st
      ∧ ((length shape = 1 ∨ length shape = 2)%nat → pairs dims →
         pairs (dims ++ [out]))) as Htail.
  { intros rel Hrel. rewrite update_files_dict_eq, Hm.
    unfold append_embedding_file.
    destruct (md_embedding_files (md_files m)) as [names|] eqn:Hn; [|done].
    simpl. rewrite update_files_dict_eq. simpl.
    unfold append_embedding_dimensions. simpl.
    destruct (md_embedding_dimensions (md_files m)) as [dims|] eqn:Hd; [|done].
    simpl. intros [= <- <-]. simpl.
    eexists. exists names, dims, rel.
    split; [done|]. split; [reflexivity|]. repeat split; try done.
    intros Hlen Hp. apply Forall_app. split; [done|].
    apply Forall_singleton.
    destruct Hlen as [H|H]; rewrite H; simpl; [by rewrite H|done]. }
  destruct (relative_to file (md_embed_dir m)) as [rel|] eqn:Hrel.
  - apply relative_to_Some in Hrel. simpl. intros H.
    destruct (Htail rel (or_introl Hrel) H) as (m' & names & dims & rel' & H').
    by exists m, m', names, dims, rel'.
  - fold base2.
    destruct (relative_to file base2) as [rel|] eqn:Hrel2; [|done].
    apply relative_to_Some in Hrel2. simpl. intros H.
    destruct (Htail rel (or_intror Hrel2) H) as (m' & names & dims & rel' & H').
    by exists m, m', names, dims, rel'.
Qed.

Lemma t_stamps_fit (dims : list (list nat)) (input_len : pyfloat) :
  frames_fit dims input_len →
  (pairs dims ∧ ∃ ts, t_stamps dims input_len = inr ts)
  ∨ (¬ pairs dims ∧ t_stamps dims input_len = inl ValueError).
Proof.
  induction 1 as [|d dims Hd Hfit IH].
  { left. split; [constructor|by eexists]. }
  assert (length d ≠ 2%nat → ¬ pairs (d :: dims)) as Hno.
  { intros Hlen H. by apply Forall_cons in H as [? _]. }
  destruct d as [|a [|b [|c d]]].
  1,2,4: right; split; [by apply Hno|done].
  destruct (Hd a b eq_refl) as (x & ts & Hx & Hts).
  cbn [t_stamps]. rewrite Hx, Hts.
  destruct IH as [[Hp [rest ->]]|[Hp ->]].
  - left. split; [by apply Forall_cons|by eexists].
  - right. split; [|done]. intros H. by apply Forall_cons in H as [_ ?].
Qed.

(** X19. When the frame counts of the recorded pairs are such
    that [np.arange] returns for each (a frame length that is not zero, a
    length of the array that fits), saving the reduction raises
    [ValueError] if and only if some recorded shape is not a pair (an array
    of three or more dimensions was read), and it does so before anything
    is written. *)
Theorem reduction_save_needs_pairs (file_dest : path) (embeds : ndarray)
    (input_len : pyfloat) (f_idx : nat) (st : state) (m : metadata)
    (dims : list (list nat)) :
  metadata_dict (self st) = Some m →
  md_embedding_dimensions (md_files m) = Some dims →
  frames_fit dims input_len →
  (¬ pairs dims →
   save_embeddings_dict_with_timestamps file_dest embeds input_len f_idx st
   = Raise ValueError st)
  ∧ (pairs dims →
     ∀ st', save_embeddings_dict_with_timestamps file_dest embeds input_len
              f_idx st ≠ Raise ValueError st').
Proof.
  intros Hm Hd Hfit. pose proof (t_stamps_fit dims input_len Hfit) as Hcases.
  unfold save_embeddings_dict_with_timestamps. unfold_monad.
  rewrite Hm, Hd. split.
  - intros Hno. destruct Hcases as [[Hp _]|[_ ->]]; [by destruct Hno|done].
  - intros Hp st'. destruct Hcases as [[_ [ts ->]]|[Hno _]]; [|by destruct Hno].
    unfold write_file. unfold_monad.
    destruct (is_dir (fs st) file_dest); [done|].
    destruct (is_dir (fs st) (path_parent file_dest)); [|done]. simpl.
    destruct (2 <? ncols embeds)%nat; [|done].
    destruct (is_dir _ _); [done|]. by destruct (is_dir _ _).
Qed.

Lemma returned_shape_eq (r : result (list nat)) (out : list nat) :
  returned_shape r = Some out → r = Ok out (state_of r).
Proof. destruct r; [|done]. by intros [= ->]. Qed.

Lemma embed_read_records_name_and_shape_witness :
  ∃ m m' names dims rel,
    metadata_dict (self ex_reduce_started) = Some m
    ∧ metadata_dict
        (self (state_of (embed_read 0 (joinpath ex_dir "a_X.npy") [8]%nat
                           ex_reduce_started))) = Some m'
    ∧ md_embedding_files (md_files m) = Some names
    ∧ md_embedding_dimensions (md_files m) = Some dims
    ∧ md_embedding_files (md_files m') = Some (names ++ [rel])
    ∧ md_embedding_dimensions (md_files m') = Some (dims ++ [[1; 8]%nat])
    ∧ (joinpath ex_dir "a_X.npy" = md_embed_dir m ++ rel
       ∨ joinpath ex_dir "a_X.npy"
         = joinpath (embed_parent_dir (self ex_reduce_started))
             (path_stem (md_embed_dir m)) ++ rel)
    ∧ [1; 8]%nat = (if (length [8]%nat =? 1)%nat then [1; 8]%nat else [8]%nat)
    ∧ fs (state_of (embed_read 0 (joinpath ex_dir "a_X.npy") [8]%nat
                      ex_reduce_started))
      = fs ex_reduce_started
    ∧ ((length [8]%nat = 1 ∨ length [8]%nat = 2)%nat → pairs dims →
       pairs (dims ++ [[1; 8]%nat])).
Proof.
  refine (embed_read_records_name_and_shape 0 (joinpath ex_dir "a_X.npy")
            [8]%nat [1; 8]%nat ex_reduce_started _ _).
  apply returned_shape_eq. vm_compute. reflexivity.
Defined.

Lemma reduction_save_needs_pairs_witness :
  save_embeddings_dict_with_timestamps (joinpath ex_umap_1 "corpus_umap.json")
    ex_reduced_embeds (float_of_int 1) 0
    (with_self
       (set_metadata_dict
          (with_files
             {| md_audio_files := []; md_file_lengths := [];
                md_nr_embeds_per_file := [];
                md_embedding_files := Some [];
                md_embedding_dimensions := Some [[3; 8]; [2; 8; 1]]%nat |}
             (ex_metadata "X" ex_dir))
          (self ex_reduction)) ex_reduction)
  = Raise ValueError
      (with_self
         (set_metadata_dict
            (with_files
               {| md_audio_files := []; md_file_lengths := [];
                  md_nr_embeds_per_file := [];
                  md_embedding_files := Some [];
                  md_embedding_dimensions := Some [[3; 8]; [2; 8; 1]]%nat |}
               (ex_metadata "X" ex_dir))
            (self ex_reduction)) ex_reduction).
Proof.
  refine (proj1 (reduction_save_needs_pairs
                   (joinpath ex_umap_1 "corpus_umap.json")
                   ex_reduced_embeds (float_of_int 1) 0 _ _ _ _ _ _) _).
  - reflexivity.
  - reflexivity.
  - apply Forall_cons. split.
    + intros n c [= <- <-].
      exists (float_of_int 3), [float_of_int 0; float_of_int 1; float_of_int 2].
      split; vm_compute; reflexivity.
    + apply Forall_cons. split; [intros n c H; discriminate H|constructor].
  - intros H. apply Forall_cons in H as [_ H].
    apply Forall_cons in H as [H _]. simpl in H. lia.
Defined.

(** ** Listing the artifacts *)

Lemma rfind_dot_json (x : string) :
  rfind "." (x +:+ ".json") = Some (String.length x).
Proof.
  induction x as [|a x IH]; [reflexivity|].
  change (String a x +:+ ".json") with (String a (x +:+ ".json")).
  cbn [rfind]. by rewrite IH.
Qed.

Lemma substring_all (y : string) : String.substring 0 (String.length y) y = y.
Proof. induction y as [|a y IH]; [done|]. simpl. by rewrite IH. Qed.

Lemma substring_app_r (x y : string) :
  String.substring (String.length x) (String.length y) (x +:+ y) = y.
Proof.
  induction x as [|a x IH]; [apply substring_all|].
  change (String a x +:+ y) with (String a (x +:+ y)). simpl. apply IH.
Qed.

Lemma suffix_of_json (x : string) :
  x ≠ "" → suffix_of (x +:+ ".json") = ".json".
Proof.
  intros Hx. unfold suffix_of. rewrite rfind_dot_json, string_length_app.
  change (String.length ".json") with 5%nat.
  assert (0 < String.length x)%nat as Hpos by (destruct x; [done|simpl; lia]).
  replace (0 <? String.length x)%nat with true
    by (symmetry; by apply Nat.ltb_lt).
  replace (String.length x <? String.length x + 5 - 1)%nat with true
    by (symmetry; apply Nat.ltb_lt; lia).
  simpl. replace (String.length x + 5 - String.length x)%nat with 5%nat by lia.
  apply (substring_app_r x ".json").
Qed.

Lemma update_files_reducing_eq (st : state) (r : string) (e : path) :
  reducer (self st) = Some r →
  embed_dir (self st) = Some e →
  fs st !! e = Some Directory →
  update_files st
  = Ok tt
      (with_self
         (set_files
            (filter (λ f, path_suffix f = ".json") (children (fs st) e))
            (self st)) st).
Proof.
  intros Hr He Hd. unfold update_files, read_embed_dir, iterdir. unfold_monad.
  by rewrite He, Hr, Hd.
Qed.

(** X20. After a reduction-stage save has returned,
    [update_files] returns, changes nothing in the file system, and lists
    the JSON artifact just written; everything it lists is an entry of
    the directory of the run whose suffix is [.json], so the [.npy] twin
    written for more than two dimensions is not listed. *)
Theorem update_files_lists_the_reduction_artifact (embed : Embedder)
    (file_idx : nat) (file : path) (embeds : ndarray) (st st1 : state)
    (r : string) (dir : path) :
  reducer (self st) = Some r →
  emb_dim_reduction_model embed = true →
  embed_dir (self st) = Some dir →
  save_embeddings embed file_idx file embeds st = Ok tt st1 →
  ∃ st2,
    update_files st1 = Ok tt st2
    ∧ fs st2 = fs st1
    ∧ joinpath dir (path_stem (audio_dir (self st)) +:+ "_"
                      +:+ emb_model_name embed +:+ ".json")
      ∈ files (self st2)
    ∧ ∀ f, f ∈ files (self st2) →
           path_parent f = dir ∧ path_suffix f = ".json".
Proof.
  intros Hr Hred Hdir Hsave.
  set (dest := joinpath dir (path_stem (audio_dir (self st)) +:+ "_"
                               +:+ emb_model_name embed +:+ ".json")).
  assert (fs st1 !! dir = Some Directory ∧ is_Some (fs st1 !! dest)
          ∧ self st1 = self st) as (Hd1 & Hdest1 & Hself).
  { revert Hsave. unfold save_embeddings. unfold_monad. rewrite Hdir, Hred.
    destruct (metadata_dict (self st)) as [m|] eqn:Hm; [|done].
    destruct (md_segment_length m) as [sl|]; [|done].
    destruct (md_sample_rate m) as [sr|]; [|done].
    destruct (int_true_divide sl sr) as [e|input_len]; [done|].
    unfold save_embeddings_dict_with_timestamps. unfold_monad. rewrite Hm.
    destruct (md_embedding_dimensions (md_files m)) as [dims|]; [|done].
    destruct (t_stamps dims _) as [e|ts]; [done|].
    fold dest. unfold write_file. unfold_monad.
    destruct (is_dir (fs st) dest) eqn:Hfree; [done|].
    unfold dest at 1. rewrite path_parent_joinpath.
    destruct (is_dir (fs st) dir) eqn:Hisdir; [|done]. simpl.
    apply is_dir_lookup in Hisdir.
    set (doc := {| js_x := if (0 <? ncols embeds)%nat
                           then Some (column 0 embeds) else None;
                   js_y := if (1 <? ncols embeds)%nat
                           then Some (column 1 embeds) else None;
                   js_timestamp := ts; js_metadata := m |}).
    assert (<[dest := File (Json doc)]> (fs st) !! dir = Some Directory)
      as Hd'.
    { rewrite lookup_insert_ne; [done|]. apply joinpath_neq. }
    destruct (2 <? ncols embeds)%nat.
    - destruct (is_dir _ (npy_dest dest (ncols embeds))) eqn:Hfree2; [done|].
      destruct (is_dir _ (path_parent _)); [|done]. simpl.
      intros [= <-]. simpl. split; [|split; [|done]].
      + rewrite lookup_insert_ne; [done|]. intros E. rewrite E in Hfree2.
        change (is_dir (<[dest := File (Json doc)]> (fs st)) dir = false)
          in Hfree2.
        unfold is_dir in Hfree2. by rewrite Hd' in Hfree2.
      + destruct (decide (npy_dest dest (ncols embeds) = dest)) as [->|Hne].
        * rewrite lookup_insert_eq. by eexists.
        * rewrite lookup_insert_ne by done. rewrite lookup_insert_eq.
          by eexists.
    - intros [= <-]. simpl. split; [done|]. split; [|done].
      rewrite lookup_insert_eq. by eexists. }
  rewrite (update_files_reducing_eq st1 r dir) by (done || by rewrite Hself).
  eexists. split; [reflexivity|]. split; [done|]. simpl. split.
  - apply list_elem_of_filter. split.
    + unfold path_suffix, dest. rewrite path_name_joinpath.
      rewrite <- !string_app_assoc. apply suffix_of_json.
      intros E. apply (f_equal String.length) in E.
      rewrite !string_length_app in E. simpl in E. lia.
    + apply elem_of_children. repeat split; try done.
      * unfold dest, joinpath. by destruct dir.
      * apply path_parent_joinpath.
  - intros f Hf. apply list_elem_of_filter in Hf as [Hsuf Hf].
    apply elem_of_children in Hf as (_ & _ & _ & Hp). done.
Qed.

Lemma update_files_lists_the_reduction_artifact_witness :
  ∃ st2,
    update_files
      (state_of (save_embeddings ex_reducer 0 [] ex_reduced_embeds ex_reduction))
    = Ok tt st2
    ∧ fs st2
      = fs (state_of
              (save_embeddings ex_reducer 0 [] ex_reduced_embeds ex_reduction))
    ∧ joinpath ex_umap_1
        (path_stem (audio_dir (self ex_reduction)) +:+ "_"
           +:+ emb_model_name ex_reducer +:+ ".json")
      ∈ files (self st2)
    ∧ ∀ f, f ∈ files (self st2) →
           path_parent f = ex_umap_1 ∧ path_suffix f = ".json".
Proof.
  refine (update_files_lists_the_reduction_artifact ex_reducer 0 []
            ex_reduced_embeds ex_reduction
            (state_of
               (save_embeddings ex_reducer 0 [] ex_reduced_embeds ex_reduction))
            "umap" ex_umap_1 _ _ _ _).
  - reflexivity.
  - reflexivity.
  - reflexivity.
  - apply succeeds_eq. vm_compute. reflexivity.
Defined.

(** ** Starting a fresh raw run *)

(** X21. The two steps with which a fresh raw run starts fit
    together: once [_get_audio_paths] has returned, [_init_metadata_dict]
    returns too, and the record it builds names the model, the corpus
    directory and the directory made up for the run, with three empty
    sequences and no totals yet; the file system is not touched.  Without
    a directory assigned to the run, [_init_metadata_dict] raises
    [AttributeError]. *)
Theorem fresh_run_starts_with_an_empty_record (st s1 : state) :
  (_get_audio_paths st = Ok tt s1 →
   ∃ s2 d m,
     _init_metadata_dict s1 = Ok tt s2
     ∧ embed_dir (self s2) = Some d
     ∧ metadata_dict (self s2) = Some m
     ∧ md_embed_dir m = d
     ∧ md_audio_dir m = audio_dir (self st)
     ∧ md_model_name m = model_name (self st)
     ∧ md_audio_files (md_files m) = []
     ∧ md_file_lengths (md_files m) = []
     ∧ md_nr_embeds_per_file (md_files m) = []
     ∧ md_nr_embeds_total m = None
     ∧ fs s2 = fs st)
  ∧ (embed_dir (self st) = None →
     _init_metadata_dict st = Raise AttributeError st).
Proof.
  rewrite _get_audio_paths_eq. split.
  - intros H. destruct (0 <? length (enumerated st))%nat; [|done].
    injection H as <-. unfold _init_metadata_dict. unfold_monad. simpl.
    eexists _, _, _. repeat split; reflexivity.
  - intros He. unfold _init_metadata_dict. unfold_monad. by rewrite He.
Qed.

Lemma fresh_run_starts_with_an_empty_record_witness :
  ∃ s2 d m,
    _init_metadata_dict (state_of (_get_audio_paths ex_unchanged)) = Ok tt s2
    ∧ embed_dir (self s2) = Some d
    ∧ metadata_dict (self s2) = Some m
    ∧ md_embed_dir m = d
    ∧ md_audio_dir m = audio_dir (self ex_unchanged)
    ∧ md_model_name m = model_name (self ex_unchanged)
    ∧ md_audio_files (md_files m) = []
    ∧ md_file_lengths (md_files m) = []
    ∧ md_nr_embeds_per_file (md_files m) = []
    ∧ md_nr_embeds_total m = None
    ∧ fs s2 = fs ex_unchanged.
Proof.
  refine (proj1 (fresh_run_starts_with_an_empty_record ex_unchanged
                   (state_of (_get_audio_paths ex_unchanged))) _).
  apply succeeds_eq. vm_compute. reflexivity.
Defined.

(** ** Loading the artifacts of a run *)

Lemma load_artifact_inv (st st' : state) (file : path) (c : content) :
  match reducer (self st) with
  | None => np_load file;; mret Npy
  | Some _ => doc ← json_load file; mret (Json doc)
  end st = Ok c st' →
  st' = st ∧ fs st !! file = Some (File c)
  ∧ (∀ c', fs st !! file = Some (File c') → c' = c).
Proof.
  destruct (reducer (self st)); unfold np_load, json_load; unfold_monad;
    destruct (fs st !! file) as [[[| |]|]|]; try done;
    intros [= <- <-]; repeat split; try done; by intros c' [= <-].
Qed.

Lemma embedding_dict_loop_inv (files : list path) (d0 d : gmap path content)
    (st st' : state) :
  embedding_dict_loop files d0 st = Ok d st' →
  st' = st
  ∧ (files ≠ [] → is_Some (embed_dir (self st)))
  ∧ ∀ e rel c,
      embed_dir (self st) = Some e →
      d !! rel = Some c ↔
      (e ++ rel ∈ files ∧ fs st !! (e ++ rel) = Some (File c))
      ∨ ((e ++ rel ∉ files) ∧ d0 !! rel = Some c).
Proof.
  revert d0. induction files as [|file files IH]; intros d0.
  { intros [= <- <-]. split; [done|]. split; [done|]. intros e rel c _.
    split; [right; split; [apply not_elem_of_nil|done]|].
    intros [[H _]|[_ H]]; [by apply elem_of_nil in H|done]. }
  cbn [embedding_dict_loop]. unfold mbind at 1. unfold M_bind at 1.
  unfold get at 1. unfold mbind at 1. unfold M_bind at 1.
  match goal with
  | |- context [match ?load st with _ => _ end] =>
      destruct (load st) as [c0 s1|x s1] eqn:Hload; [|done]
  end.
  apply load_artifact_inv in Hload as (-> & Hc0 & Hsame).
  unfold read_embed_dir. unfold_monad.
  destruct (embed_dir (self st)) as [e|] eqn:He; [|done].
  destruct (relative_to file e) as [rel0|] eqn:Hrel; [|done].
  apply relative_to_Some in Hrel. subst file.
  intros H. apply IH in H as (-> & _ & H).
  split; [done|]. split; [by eexists|].
  intros e' rel c [= <-]. rewrite (H e rel c eq_refl).
  destruct (decide (rel = rel0)) as [->|Hne].
  - rewrite lookup_insert_eq. split.
    + intros [[_ Hc]|[_ [= <-]]]; left; (split; [by left|done]).
    + intros [[_ Hc]|[Hn _]]; [|destruct Hn; by left].
      destruct (decide (e ++ rel0 ∈ files)); [by left|right].
      split; [done|]. by rewrite (Hsame c Hc).
  - rewrite lookup_insert_ne by done.
    assert (e ++ rel ∈ (e ++ rel0) :: files ↔ e ++ rel ∈ files) as Hin.
    { rewrite elem_of_cons. split; [|by right].
      intros [E|?]; [|done]. by apply app_inv_head in E. }
    by rewrite Hin.
Qed.

(** X22. What [embedding_dict] returns is the file system seen
    through the list of artifacts: it reads and changes nothing, and
    under the key [rel] it holds [c] exactly when [embed_dir / rel] is one
    of [self.files] and the file there holds [c]; so a relative path is a
    key at most once, and every listed file is a key. *)
Theorem embedding_dict_mirrors_the_listed_files (st st' : state)
    (d : gmap path content) :
  embedding_dict st = Ok d st' →
  st' = st
  ∧ (files (self st) ≠ [] → is_Some (embed_dir (self st)))
  ∧ ∀ e rel c,
      embed_dir (self st) = Some e →
      d !! rel = Some c ↔
      e ++ rel ∈ files (self st) ∧ fs st !! (e ++ rel) = Some (File c).
Proof.
  unfold embedding_dict. unfold_monad. intros H.
  apply embedding_dict_loop_inv in H as (-> & Hsome & H).
  split; [done|]. split; [done|]. intros e rel c He.
  rewrite (H e rel c He), lookup_empty.
  split; [by intros [?|[_ ?]]|by left].
Qed.

Lemma value_of_eq {A} (r : result A) (a : A) :
  value_of r = Some a → r = Ok a (state_of r).
Proof. destruct r; [|done]. by intros [= ->]. Qed.

Lemma embedding_dict_mirrors_the_listed_files_witness :
  state_of (embedding_dict ex_reusing) = ex_reusing
  ∧ ∀ e rel c,
      embed_dir (self ex_reusing) = Some e →
      (list_to_map [(["a_X.npy"], Npy); (["sub"; "b_X.npy"], Npy)]
         : gmap path content) !! rel = Some c ↔
      e ++ rel ∈ files (self ex_reusing)
      ∧ fs ex_reusing !! (e ++ rel) = Some (File c).
Proof.
  destruct (embedding_dict_mirrors_the_listed_files ex_reusing
              (state_of (embedding_dict ex_reusing))
              (list_to_map [(["a_X.npy"], Npy); (["sub"; "b_X.npy"], Npy)]))
    as (H1 & _ & H2).
  - apply value_of_eq. vm_compute. reflexivity.
  - split; [exact H1|exact H2].
Defined.

(** ** Reusing a cache *)

Lemma examine_Break_embed_dir (st st' : state) (d : path) :
  examine d st = Ok Break st' → is_Some (embed_dir (self st')).
Proof.
  intros H.
  pose proof (examine_Break_inv _ _ _ H) as (Hname & Hdir & _ & _ & m & Hm & Hmodel).
  rewrite (examine_matching st d m) in H by done.
  destruct (reducer (self st)) as [r|] eqn:Hr.
  - destruct (contains r (path_stem d)); simplify_eq. by eexists.
  - destruct (0 <? length (enumerated st))%nat.
    + case_bool_decide; simplify_eq.
      unfold loaded. simpl. destruct (reducer _); by eexists.
    + simplify_eq. unfold loaded. simpl. rewrite Hr. by eexists.
Qed.

Lemma selects_embed_dir (dirs : list path) (st st' : state) (d : path) :
  selects dirs st d st' → is_Some (embed_dir (self st')).
Proof.
  induction 1 as [d dirs st st' H|d0 dirs st st0 d st' H _ IH]; [|done].
  by eapply examine_Break_embed_dir.
Qed.

Lemma check_embeds_already_exist_embed_dir (st st' : state) :
  check_embeds_already_exist st = Ok tt st' →
  combination_already_exists (self st') = true →
  is_Some (embed_dir (self st')).
Proof.
  intros Hrun Hmark. rewrite check_embeds_already_exist_eq in Hrun.
  destruct (truthy (check_if_combination_exists (self st)));
    [|by injection Hrun as <-].
  destruct (fs st !! cache_parent (self st)) as [[c|]|]; try done.
  assert (∀ dirs, scan_from_reset dirs st = Ok tt st' →
                  is_Some (embed_dir (self st'))) as Hscan.
  { intros dirs. unfold scan_from_reset, _find_existing_embed_dir.
    destruct (for_each examine (reverse (sort_paths dirs)) (reset st))
      as [r s|e s] eqn:E; [|done].
    intros [= ->].
    destruct (for_each_selects _ _ _ _ E) as [d Hsel]; [done|done|].
    by eapply selects_embed_dir. }
  destruct (check_if_combination_exists (self st)) as [b|name]; [by eauto|].
  destruct (children (fs st) (cache_parent (self st))); [done|by eauto].
Qed.

Lemma get_embedding_dir_existing (s : state) (e : path) :
  combination_already_exists (self s) = true →
  embed_dir (self s) = Some e →
  get_embedding_dir s
  = Ok (Some e)
      match reducer (self s) with
      | Some _ =>
          with_self (set_embed_parent_dir (dim_reduc_parent_dir (self s)) (self s)) s
      | None => s
      end.
Proof.
  intros Hmark He. unfold get_embedding_dir, read_embed_dir. unfold_monad.
  destruct (reducer (self s)); rewrite ?Hmark; simpl; by rewrite He.
Qed.

(** X23. In either mode, a resolution that marks the combination
    as existing has assigned [embed_dir], and [get_embeddings] then
    returns: it keeps that directory, lists in [self.files], sorted, the
    entries below it that end with [embed_suffix], and leaves the file
    system as it is. *)
Theorem reuse_is_followed_by_a_listing (st st1 : state) :
  check_embeds_already_exist st = Ok tt st1 →
  combination_already_exists (self st1) = true →
  ∃ e st2,
    embed_dir (self st1) = Some e
    ∧ get_embeddings st1 = Ok tt st2
    ∧ embed_dir (self st2) = Some e
    ∧ files (self st2) = sort_paths (rglob (fs st1) e (embed_suffix (self st1)))
    ∧ StronglySorted path_le (files (self st2))
    ∧ fs st2 = fs st1.
Proof.
  intros Hrun Hmark.
  destruct (check_embeds_already_exist_embed_dir _ _ Hrun Hmark) as [e He].
  exists e. rewrite get_embeddings_eq.
  rewrite (get_embedding_dir_existing st1 e) by done.
  destruct (reducer (self st1)); simpl; rewrite Hmark;
    (eexists; split; [done|]; split; [reflexivity|]; simpl;
     split; [done|]; split; [reflexivity|];
     split; [apply sort_paths_sorted|done]).
Qed.

Lemma reuse_is_followed_by_a_listing_witness :
  ∃ e st2,
    embed_dir (self (state_of (check_embeds_already_exist ex_unchanged)))
    = Some e
    ∧ get_embeddings (state_of (check_embeds_already_exist ex_unchanged))
      = Ok tt st2
    ∧ embed_dir (self st2) = Some e
    ∧ files (self st2)
      = sort_paths
          (rglob (fs (state_of (check_embeds_already_exist ex_unchanged))) e
             (embed_suffix
                (self (state_of (check_embeds_already_exist ex_unchanged)))))
    ∧ StronglySorted path_le (files (self st2))
    ∧ fs st2 = fs (state_of (check_embeds_already_exist ex_unchanged)).
Proof.
  refine (reuse_is_followed_by_a_listing ex_unchanged
            (state_of (check_embeds_already_exist ex_unchanged)) _ _).
  - apply succeeds_eq. vm_compute. reflexivity.
  - vm_compute. reflexivity.
Defined.

Lemma elem_of_rglob (f : filesystem) (d k : path) (suf : string) :
  k ∈ rglob f d suf ↔
  is_dir f d = true ∧ is_Some (f !! k) ∧ is_below d k = true
  ∧ ends_with suf (path_name k) = true.
Proof.
  unfold rglob. destruct (is_dir f d).
  - rewrite list_elem_of_filter, elem_of_elements, elem_of_dom.
    rewrite andb_True, !Is_true_true.
    split; [by intros [[? ?] ?]|by intros (_ & ? & ? & ?)].
  - rewrite elem_of_nil. split; [done|by intros [? _]].
Qed.

Lemma update_files_raw_eq (st : state) (e : path) :
  reducer (self st) = None →
  embed_dir (self st) = Some e →
  update_files st
  = Ok tt (with_self (set_files (rglob (fs st) e ".npy") (self st)) st).
Proof.
  intros Hr He. unfold update_files, read_embed_dir. unfold_monad.
  by rewrite He, Hr.
Qed.

(** X24. After a raw save has returned for a run whose
    directory exists, [update_files] returns, leaves the file system as
    it is, and lists the artifact just written; whatever it lists lies
    below the directory of the run and has a name ending in [.npy]. *)
Theorem update_files_lists_the_raw_artifact (embed : Embedder)
    (file_idx : nat) (file : path) (embeds : ndarray) (st st1 : state)
    (dir rel : path) :
  reducer (self st) = None →
  emb_dim_reduction_model embed = false →
  embed_dir (self st) = Some dir →
  is_dir (fs st) dir = true →
  relative_to file (audio_dir (self st)) = Some rel →
  save_embeddings embed file_idx file embeds st = Ok tt st1 →
  ∃ st2,
    update_files st1 = Ok tt st2
    ∧ fs st2 = fs st1
    ∧ raw_dest dir rel (path_stem file) (emb_model_name embed)
      ∈ files (self st2)
    ∧ ∀ f, f ∈ files (self st2) →
           is_below dir f = true ∧ ends_with ".npy" (path_name f) = true.
Proof.
  intros Hr Hraw Hdir Hisdir Hrel Hsave.
  rewrite (save_embeddings_raw_eq _ _ _ _ _ dir rel) in Hsave by done.
  set (dest := raw_dest dir rel (path_stem file) (emb_model_name embed)) in *.
  pose proof (mkdir_keeps (dir ++ path_parent rel) st) as [(Hself & _) [Hkeep _]].
  destruct (mkdir (dir ++ path_parent rel) st) as [[] s1|e s1]; [|done].
  simpl in Hself, Hkeep. rewrite write_file_eq in Hsave.
  destruct (is_dir (fs s1) dest) eqn:Hfree; [done|].
  destruct (is_dir (fs s1) (path_parent dest)); [|done].
  injection Hsave as <-.
  assert (is_dir (<[dest := File Npy]> (fs s1)) dir = true) as Hd1.
  { rewrite is_dir_insert_ne.
    - unfold is_dir in *. destruct (fs st !! dir) as [[c|]|] eqn:E; try done.
      by rewrite (Hkeep dir E).
    - intros E. apply (f_equal length) in E.
      unfold dest, raw_dest, joinpath in E. rewrite !length_app in E.
      simpl in E. lia. }
  rewrite (update_files_raw_eq _ dir);
    [|change (reducer (self s1) = None); by rewrite Hself
     |change (embed_dir (self s1) = Some dir); by rewrite Hself].
  eexists. split; [reflexivity|]. simpl.
  split; [done|]. split.
  - apply elem_of_rglob. split; [done|]. split.
    { rewrite lookup_insert_eq. by eexists. }
    split.
    + apply bool_decide_eq_true. split.
      * unfold dest, raw_dest, joinpath. rewrite <- app_assoc.
        by apply prefix_app_r.
      * intros E. apply (f_equal length) in E.
        unfold dest, raw_dest, joinpath in E. rewrite !length_app in E.
        simpl in E. lia.
    + unfold dest, raw_dest. rewrite path_name_joinpath.
      apply ends_with_artifact_name.
  - intros f Hf. by apply elem_of_rglob in Hf as (_ & _ & ? & ?).
Qed.

Lemma update_files_lists_the_raw_artifact_witness :
  ∃ st2,
    update_files
      (state_of
         (save_embeddings ex_embedder 1
            (joinpath (joinpath ex_corpus "sub") "b.wav")
            ex_reduced_embeds ex_fresh))
    = Ok tt st2
    ∧ fs st2
      = fs (state_of
              (save_embeddings ex_embedder 1
                 (joinpath (joinpath ex_corpus "sub") "b.wav")
                 ex_reduced_embeds ex_fresh))
    ∧ raw_dest ex_dir ["sub"; "b.wav"]
        (path_stem (joinpath (joinpath ex_corpus "sub") "b.wav"))
        (emb_model_name ex_embedder)
      ∈ files (self st2)
    ∧ ∀ f, f ∈ files (self st2) →
           is_below ex_dir f = true ∧ ends_with ".npy" (path_name f) = true.
Proof.
  refine (update_files_lists_the_raw_artifact ex_embedder 1
            (joinpath (joinpath ex_corpus "sub") "b.wav")
            ex_reduced_embeds ex_fresh _ ex_dir ["sub"; "b.wav"]
            _ _ _ _ _ _).
  - reflexivity.
  - reflexivity.
  - reflexivity.
  - reflexivity.
  - reflexivity.
  - apply succeeds_eq. vm_compute. reflexivity.
Defined.
